(** * cdlparser: a shallow embedding of the CDL-3 parser's token actions,
      grammar actions and data-layout routine (src/cdlparser/cdlparser.py). *)

From stdpp Require Import gmap strings list.
From Stdlib Require Import Ascii String QArith Qround.

Local Open Scope Z_scope.

(** ** Python values used by the parser *)

(** A length or count in [write_var_data]: an [int], or the [float] that a
    true division of two lengths gives.  Such a float is kept as the exact
    quotient; the rounding of a quotient that is not a binary fraction is
    not represented here (the values of literals are rounded, see [float]
    below). *)
Inductive num :=
  | PyInt (z : Z)
  | PyFloat (q : Q).

(** Exceptions.  The two CDL exception classes carry the site that raised
    them; the others are the Python built-ins that can escape the module. *)
Inductive errmsg :=
  | NetcdfNameRequired
  | BadFloatConstant (text : string)
  | BadDoubleConstant (text : string)
  | BadShortConstant (text : string)
  | ShortOutOfRange (n : Z)
  | BadByteConstant (text : string)
  | ByteOutOfRange (n : Z)
  | BadIntegerConstant (text : string)
  | IntegerOutOfRange (n : Z)
  | OnlyOneUnlimited
  | UnrecognisedDimLength (text : string)
  | DimMustBePositive (dimname : string)
  | DuplicateDimension (dimname : string)
  | UndefinedVariable (varname : string)
  | UndefinedDataVariable (varname : string)
  | DuplicateGlobalAttribute (attid : string)
  | DuplicateAttribute (attid : string)
  | InvalidAttributeName (attid : string)
  | ScalarAssignFailed (varname : string)
  | RecordLengthNotFactor (reclen varlen : num)
  | WriteFailed (varname : string)
  | UnrecognisedDataType (code : string).

Inductive exn :=
  | CDLSyntaxError (m : errmsg)
  | CDLContentError (m : errmsg)
  | NameError (name : string)
  | ZeroDivisionError
  | TypeError
  | IndexError
  | KeyError (key : string)
  | ValueError
  | OverflowError
  | AttributeError
  | LibraryError.         (* raised inside the array library or the data store *)

Inductive res (A : Type) :=
  | Ok (a : A)
  | Raise (e : exn).
Arguments Ok {A} a.
Arguments Raise {A} e.

Definition is_ok {A} (r : res A) : bool :=
  match r with Ok _ => true | Raise _ => false end.

Definition is_content_error {A} (r : res A) : bool :=
  match r with Raise (CDLContentError _) => true | _ => false end.

Definition is_syntax_error {A} (r : res A) : bool :=
  match r with Raise (CDLSyntaxError _) => true | _ => false end.

(** ** Regular expressions of the token rules

    The patterns are transcribed from the class attributes of [CDL3Parser];
    [matches] decides whether a whole lexeme has the shape. *)
Module Regex.

Inductive regex :=
  | Void
  | Eps
  | Chr (p : ascii -> bool)
  | Cat (r1 r2 : regex)
  | Alt (r1 r2 : regex)
  | Star (r : regex).

Fixpoint nullable (r : regex) : bool :=
  match r with
  | Void => false
  | Eps => true
  | Chr _ => false
  | Cat r1 r2 => nullable r1 && nullable r2
  | Alt r1 r2 => nullable r1 || nullable r2
  | Star _ => true
  end.

Fixpoint deriv (c : ascii) (r : regex) : regex :=
  match r with
  | Void => Void
  | Eps => Void
  | Chr p => if p c then Eps else Void
  | Cat r1 r2 =>
      if nullable r1 then Alt (Cat (deriv c r1) r2) (deriv c r2)
      else Cat (deriv c r1) r2
  | Alt r1 r2 => Alt (deriv c r1) (deriv c r2)
  | Star r1 => Cat (deriv c r1) (Star r1)
  end.

Fixpoint matches (r : regex) (s : string) : bool :=
  match s with
  | EmptyString => nullable r
  | String c s' => matches (deriv c r) s'
  end.

Definition Opt (r : regex) : regex := Alt r Eps.
Definition Plus (r : regex) : regex := Cat r (Star r).

Definition between (lo hi : ascii) (c : ascii) : bool :=
  (N.leb (N_of_ascii lo) (N_of_ascii c)) && (N.leb (N_of_ascii c) (N_of_ascii hi)).
Definition only (a : ascii) (c : ascii) : bool := N.eqb (N_of_ascii a) (N_of_ascii c).
Definition either (a b : ascii) (c : ascii) : bool := only a c || only b c.

Definition digit : ascii -> bool := between "0"%char "9"%char.
Definition hexdigit (c : ascii) : bool :=
  digit c || between "a"%char "f"%char c || between "A"%char "F"%char c.
Definition octdigit : ascii -> bool := between "0"%char "7"%char.
Definition newline : ascii := ascii_of_N 10.
Definition backslash : ascii := ascii_of_N 92.
Definition quote : ascii := ascii_of_N 39.

Definition sign : regex := Opt (Chr (either "+"%char "-"%char)).

(** [exp = r'([eE][+-]?[0-9]+)'] *)
Definition exp : regex :=
  Cat (Chr (either "e"%char "E"%char)) (Cat sign (Plus (Chr digit))).

(** [[+-]?[0-9]*\.[0-9]*] *)
Definition mantissa : regex :=
  Cat sign (Cat (Star (Chr digit)) (Cat (Chr (only "."%char)) (Star (Chr digit)))).

(** [float_const = [+-]?[0-9]*\.[0-9]*exp?[Ff] | [+-]?[0-9]*exp[Ff]] *)
Definition float_const : regex :=
  Alt (Cat mantissa (Cat (Opt exp) (Chr (either "F"%char "f"%char))))
      (Cat sign (Cat (Star (Chr digit)) (Cat exp (Chr (either "F"%char "f"%char))))).

(** [double_const = [+-]?[0-9]*\.[0-9]*exp?[Dd]? | [+-]?[0-9]*exp[Dd]?] *)
Definition double_const : regex :=
  Alt (Cat mantissa (Cat (Opt exp) (Opt (Chr (either "D"%char "d"%char)))))
      (Cat sign (Cat (Star (Chr digit)) (Cat exp (Opt (Chr (either "D"%char "d"%char)))))).

(** [[+-]?([0-9]+|0[xX][0-9a-fA-F]+)[sS]] *)
Definition short_const : regex :=
  Cat sign
    (Cat (Alt (Plus (Chr digit))
              (Cat (Chr (only "0"%char)) (Cat (Chr (either "x"%char "X"%char)) (Plus (Chr hexdigit)))))
         (Chr (either "s"%char "S"%char))).

Definition quoted (r : regex) : regex := Cat (Chr (only quote)) (Cat r (Chr (only quote))).

(** [byte_const]: a decimal with suffix [b], or a quoted character, escape,
    octal escape or hexadecimal escape. *)
Definition byte_const : regex :=
  Alt (Cat sign (Cat (Plus (Chr digit)) (Chr (either "B"%char "b"%char))))
 (Alt (quoted (Chr (fun c => negb (only backslash c))))
 (Alt (quoted (Cat (Chr (only backslash)) (Chr (fun c => negb (only newline c)))))
 (Alt (quoted (Cat (Chr (only backslash))
                (Cat (Chr octdigit) (Cat (Opt (Chr octdigit)) (Opt (Chr octdigit))))))
      (quoted (Cat (Chr (only backslash))
                (Cat (Chr (either "x"%char "X"%char)) (Cat (Chr hexdigit) (Opt (Chr hexdigit))))))))).

(** [[+-]?([1-9][0-9]*|0[xX]?[0-9a-fA-F]+|0)] *)
Definition int_const : regex :=
  Cat sign
    (Alt (Cat (Chr (between "1"%char "9"%char)) (Star (Chr digit)))
    (Alt (Cat (Chr (only "0"%char)) (Cat (Opt (Chr (either "x"%char "X"%char))) (Plus (Chr hexdigit))))
         (Chr (only "0"%char)))).

End Regex.

(** ** Floating-point values *)

(** A Python [float] or a numpy floating-point scalar: a finite value, kept
    as the rational number it is, or an infinity.  The sign of zero is not
    kept, and there is no NaN: no literal denotes one. *)
Inductive float :=
  | Finite (q : Q)
  | Infinity (negative : bool).

(** Rounding of a rational to the nearest binary floating-point number,
    ties to even, as [float(s)] and [np.float32(x)] do. *)
Module IEEE.

(** [floor(log2(n/d))] for positive [n] and [d] *)
Definition ilog2 (n d : Z) : Z :=
  let e := Z.log2 n - Z.log2 d in
  if (if 0 <=? e then d * 2 ^ e <=? n else d <=? n * 2 ^ (- e)) then e else e - 1.

(** [n/d] divided by [2^ex], as a fraction *)
Definition scaled (n d ex : Z) : Z * Z :=
  if 0 <=? ex then (n, d * 2 ^ ex) else (n * 2 ^ (- ex), d).

(** The integer nearest to [a/b], the even one of two equally near *)
Definition round_half_even (a b : Z) : Z :=
  let q := a / b in
  let r := a mod b in
  if 2 * r <? b then q
  else if b <? 2 * r then q + 1
  else if Z.even q then q else q + 1.

(** The nearest number with [prec] significant bits whose exponent lies in
    [emin .. emax], subnormal numbers included; a result beyond the largest
    such number is an infinity. *)
Definition round (prec emin emax : Z) (q : Q) : float :=
  let n := Qnum q in
  let d := Zpos (Qden q) in
  if n =? 0 then Finite 0
  else
    let a := Z.abs n in
    let ex := Z.max (ilog2 a d - (prec - 1)) (emin - (prec - 1)) in
    let '(x, y) := scaled a d ex in
    let m := round_half_even x y in
    if (0 <=? ex) && (2 ^ (emax + 1) <=? m * 2 ^ ex) then Infinity (n <? 0)
    else
      let magnitude :=
        if 0 <=? ex then inject_Z (m * 2 ^ ex)
        else Qred (Qmake m (Z.to_pos (2 ^ (- ex)))) in
      Finite (if n <? 0 then Qred (- magnitude) else magnitude).

Definition binary64 : Q -> float := round 53 (-1022) 1023.
Definition binary32 : Q -> float := round 24 (-126) 127.

(** [np.float32(x)] for a float [x] *)
Definition float32 (x : float) : float :=
  match x with
  | Finite q => binary32 q
  | Infinity s => Infinity s
  end.

End IEEE.

(** ** Python built-ins applied to lexemes

    [int(s)], [float(s)] and [eval(s)] are modelled on the literal forms that
    the token patterns admit; [None] stands for the exception the built-in
    raises (every call site sits inside a bare [except]). *)
Module Py.

Definition ord (c : ascii) : Z := Z.of_N (N_of_ascii c).

Definition digit_value (base : Z) (c : ascii) : option Z :=
  let v :=
    if Regex.digit c then Some (ord c - 48)
    else if Regex.between "a"%char "f"%char c then Some (ord c - 87)
    else if Regex.between "A"%char "F"%char c then Some (ord c - 55)
    else None in
  match v with
  | Some d => if d <? base then Some d else None
  | None => None
  end.

(** Value of a non-empty run of digits in the given base. *)
Fixpoint digits_acc (base : Z) (acc : Z) (l : list ascii) : option Z :=
  match l with
  | [] => Some acc
  | c :: l' =>
      match digit_value base c with
      | Some d => digits_acc base (acc * base + d) l'
      | None => None
      end
  end.

Definition digits_value (base : Z) (l : list ascii) : option Z :=
  match l with
  | [] => None
  | _ => digits_acc base 0 l
  end.

Definition split_sign (l : list ascii) : Z * list ascii :=
  match l with
  | c :: l' =>
      if Regex.only "-"%char c then (-1, l')
      else if Regex.only "+"%char c then (1, l')
      else (1, l)
  | [] => (1, l)
  end.

(** [int(s)]: optional sign and decimal digits (leading zeros allowed). *)
Definition int_of_str (s : string) : option Z :=
  let '(sg, body) := split_sign (list_ascii_of_string s) in
  match digits_value 10 body with
  | Some n => Some (sg * n)
  | None => None
  end.

(** [eval(s)] for an integer literal with an optional sign.  Python 3
    rejects a decimal literal with a leading zero unless all its digits
    are zero; prefixes [0x], [0o] and [0b] select the base.  A lexeme with
    an exponent, which Python would read as a float, never reaches the
    integer rules: the double rule is tried before them. *)
Definition eval_int (s : string) : option Z :=
  let '(sg, body) := split_sign (list_ascii_of_string s) in
  let magnitude :=
    match body with
    | z :: p :: digits =>
        if Regex.only "0"%char z then
          if Regex.either "x"%char "X"%char p then digits_value 16 digits
          else if Regex.either "o"%char "O"%char p then digits_value 8 digits
          else if Regex.either "b"%char "B"%char p then digits_value 2 digits
          else if forallb (Regex.only "0"%char) (p :: digits) then Some 0
          else None
        else digits_value 10 body
    | _ => digits_value 10 body
    end in
  match magnitude with
  | Some n => Some (sg * n)
  | None => None
  end.

Fixpoint span (p : ascii -> bool) (l : list ascii) : list ascii * list ascii :=
  match l with
  | c :: l' => if p c then let '(a, b) := span p l' in (c :: a, b) else ([], l)
  | [] => ([], [])
  end.

(** Decimal exponent: empty, or [[eE][+-]?[0-9]+]. *)
Definition exponent (l : list ascii) : option Z :=
  match l with
  | [] => Some 0
  | e :: l' =>
      if Regex.either "e"%char "E"%char e then
        let '(sg, ds) := split_sign l' in
        match digits_value 10 ds with
        | Some n => Some (sg * n)
        | None => None
        end
      else None
  end.

(** The number a decimal literal denotes: sign, digits with an optional
    point (at least one digit), optional exponent. *)
Definition decimal_of_str (s : string) : option Q :=
  let '(sg, body) := split_sign (list_ascii_of_string s) in
  let '(ip, r1) := span Regex.digit body in
  let '(fp, r2) :=
    match r1 with
    | c :: r => if Regex.only "."%char c then span Regex.digit r else ([], r1)
    | [] => ([], r1)
    end in
  match digits_value 10 (ip ++ fp)%list, exponent r2 with
  | Some m, Some e =>
      Some (Qred (inject_Z (sg * m) * Qpower (inject_Z 10) (e - Z.of_nat (List.length fp))))
  | _, _ => None
  end.

(** [float(s)]: the double nearest to the number written. *)
Definition float_of_str (s : string) : option float :=
  IEEE.binary64 <$> decimal_of_str s.

(** One-character escapes of a Python string literal. *)
Definition simple_escape (c : ascii) : option Z :=
  if Regex.only Regex.backslash c then Some 92
  else if Regex.only Regex.quote c then Some 39
  else if Regex.only (ascii_of_N 34) c then Some 34
  else if Regex.only "a"%char c then Some 7
  else if Regex.only "b"%char c then Some 8
  else if Regex.only "f"%char c then Some 12
  else if Regex.only "n"%char c then Some 10
  else if Regex.only "r"%char c then Some 13
  else if Regex.only "t"%char c then Some 9
  else if Regex.only "v"%char c then Some 11
  else None.

(** [ord(eval(s))] for a quoted character literal.  [None] covers both a
    literal Python rejects and one that denotes a string whose length is
    not one. *)
Definition ord_eval_char (s : string) : option Z :=
  match list_ascii_of_string s with
  | q1 :: rest =>
      match rev rest with
      | q2 :: rbody =>
          if Regex.only Regex.quote q1 && Regex.only Regex.quote q2 then
            match rev rbody with
            | [c] =>
                if Regex.only Regex.backslash c || Regex.only Regex.quote c
                   || Regex.only Regex.newline c || Regex.only (ascii_of_N 13) c
                   || Regex.only (ascii_of_N 0) c
                then None else Some (ord c)
            | b :: x :: h1 :: [h2] =>
                if Regex.only Regex.backslash b && Regex.only "x"%char x
                then digits_value 16 [h1; h2]
                else if Regex.only Regex.backslash b then digits_value 8 [x; h1; h2]
                else None
            | [b; c] =>
                if Regex.only Regex.backslash b then
                  match digits_value 8 [c] with
                  | Some n => Some n
                  | None => simple_escape c
                  end
                else None
            | [b; o1; o2] =>
                if Regex.only Regex.backslash b then digits_value 8 [o1; o2] else None
            | _ => None
            end
          else None
      | [] => None
      end
  | [] => None
  end.

End Py.

(** ** Literal values *)

(** The typed payload of a literal token: a numpy scalar or a text. *)
Inductive scalar :=
  | SInt8 (z : Z)
  | SInt16 (z : Z)
  | SInt32 (z : Z)
  | SFloat32 (x : float)
  | SFloat64 (x : float)
  | SStr (s : string).

(** An attribute value or an element of a data list: a scalar, or the list
    of scalars of a multi-valued attribute. *)
Inductive value :=
  | Scalar (s : scalar)
  | Values (l : list scalar).

Definition XDR_INT_MIN : Z := -2147483648.
Definition XDR_INT_MAX : Z := 2147483647.
Definition FILL_STRING : string := "_".

(** [s[:-1]] *)
Fixpoint drop_last (s : string) : string :=
  match s with
  | EmptyString => EmptyString
  | String c EmptyString => EmptyString
  | String c s' => String c (drop_last s')
  end.

(** [s[-1]], when [s] is not empty *)
Fixpoint last_char (s : string) : option ascii :=
  match s with
  | EmptyString => None
  | String c EmptyString => Some c
  | String _ s' => last_char s'
  end.

Definition first_char (s : string) : option ascii :=
  match s with
  | EmptyString => None
  | String c _ => Some c
  end.

(** ** Token actions *)

Definition t_FLOAT_CONST (text : string) : res scalar :=
  match Py.float_of_str (drop_last text) with
  | Some float_val => Ok (SFloat32 (IEEE.float32 float_val))
  | None => Raise (CDLContentError (BadFloatConstant text))
  end.

Definition t_DOUBLE_CONST (text : string) : res scalar :=
  let decoded :=
    match last_char text with
    | Some c =>
        if Regex.either "d"%char "D"%char c then Py.float_of_str (drop_last text)
        else Py.float_of_str text
    | None => None
    end in
  match decoded with
  | Some double_val => Ok (SFloat64 double_val)
  | None => Raise (CDLContentError (BadDoubleConstant text))
  end.

Definition t_SHORT_CONST (text : string) : res scalar :=
  match Py.eval_int (drop_last text) with
  | None => Raise (CDLContentError (BadShortConstant text))
  | Some int_val =>
      if (int_val <? -32768) || (int_val >? 32767)
      then Raise (CDLContentError (ShortOutOfRange int_val))
      else Ok (SInt16 int_val)
  end.

Definition t_BYTE_CONST (text : string) : res scalar :=
  let decoded :=
    match first_char text with
    | Some c =>
        if Regex.only Regex.quote c then Py.ord_eval_char text
        else Py.int_of_str (drop_last text)
    | None => None
    end in
  match decoded with
  | None => Raise (CDLContentError (BadByteConstant text))
  | Some int_val =>
      if (int_val <? -128) || (int_val >? 127)
      then Raise (CDLContentError (ByteOutOfRange int_val))
      else Ok (SInt8 int_val)
  end.

(** In the out-of-range branch the message is formatted with [int_val], a
    name that is not bound in this function, so building the message raises
    [NameError] before [CDLContentError] can be raised. *)
Definition t_INT_CONST (text : string) : res scalar :=
  match Py.eval_int text with
  | None => Raise (CDLContentError (BadIntegerConstant text))
  | Some long_val =>
      if (long_val <? XDR_INT_MIN) || (long_val >? XDR_INT_MAX)
      then Raise (NameError "int_val")
      else Ok (SInt32 long_val)
  end.

(** ** Python arithmetic on [num] *)

Definition num_Q (n : num) : Q :=
  match n with
  | PyInt z => inject_Z z
  | PyFloat q => q
  end.

Definition num_truthy (n : num) : bool := negb (Qeq_bool (num_Q n) 0).

(** [a / b]: true division, always a float. *)
Definition num_truediv (a b : num) : res num :=
  if Qeq_bool (num_Q b) 0 then Raise ZeroDivisionError
  else Ok (PyFloat (Qred (num_Q a / num_Q b))).

(** [a % b]: the result takes the sign of the divisor. *)
Definition num_mod (a b : num) : res num :=
  match a, b with
  | PyInt x, PyInt y =>
      if y =? 0 then Raise ZeroDivisionError else Ok (PyInt (x mod y))
  | _, _ =>
      if Qeq_bool (num_Q b) 0 then Raise ZeroDivisionError
      else Ok (PyFloat (Qred (num_Q a - num_Q b * inject_Z (Qfloor (num_Q a / num_Q b)))))
  end.

Definition num_sub (a b : num) : num :=
  match a, b with
  | PyInt x, PyInt y => PyInt (x - y)
  | _, _ => PyFloat (Qred (num_Q a - num_Q b))
  end.

Definition num_lt (a b : num) : bool := negb (Qle_bool (num_Q b) (num_Q a)).

(** [int(x)] on a float: truncation towards zero. *)
Definition Qtruncate (q : Q) : Z :=
  if Qle_bool 0 q then Qfloor q else Qceiling q.

(** [reduce(lambda x,y: x*y, l)] without an initial value. *)
Definition reduce_mul (l : list Z) : res Z :=
  match l with
  | [] => Raise TypeError
  | x :: l' => Ok (fold_left Z.mul l' x)
  end.

(** ** The dataset as the parser sees it *)

Inductive dtype := NC_BYTE | NC_CHAR | NC_SHORT | NC_INT | NC_FLOAT | NC_DOUBLE.

(** [var.dtype.kind] *)
Definition dtype_kind (d : dtype) : string :=
  match d with
  | NC_CHAR => "S"
  | NC_FLOAT | NC_DOUBLE => "f"
  | _ => "i"
  end.

(** [var.dtype.char].  Variables are created from the type codes of
    [NC_NP_DATA_TYPE_MAP]; for [char] that code is ['c'], which numpy keeps
    as the dtype's character (its kind is ['S']). *)
Definition dtype_char (d : dtype) : string :=
  match d with
  | NC_BYTE => "b"
  | NC_CHAR => "c"
  | NC_SHORT => "h"
  | NC_INT => "i"
  | NC_FLOAT => "f"
  | NC_DOUBLE => "d"
  end.

Record dimension := mkDimension {
  dim_len : Z;              (* current length; 0 for an unlimited dimension without records *)
  dim_unlimited : bool
}.

Record variable := mkVariable {
  var_dtype : dtype;
  var_dimensions : list string;
  var_attrs : gmap string value
}.

(** An array handed to a variable: the element type it is converted to, its
    shape and its elements in row-major order. *)
Record ndarray := mkArray {
  arr_dtype : dtype;
  arr_shape : list num;
  arr_data : list value
}.

Inductive stored :=
  | StoredScalar (v : value)
  | StoredArray (a : ndarray).

Record dataset := mkDataset {
  dimensions : gmap string dimension;
  variables : gmap string variable;
  ncattrs : gmap string value;
  contents : list (string * stored)      (* what the store holds per variable *)
}.

Definition empty_dataset : dataset := mkDataset ∅ ∅ ∅ [].

(** [createDimension(name, size)]: size 0 makes the dimension unlimited. *)
Definition createDimension (name : string) (size : Z) (ds : dataset) : dataset :=
  mkDataset (<[name := mkDimension size (size =? 0)]> (dimensions ds))
            (variables ds) (ncattrs ds) (contents ds).

Definition createVariable (name : string) (dt : dtype) (dims : list string)
    (ds : dataset) : dataset :=
  mkDataset (dimensions ds) (<[name := mkVariable dt dims ∅]> (variables ds))
            (ncattrs ds) (contents ds).

(** [ds.setncattr(name, value)] *)
Definition setncattr (name : string) (v : value) (ds : dataset) : dataset :=
  mkDataset (dimensions ds) (variables ds) (<[name := v]> (ncattrs ds)) (contents ds).

(** [var.setncattr(name, value)] *)
Definition var_setncattr (varname name : string) (v : value) (ds : dataset) : dataset :=
  mkDataset (dimensions ds)
            (alter (fun var => mkVariable (var_dtype var) (var_dimensions var)
                                  (<[name := v]> (var_attrs var))) varname (variables ds))
            (ncattrs ds) (contents ds).

(** [var.shape]: the current lengths of the variable's dimensions. *)
Definition var_shape (ds : dataset) (var : variable) : option (list Z) :=
  mapM (fun d => dim_len <$> dimensions ds !! d) (var_dimensions var).

(** [var.size] *)
Definition shape_size (shape : list Z) : Z := fold_right Z.mul 1 shape.

(** [var.ndim] *)
Definition var_ndim (var : variable) : Z := Z.of_nat (List.length (var_dimensions var)).

(** The array library and the data store are outside the module: what they
    accept, and what the store holds afterwards, is an interface. *)
Class Sink := {
  (** [var.dtype.type(attval)] *)
  np_cast : dtype -> value -> option value;
  (** the text of a non-text element placed in a fixed-width text array *)
  np_text : value -> option string;
  (** [var.assignValue(v)] *)
  nc_assignValue : dataset -> string -> value -> option dataset;
  (** [np.array(data, dtype)], the reshape to [shape], and [var[:] = nparr] *)
  nc_setitem : dataset -> string -> ndarray -> option dataset;
  (** whether [ds.setncattr(name, v)] is accepted; when it is, the dataset
      afterwards is [setncattr name v ds], and when it is not, the call
      raises and the dataset is as before *)
  ds_setncattr_ok : dataset -> string -> value -> bool;
  (** the same for [var.setncattr(name, v)] on the variable [varname] *)
  var_setncattr_ok : dataset -> string -> string -> value -> bool
}.

(** ** Logging *)

Inductive level := DEBUG | INFO | WARNING | ERROR.

Inductive logmsg :=
  | IllegalCharacter (lineno lexpos : Z) (text : string)
  | CreatedDimension (dimname : string) (dimlen : Z)
  | CreatedGlobalAttribute (attid : string) (attval : value)
  | CreatedAttribute (varname attname : string) (attval : value)
  | CurrentVariable (varname : string)
  | UnableToReplaceFill
  | WroteValues (n : Z) (varname : string)
  | Failure (e : exn)
  | ScanningData (varname : string)
  | AssignedScalar (v : value) (varname : string)
  | ScalarAssignError (varname : string)
  | ArrayLength (n : Z)
  | ExpectedLength (n : num)
  | RecordLength (n : num)
  | Padded (n : num).

(** ** The parser object *)

Record parser := mkParser {
  ncdataset : option dataset;
  rec_dimname : option string;
  curr_var : option string;          (* handle of the current variable *)
  curr_dim : option string;
  lexpos : Z;
  lineno : Z;
  logged : list (level * logmsg)     (* logger calls, oldest first *)
}.

Definition with_dataset (ds : dataset) (p : parser) : parser :=
  mkParser (Some ds) (rec_dimname p) (curr_var p) (curr_dim p) (lexpos p) (lineno p) (logged p).
Definition with_rec_dimname (n : string) (p : parser) : parser :=
  mkParser (ncdataset p) (Some n) (curr_var p) (curr_dim p) (lexpos p) (lineno p) (logged p).
Definition with_curr_var (n : string) (p : parser) : parser :=
  mkParser (ncdataset p) (rec_dimname p) (Some n) (curr_dim p) (lexpos p) (lineno p) (logged p).
Definition with_curr_dim (n : string) (p : parser) : parser :=
  mkParser (ncdataset p) (rec_dimname p) (curr_var p) (Some n) (lexpos p) (lineno p) (logged p).
Definition with_lexpos (n : Z) (p : parser) : parser :=
  mkParser (ncdataset p) (rec_dimname p) (curr_var p) (curr_dim p) n (lineno p) (logged p).
Definition with_lineno (n : Z) (p : parser) : parser :=
  mkParser (ncdataset p) (rec_dimname p) (curr_var p) (curr_dim p) (lexpos p) n (logged p).
Definition with_log (l : level) (m : logmsg) (p : parser) : parser :=
  mkParser (ncdataset p) (rec_dimname p) (curr_var p) (curr_dim p) (lexpos p) (lineno p)
           (logged p ++ [(l, m)]).

(** State of a parser after [parse_text] has reset it and [init_netcdf] has
    opened an empty dataset. *)
Definition fresh_parser : parser :=
  mkParser (Some empty_dataset) None None None 0 1 [].

(** Actions run on the parser object and may raise; what they did to the
    object before raising stays done. *)
Definition M (A : Type) : Type := parser -> res A * parser.

Definition ret {A} (a : A) : M A := fun p => (Ok a, p).
Definition raise {A} (e : exn) : M A := fun p => (Raise e, p).
Definition bind {A B} (m : M A) (k : A -> M B) : M B :=
  fun p => match m p with
           | (Ok a, p') => k a p'
           | (Raise e, p') => (Raise e, p')
           end.
Definition lift {A} (r : res A) : M A := fun p => (r, p).
Definition gets {A} (f : parser -> A) : M A := fun p => (Ok (f p), p).
Definition modify (f : parser -> parser) : M unit := fun p => (Ok tt, f p).
(** [try: m  except: h] *)
Definition try_except {A} (m : M A) (h : exn -> M A) : M A :=
  fun p => match m p with
           | (Ok a, p') => (Ok a, p')
           | (Raise e, p') => h e p'
           end.

Declare Scope action_scope.
Delimit Scope action_scope with action.
Notation "'let!' x ':=' m 'in' k" := (bind m (fun x => k))
  (at level 10, x name, m at level 100, k at level 200) : action_scope.
Notation "'run' m 'then' k" := (bind m (fun _ => k))
  (at level 10, m at level 100, k at level 200) : action_scope.
Local Open Scope action_scope.

Definition log (l : level) (m : logmsg) : M unit := modify (with_log l m).

(** [self.ncdataset], as an object whose members are about to be used. *)
Definition the_dataset : M dataset :=
  fun p => match ncdataset p with
           | Some ds => (Ok ds, p)
           | None => (Raise AttributeError, p)
           end.

(** Truth value of an optional name: [None] and the empty string are false. *)
Definition name_truthy (o : option string) : bool :=
  match o with
  | Some s => negb (String.eqb s "")
  | None => false
  end.

(** ** Lexer callbacks that act on the lexer object *)

Record LexToken := mkToken {
  tok_value : string;
  tok_lineno : Z;
  tok_lexpos : Z
}.

(** [t.lexer.skip(n)] *)
Definition skip (n : Z) : M unit := modify (fun p => with_lexpos (lexpos p + n) p).

Definition t_newline (t : LexToken) : M unit :=
  modify (fun p => with_lineno (lineno p + Z.of_nat (String.length (tok_value t))) p).

Definition t_error (t : LexToken) : M unit :=
  run log WARNING (IllegalCharacter (tok_lineno t) (tok_lexpos t) (tok_value t)) then
  skip 1.

(** ** Default fill values *)

Definition NC_FILL_BYTE : scalar := SInt8 (-127).
Definition NC_FILL_CHAR : scalar := SStr (String (ascii_of_N 0) EmptyString).
Definition NC_FILL_SHORT : scalar := SInt16 (-32767).
Definition NC_FILL_INT : scalar := SInt32 (-2147483647).
(** The literal [9.9692099683868690e+36] *)
Definition fill_real : float := IEEE.binary64 (inject_Z (99692099683868690 * 10 ^ 20)).
Definition NC_FILL_FLOAT : scalar := SFloat32 (IEEE.float32 fill_real).
Definition NC_FILL_DOUBLE : scalar := SFloat64 fill_real.

Definition code_in (code : string) (codes : list string) : bool :=
  existsb (String.eqb code) codes.

Definition get_default_fill_value (datatype : string) : res scalar :=
  if String.eqb datatype "b" then Ok NC_FILL_BYTE
  else if code_in datatype ["S"; "U"] then Ok NC_FILL_CHAR
  else if code_in datatype ["h"; "s"] then Ok NC_FILL_SHORT
  else if String.eqb datatype "i" then Ok NC_FILL_INT
  else if String.eqb datatype "f" then Ok NC_FILL_FLOAT
  else if String.eqb datatype "d" then Ok NC_FILL_DOUBLE
  else Raise (CDLContentError (UnrecognisedDataType datatype)).

(** ** Dimension declarations *)

(** [int(x)]: a finite float is truncated towards zero, an infinite one
    cannot be converted. *)
Definition int_of_scalar (s : scalar) : res Z :=
  match s with
  | SInt8 z | SInt16 z | SInt32 z => Ok z
  | SFloat32 (Finite q) | SFloat64 (Finite q) => Ok (Qtruncate q)
  | SFloat32 (Infinity _) | SFloat64 (Infinity _) => Raise OverflowError
  | SStr s =>
      match Py.int_of_str s with
      | Some z => Ok z
      | None => Raise ValueError
      end
  end.

(** [dimd : dim] *)
Definition p_dimd (p1 : string) : M string :=
  let! ds := the_dataset in
  if decide (is_Some (dimensions ds !! p1))
  then raise (CDLContentError (DuplicateDimension p1))
  else ret p1.

(** [dimdecl : dimd EQUALS INT_CONST | dimd EQUALS DOUBLE_CONST
             | dimd EQUALS NC_UNLIMITED_K] *)
Definition p_dimdecl (p1 : string) (p3 : scalar) : M unit :=
  let! decl :=
    match p3 with
    | SStr s =>
        if String.eqb s "unlimited" then
          let! rec := gets rec_dimname in
          if name_truthy rec then raise (CDLContentError OnlyOneUnlimited)
          else run modify (with_rec_dimname p1) then ret (p1, 0)
        else raise (CDLContentError (UnrecognisedDimLength s))
    | _ =>
        let! dimlen := lift (int_of_scalar p3) in
        if dimlen <=? 0 then raise (CDLContentError (DimMustBePositive p1))
        else ret (p1, dimlen)
    end in
  let '(dimname, dimlen) := decl in
  if negb (String.eqb dimname "") then
    let! ds := the_dataset in
    run modify (with_dataset (createDimension dimname dimlen ds)) then
    run modify (with_curr_dim dimname) then
    log INFO (CreatedDimension dimname dimlen)
  else ret tt.

(** The whole production: [dimd] is reduced first, then [dimdecl]. *)
Definition dimdecl (name : string) (p3 : scalar) : M unit :=
  let! p1 := p_dimd name in p_dimdecl p1 p3.

(** ** Variable references and constants *)

(** [avar : var] *)
Definition p_avar (varname : string) : M string :=
  let! ds := gets ncdataset in
  match ds with
  | Some ds =>
      if decide (is_Some (variables ds !! varname)) then
        run modify (with_curr_var varname) then
        run log DEBUG (CurrentVariable varname) then
        ret varname
      else raise (CDLContentError (UndefinedVariable varname))
  | None => ret varname
  end.

Definition is_fill_string (p1 : scalar) : bool :=
  match p1 with
  | SStr s => String.eqb s FILL_STRING
  | _ => false
  end.

(** The object behind the handle [self.curr_var]. *)
Definition current_variable (p : parser) : option variable :=
  match curr_var p, ncdataset p with
  | Some name, Some ds => variables ds !! name
  | _, _ => None
  end.

(** [const : BYTE_CONST | ... | TERMSTRING | FILLVALUE] *)
Definition p_const (p1 : scalar) : M value :=
  if is_fill_string p1 then
    let! cv := gets current_variable in
    match cv with
    | Some var =>
        if negb (String.eqb (dtype_kind (var_dtype var)) "S") then
          match var_attrs var !! "_FillValue" with
          | Some fv => ret fv
          | None =>
              let! fv := lift (get_default_fill_value (dtype_char (var_dtype var))) in
              ret (Scalar fv)
          end
        else
          run log WARNING UnableToReplaceFill then ret (Scalar p1)
    | None =>
        run log WARNING UnableToReplaceFill then ret (Scalar p1)
    end
  else ret (Scalar p1).

(** ** Padding and packing *)

(** [pad_array(var, varlen, arr)]; the result is [arr] after the call.
    A list can only be repeated an [int] number of times. *)
Definition pad_array (var : variable) (varlen : num) (arr : list value) : res (list value) :=
  let fill :=
    match var_attrs var !! "_FillValue" with
    | Some fv => Ok fv
    | None =>
        match var_attrs var !! "missing_value" with
        | Some fv => Ok fv
        | None =>
            match get_default_fill_value (dtype_char (var_dtype var)) with
            | Ok fv => Ok (Scalar fv)
            | Raise e => Raise e
            end
        end
    end in
  match fill with
  | Raise e => Raise e
  | Ok fv =>
      let arrlen := Z.of_nat (List.length arr) in
      match num_sub varlen (PyInt arrlen) with
      | PyInt n => Ok (arr ++ replicate (Z.to_nat n) fv)
      | PyFloat _ => Raise TypeError
      end
  end.

(** One element of a fixed-width text array: cut at [width] characters and
    padded with NUL up to it. *)
Fixpoint fixed_width (width : nat) (s : string) : string :=
  match width with
  | O => EmptyString
  | S w =>
      match s with
      | EmptyString => String (ascii_of_N 0) (fixed_width w EmptyString)
      | String c s' => String c (fixed_width w s')
      end
  end.

(** [s.split(sep)] *)
Fixpoint split_on (sep : ascii) (s : string) : list string :=
  match s with
  | EmptyString => [EmptyString]
  | String c s' =>
      let r := split_on sep s' in
      if Ascii.eqb c sep then EmptyString :: r
      else match r with
           | h :: t => String c h :: t
           | [] => [String c EmptyString]
           end
  end.

(** [s[1:]] *)
Definition tail_string (s : string) : string :=
  match s with
  | EmptyString => EmptyString
  | String _ s' => s'
  end.

Definition longest (l : list string) : nat :=
  fold_right (fun s n => Nat.max (String.length s) n) O l.

Section Actions.
Context {sink : Sink}.

(** ** Attributes *)

Definition set_attribute (attid : string) (attvallist : list scalar) : M unit :=
  let attval :=
    match attvallist with
    | [v] => Scalar v
    | _ => Values attvallist
    end in
  match first_char attid with
  | None => raise IndexError
  | Some c =>
      if Ascii.eqb c ":" then
        (* global-scope attribute *)
        let! ds := the_dataset in
        let name := tail_string attid in
        if decide (is_Some (ncattrs ds !! name))
        then raise (CDLContentError (DuplicateGlobalAttribute attid))
        else if ds_setncattr_ok ds name attval then
          run modify (with_dataset (setncattr name attval ds)) then
          log INFO (CreatedGlobalAttribute attid attval)
        else raise LibraryError
      else
        (* variable-scope attribute *)
        try_except
          (match split_on ":" attid with
           | [varname; attname] =>
               let! ds := the_dataset in
               match variables ds !! varname with
               | None => raise (KeyError varname)
               | Some var =>
                   if decide (is_Some (var_attrs var !! attname))
                   then raise (CDLContentError (DuplicateAttribute attid))
                   else
                     let! attval :=
                       if String.eqb attname "_FillValue" then
                         match np_cast (var_dtype var) attval with
                         | Some v => ret v
                         | None => raise LibraryError
                         end
                       else ret attval in
                     if var_setncattr_ok ds varname attname attval then
                       run modify (with_dataset (var_setncattr varname attname attval ds)) then
                       log INFO (CreatedAttribute varname attname attval)
                     else raise LibraryError
               end
           | _ => raise ValueError
           end)
          (fun _ => raise (CDLContentError (InvalidAttributeName attid)))
  end.

(** [gattdecl : gatt EQUALS attvallist] *)
Definition p_gattdecl (p1 : string) (p3 : list scalar) : M unit :=
  let! ds := gets ncdataset in
  match ds with
  | Some _ => set_attribute (String ":" p1) p3
  | None => ret tt
  end.

(** [att : avar ':' attr] and [attdecl : att EQUALS attvallist] *)
Definition p_attdecl (avar attr : string) (p3 : list scalar) : M unit :=
  let! ds := gets ncdataset in
  match ds with
  | Some _ => set_attribute (avar ++ String ":" attr) p3
  | None => ret tt
  end.

(** ** Data layout *)

Definition text_of (v : value) : option string :=
  match v with
  | Scalar (SStr s) => Some s
  | _ => np_text v
  end.

(** [np.array(slist, dtype='S%d' % maxlen)] followed by [stringtochar]:
    one fixed-width row per string.  Width 0 asks the array library to
    size the rows by the longest string. *)
Definition str_list_to_char_arr (slist : list value) (maxlen : Z) : option (list string) :=
  match mapM text_of slist with
  | Some texts =>
      let width := if maxlen <=? 0 then longest texts else Z.to_nat maxlen in
      Some (fixed_width width <$> texts)
  | None => None
  end.

(** [shape = list(var.shape); if reclen : shape[0] = len(arr) / reclen] *)
Definition target_shape (shape : list Z) (arr : list value) (reclen : num) : res (list num) :=
  if num_truthy reclen then
    match shape with
    | [] => Raise IndexError
    | _ :: rest =>
        match num_truediv (PyInt (Z.of_nat (List.length arr))) reclen with
        | Ok n => Ok (n :: (PyInt <$> rest))
        | Raise e => Raise e
        end
    end
  else Ok (PyInt <$> shape).

Definition put_numeric_data (ds : dataset) (varname : string) (var : variable)
    (shape : list Z) (arr : list value) (reclen : num) : res dataset :=
  match target_shape shape arr reclen with
  | Raise e => Raise e
  | Ok sh =>
      match nc_setitem ds varname (mkArray (var_dtype var) sh arr) with
      | Some ds' => Ok ds'
      | None => Raise LibraryError
      end
  end.

Definition put_char_data (ds : dataset) (varname : string) (var : variable)
    (shape : list Z) (arr : list value) (reclen : num) : res dataset :=
  let maxlen := if var_ndim var >? 0 then default 1 (last shape) else 1 in
  match str_list_to_char_arr arr maxlen with
  | None => Raise LibraryError
  | Some rows =>
      match target_shape shape arr reclen with
      | Raise e => Raise e
      | Ok sh =>
          match nc_setitem ds varname
                  (mkArray (var_dtype var) sh ((fun s => Scalar (SStr s)) <$> rows)) with
          | Some ds' => Ok ds'
          | None => Raise LibraryError
          end
      end
  end.

(** Record detection, record length and the factor check of
    [write_var_data]; returns [(varlen, reclen)]. *)
Definition record_lengths (ds : dataset) (var : variable) (shape : list Z)
    (rec : option string) (arrlen : Z) (varlen : num) : M (num * num) :=
  match rec with
  | Some r =>
      if bool_decide (r ∈ var_dimensions var) then
        match dimensions ds !! r with
        | None => raise (KeyError r)
        | Some d =>
            let rec_dimlen := dim_len d in
            let! lens :=
              if rec_dimlen >? 0 then
                let! reclen := lift (num_truediv varlen (PyInt rec_dimlen)) in
                ret (varlen, reclen)
              else
                let varlen := PyInt arrlen in
                let! reclen :=
                  if var_ndim var >? 1
                  then lift (reduce_mul (filter (fun x => 0 < x) shape))
                  else ret 1 in
                run log DEBUG (ExpectedLength varlen) then
                ret (varlen, PyInt reclen) in
            let '(varlen, reclen) := lens in
            let! remainder := lift (num_mod varlen reclen) in
            if num_truthy remainder
            then raise (CDLContentError (RecordLengthNotFactor reclen varlen))
            else run log DEBUG (RecordLength reclen) then ret (varlen, reclen)
        end
      else ret (varlen, PyInt 0)
  | None => ret (varlen, PyInt 0)
  end.

(** [write_var_data(var, arr)].  [pad_array] extends the caller's list in
    place, so the action returns the list as the caller sees it afterwards. *)
Definition write_var_data (varname : string) (arr : list value) : M (list value) :=
  let! ds := the_dataset in
  match variables ds !! varname with
  | None => raise (KeyError varname)
  | Some var =>
      match var_shape ds var with
      | None => raise (KeyError varname)
      | Some shape =>
          run log DEBUG (ScanningData varname) then
          let is_scalar := var_ndim var =? 0 in
          let is_charvar := String.eqb (dtype_kind (var_dtype var)) "S" in
          let! rec := gets rec_dimname in
          if is_scalar then
            run try_except
                  (match arr with
                   | [] => raise IndexError
                   | v :: _ =>
                       match nc_assignValue ds varname v with
                       | Some ds' =>
                           run modify (with_dataset ds') then
                           log DEBUG (AssignedScalar v varname)
                       | None => raise LibraryError
                       end
                   end)
                  (fun _ =>
                     run log ERROR (ScalarAssignError varname) then
                     raise (CDLContentError (ScalarAssignFailed varname))) then
            ret arr
          else
            let arrlen := Z.of_nat (List.length arr) in
            let varlen := PyInt (shape_size shape) in
            let! varlen :=
              if is_charvar && (var_ndim var >? 0) then
                match last shape with
                | Some width => lift (num_truediv varlen (PyInt width))
                | None => raise IndexError
                end
              else ret varlen in
            run log DEBUG (ArrayLength arrlen) then
            run (if num_truthy varlen then log DEBUG (ExpectedLength varlen) else ret tt) then
            let! lens := record_lengths ds var shape rec arrlen varlen in
            let '(varlen, reclen) := lens in
            let! arr :=
              if num_lt (PyInt arrlen) varlen then
                let! padded := lift (pad_array var varlen arr) in
                run log INFO (Padded (num_sub varlen (PyInt arrlen))) then
                ret padded
              else ret arr in
            run try_except
                  (let! ds' :=
                     lift (if is_charvar
                           then put_char_data ds varname var shape arr reclen
                           else put_numeric_data ds varname var shape arr reclen) in
                   modify (with_dataset ds'))
                  (fun _ => raise (CDLContentError (WriteFailed varname))) then
            ret arr
      end
  end.

(** [datadecl : avar EQUALS constlist] *)
Definition p_datadecl (p1 : string) (p3 : list value) : M unit :=
  let! ds := gets ncdataset in
  match ds with
  | Some ds =>
      if decide (is_Some (variables ds !! p1)) then
        try_except
          (let! arr := write_var_data p1 p3 in
           log INFO (WroteValues (Z.of_nat (List.length arr)) p1))
          (fun exc => run log ERROR (Failure exc) then raise exc)
      else raise (CDLContentError (UndefinedDataVariable p1))
  | None => ret tt
  end.

End Actions.

(** ** A store that accepts every request

    It keeps what it is given and lets the unlimited dimension grow to the
    leading extent of an array written to a record variable. *)

Definition keep (name : string) (s : stored) (ds : dataset) : dataset :=
  mkDataset (dimensions ds) (variables ds) (ncattrs ds) ((name, s) :: contents ds).

Definition grow (name : string) (a : ndarray) (ds : dataset) : dataset :=
  match variables ds !! name, arr_shape a with
  | Some var, n :: _ =>
      match var_dimensions var with
      | d :: _ =>
          match dimensions ds !! d with
          | Some dim =>
              if dim_unlimited dim then
                mkDataset (<[d := mkDimension (Z.max (dim_len dim) (Qfloor (num_Q n))) true]>
                             (dimensions ds))
                          (variables ds) (ncattrs ds) (contents ds)
              else ds
          | None => ds
          end
      | [] => ds
      end
  | _, _ => ds
  end.

Definition accepting_sink : Sink := {|
  np_cast := fun _ v => Some v;
  np_text := fun _ => None;
  nc_assignValue := fun ds name v => Some (keep name (StoredScalar v) ds);
  nc_setitem := fun ds name a => Some (grow name a (keep name (StoredArray a) ds));
  ds_setncattr_ok := fun _ _ _ => true;
  var_setncattr_ok := fun _ _ _ _ => true
|}.

(** A store that rejects every write. *)
Definition rejecting_sink : Sink := {|
  np_cast := fun _ _ => None;
  np_text := fun _ => None;
  nc_assignValue := fun _ _ _ => None;
  nc_setitem := fun _ _ _ => None;
  ds_setncattr_ok := fun _ _ _ => false;
  var_setncattr_ok := fun _ _ _ _ => false
|}.

(** ** A store in the classic file format, as far as attributes go

    The default format cannot hold an array of strings as an attribute
    value, and a variable's [_FillValue] can only be given when the variable
    is created: both requests are refused.  Everything else is accepted as
    by [accepting_sink]. *)

Definition is_text (s : scalar) : bool :=
  match s with
  | SStr _ => true
  | _ => false
  end.

Definition classic_attribute (v : value) : bool :=
  match v with
  | Scalar _ => true
  | Values l => negb (existsb is_text l)
  end.

Definition classic_store : Sink := {|
  np_cast := fun _ v => Some v;
  np_text := fun _ => None;
  nc_assignValue := fun ds name v => Some (keep name (StoredScalar v) ds);
  nc_setitem := fun ds name a => Some (grow name a (keep name (StoredArray a) ds));
  ds_setncattr_ok := fun _ _ v => classic_attribute v;
  var_setncattr_ok := fun _ _ name v =>
    negb (String.eqb name "_FillValue") && classic_attribute v
|}.

(** * Vocabulary of the properties

    Predicates, classifications and sample datasets used to state the
    properties below. *)

Inductive numeric_rule := FLOAT_CONST | DOUBLE_CONST | SHORT_CONST | BYTE_CONST | INT_CONST.

Definition shape_of (r : numeric_rule) : Regex.regex :=
  match r with
  | FLOAT_CONST => Regex.float_const
  | DOUBLE_CONST => Regex.double_const
  | SHORT_CONST => Regex.short_const
  | BYTE_CONST => Regex.byte_const
  | INT_CONST => Regex.int_const
  end.

Definition token_action (r : numeric_rule) : string -> res scalar :=
  match r with
  | FLOAT_CONST => t_FLOAT_CONST
  | DOUBLE_CONST => t_DOUBLE_CONST
  | SHORT_CONST => t_SHORT_CONST
  | BYTE_CONST => t_BYTE_CONST
  | INT_CONST => t_INT_CONST
  end.

(** Whether the expression inside the rule's [try] block yields a value. *)
Definition decodable (r : numeric_rule) (text : string) : bool :=
  match r with
  | FLOAT_CONST => bool_decide (is_Some (Py.float_of_str (drop_last text)))
  | DOUBLE_CONST =>
      match last_char text with
      | Some c =>
          if Regex.either "d"%char "D"%char c
          then bool_decide (is_Some (Py.float_of_str (drop_last text)))
          else bool_decide (is_Some (Py.float_of_str text))
      | None => false
      end
  | SHORT_CONST => bool_decide (is_Some (Py.eval_int (drop_last text)))
  | BYTE_CONST =>
      match first_char text with
      | Some c =>
          if Regex.only Regex.quote c
          then bool_decide (is_Some (Py.ord_eval_char text))
          else bool_decide (is_Some (Py.int_of_str (drop_last text)))
      | None => false
      end
  | INT_CONST => bool_decide (is_Some (Py.eval_int text))
  end.

Definition bad_constant (r : numeric_rule) (text : string) : errmsg :=
  match r with
  | FLOAT_CONST => BadFloatConstant text
  | DOUBLE_CONST => BadDoubleConstant text
  | SHORT_CONST => BadShortConstant text
  | BYTE_CONST => BadByteConstant text
  | INT_CONST => BadIntegerConstant text
  end.

(** The statement of C5 for the double rule: an undecodable lexeme of the
    double shape raises [CDLSyntaxError]. *)
Definition undecodable_double_is_syntax_error : Prop :=
  forall text,
    Regex.matches Regex.double_const text = true ->
    decodable DOUBLE_CONST text = false ->
    is_syntax_error (t_DOUBLE_CONST text) = true.

Definition has_unlimited (ds : dataset) : Prop :=
  exists n d, dimensions ds !! n = Some d /\ dim_unlimited d = true.

(** [rec_dimname] is set exactly when the dataset has an unlimited
    dimension. *)
Definition unlimited_tracked (p : parser) : Prop :=
  forall ds, ncdataset p = Some ds ->
             (name_truthy (rec_dimname p) = true <-> has_unlimited ds).

(** Token values the grammar lets through as [p[3]]: an [INT_CONST], a
    [DOUBLE_CONST], or the keyword [unlimited] (lower-cased by [t_IDENT]). *)
Definition dim_token (p3 : scalar) : Prop :=
  match p3 with
  | SInt32 _ | SFloat64 _ => True
  | SStr s => s = "unlimited"
  | _ => False
  end.

Definition is_unlimited_token (p3 : scalar) : bool :=
  match p3 with
  | SStr _ => true
  | _ => false
  end.

(** A floating-point token whose value is an infinity, such as [1e400]. *)
Definition is_infinite (p3 : scalar) : bool :=
  match p3 with
  | SFloat32 (Infinity _) | SFloat64 (Infinity _) => true
  | _ => false
  end.

(** The length a declaration asks for: 0 for [unlimited], else [int(p[3])]
    where that has a value. *)
Definition declared_length (p3 : scalar) : Z :=
  if is_unlimited_token p3 then 0
  else match int_of_scalar p3 with
       | Ok z => z
       | Raise _ => 0
       end.

(** The three grounds for rejecting a declaration. *)
Definition rejected (ds : dataset) (name : string) (p3 : scalar) : Prop :=
  is_Some (dimensions ds !! name) \/
  (is_unlimited_token p3 = false /\ exists z, int_of_scalar p3 = Ok z /\ z <= 0) \/
  (is_unlimited_token p3 = true /\ has_unlimited ds).

Definition default_fill (dt : dtype) : scalar :=
  match dt with
  | NC_BYTE => NC_FILL_BYTE
  | NC_CHAR => NC_FILL_CHAR
  | NC_SHORT => NC_FILL_SHORT
  | NC_INT => NC_FILL_INT
  | NC_FLOAT => NC_FILL_FLOAT
  | NC_DOUBLE => NC_FILL_DOUBLE
  end.

(** The fill value named by the lookup order [_FillValue], [missing_value],
    per-type default. *)
Definition effective_fill (var : variable) : value :=
  match var_attrs var !! "_FillValue" with
  | Some fv => fv
  | None =>
      match var_attrs var !! "missing_value" with
      | Some fv => fv
      | None => Scalar (default_fill (var_dtype var))
      end
  end.

(** A fill value can be found for the variable: it has one of the two
    attributes, or its type has a built-in default.  A character variable
    has none: its type character ['c'] is not among those
    [get_default_fill_value] knows. *)
Definition has_fill (var : variable) : Prop :=
  var_dtype var <> NC_CHAR \/
  is_Some (var_attrs var !! "_FillValue") \/
  is_Some (var_attrs var !! "missing_value").

(** The error in which padding the data of a character variable ends: the
    missing default when the variable has no fill attribute, the float
    repeat count when it has one. *)
Definition text_padding_error (var : variable) : exn :=
  match var_attrs var !! "_FillValue", var_attrs var !! "missing_value" with
  | None, None => CDLContentError (UnrecognisedDataType "c")
  | _, _ => TypeError
  end.

(** An [int] variable [v] whose only attribute is [missing_value = -999],
    selected as the current variable. *)
Definition missing_only : variable :=
  mkVariable NC_INT ["d"] {[ "missing_value" := Scalar (SInt32 (-999)) ]}.

Definition missing_only_parser : parser :=
  mkParser
    (Some (mkDataset {[ "d" := mkDimension 2 false ]} {[ "v" := missing_only ]} ∅ []))
    None (Some "v") None 0 1 [].

Definition scalar_dataset : dataset :=
  createVariable "s" NC_INT [] empty_dataset.

Definition scalar_parser : parser :=
  mkParser (Some scalar_dataset) None None None 0 1 [].

(** [char c(time)] with [time] unlimited and still empty. *)
Definition text_record_dataset : dataset :=
  createVariable "c" NC_CHAR ["time"] (createDimension "time" 0 empty_dataset).

Definition text_record_parser : parser :=
  mkParser (Some text_record_dataset) (Some "time") None None 0 1 [].

(** [char c(n, w)] with [n = 3], [w = 5] and no fill attribute. *)
Definition text_dataset : dataset :=
  createVariable "c" NC_CHAR ["n"; "w"]
    (createDimension "w" 5 (createDimension "n" 3 empty_dataset)).

Definition text_parser : parser :=
  mkParser (Some text_dataset) None None None 0 1 [].

(** The same variable with the attribute [c:missing_value = "x"]. *)
Definition text_missing_dataset : dataset :=
  var_setncattr "c" "missing_value" (Scalar (SStr "x")) text_dataset.

Definition text_missing_parser : parser :=
  mkParser (Some text_missing_dataset) None None None 0 1 [].

Definition text (s : string) : value := Scalar (SStr s).

(** [n] NUL characters *)
Fixpoint nuls (n : nat) : string :=
  match n with
  | O => EmptyString
  | S n' => String (ascii_of_N 0) (nuls n')
  end.

Inductive owner :=
  | Global
  | OfVariable (varname : string).

Definition declare_attribute {sink : Sink} (o : owner) (attr : string)
    (vals : list scalar) : M unit :=
  match o with
  | Global => p_gattdecl attr vals
  | OfVariable varname => p_attdecl varname attr vals
  end.

Definition attribute_of (ds : dataset) (o : owner) (attr : string) : option value :=
  match o with
  | Global => ncattrs ds !! attr
  | OfVariable varname =>
      match variables ds !! varname with
      | Some var => var_attrs var !! attr
      | None => None
      end
  end.

(** The coercion applied before storing: only a variable's [_FillValue] is
    converted, to the variable's element type. *)
Definition coerced {sink : Sink} (ds : dataset) (o : owner) (attr : string)
    (x : value) : option value :=
  match o with
  | Global => Some x
  | OfVariable varname =>
      if String.eqb attr "_FillValue" then
        match variables ds !! varname with
        | Some var => np_cast (var_dtype var) x
        | None => None
        end
      else Some x
  end.

(** The value [set_attribute] hands over: the bare literal if there is
    exactly one, the list otherwise. *)
Definition attval_of (vals : list scalar) : value :=
  match vals with
  | [v] => Scalar v
  | _ => Values vals
  end.

(** Whether the store takes the value for that owner and name. *)
Definition store_accepts {sink : Sink} (ds : dataset) (o : owner) (attr : string)
    (x : value) : bool :=
  match o with
  | Global => ds_setncattr_ok ds attr x
  | OfVariable varname => var_setncattr_ok ds varname attr x
  end.

(** The error a declaration ends in when the store refuses the value: the
    store's own error for a global attribute; for a variable's attribute the
    handler of [set_attribute] replaces it. *)
Definition refusal (o : owner) (attr : string) : exn :=
  match o with
  | Global => LibraryError
  | OfVariable varname =>
      CDLContentError (InvalidAttributeName (varname ++ String ":" attr))
  end.

Fixpoint contains (c : ascii) (s : string) : bool :=
  match s with
  | EmptyString => false
  | String c' s' => Ascii.eqb c' c || contains c s'
  end.

(** Names as the grammar delivers them: a variable name is not empty, and
    neither name holds a colon; the variable is declared. *)
Definition owner_declared (ds : dataset) (o : owner) : Prop :=
  match o with
  | Global => True
  | OfVariable varname =>
      varname <> "" /\ contains ":" varname = false /\ is_Some (variables ds !! varname)
  end.


Definition one_variable : dataset :=
  createVariable "v" NC_INT ["d"] (createDimension "d" 2 empty_dataset).

Definition one_variable_parser : parser :=
  mkParser (Some one_variable) None None None 0 1 [].

(** The callbacks and grammar actions through which a parse acts on the
    parser object. *)
Inductive action :=
  | Illegal (t : LexToken)
  | Newline (t : LexToken)
  | DeclareDimension (name : string) (p3 : scalar)
  | Reference (varname : string)
  | Constant (p1 : scalar)
  | DeclareAttribute (o : owner) (attr : string) (vals : list scalar)
  | Data (varname : string) (arr : list value).

Definition perform {sink : Sink} (a : action) : M unit :=
  match a with
  | Illegal t => t_error t
  | Newline t => t_newline t
  | DeclareDimension name p3 => dimdecl name p3
  | Reference varname => bind (p_avar varname) (fun _ => ret tt)
  | Constant p1 => bind (p_const p1) (fun _ => ret tt)
  | DeclareAttribute o attr vals => declare_attribute o attr vals
  | Data varname arr => p_datadecl varname arr
  end.

(** Levels at which a problem is reported. *)
Definition reports (e : level * logmsg) : bool :=
  match fst e with
  | WARNING | ERROR => true
  | DEBUG | INFO => false
  end.

(** What an action added to the log. *)
Definition new_entries (p p' : parser) : list (level * logmsg) :=
  drop (List.length (logged p)) (logged p').

(** A condition is reported, and the action returns normally. *)
Definition nonfatal_condition {sink : Sink} (a : action) (p : parser) : Prop :=
  is_ok (fst (perform a p)) = true /\
  existsb reports (new_entries p (snd (perform a p))) = true.

(** An action is quiet when a normal return never comes with a report. *)
Definition quiet_since (p p' : parser) : Prop :=
  exists es, logged p' = logged p ++ es /\ existsb reports es = false.

Definition quiet {A} (m : M A) : Prop :=
  forall p a p', m p = (Ok a, p') -> quiet_since p p'.

(** The statement of C9: whenever a condition is reported and the action
    returns normally, the action is the lexer's illegal-character callback. *)
Definition lexical_noise_is_only_nonfatal : Prop :=
  forall (sink : Sink) (a : action) (p : parser),
    nonfatal_condition a p -> exists t, a = Illegal t.

(** Lengths of the variable's dimensions other than [r]. *)
Definition other_lengths (ds : dataset) (var : variable) (r : string) : list Z :=
  omap (fun d => dim_len <$> dimensions ds !! d)
       (filter (fun d => d <> r) (var_dimensions var)).

(** The record length the first write infers. *)
Definition inferred_reclen (ds : dataset) (var : variable) (r : string) : Z :=
  shape_size (other_lengths ds var r).

(** [int v(time, x)] with [time] unlimited and [x = 4], given 12 literals:
    record length 4, three records, and the accepting store then reports
    length 3 for [time]. *)
Definition records_dataset : dataset :=
  createVariable "v" NC_INT ["time"; "x"]
    (createDimension "x" 4 (createDimension "time" 0 empty_dataset)).

Definition records_parser : parser :=
  mkParser (Some records_dataset) (Some "time") None None 0 1 [].

Definition twelve : list value :=
  (fun z => Scalar (SInt32 z)) <$> [1; 2; 3; 4; 5; 6; 7; 8; 9; 10; 11; 12].

(** * Further parts of the module *)

(** ** The dataset name *)

(** The loop of [deescapify], from position [i] on: a backslash is dropped,
    a pair of backslashes leaves one, and [name[i+1]] is read without a
    bounds check. *)
Fixpoint deescapify_from (l : list ascii) : res (list ascii) :=
  match l with
  | [] => Ok []
  | c :: rest =>
      if Regex.only Regex.backslash c then
        match rest with
        | [] => Raise IndexError
        | c2 :: rest' =>
            if Regex.only Regex.backslash c2 then
              match deescapify_from rest' with
              | Ok out => Ok (Regex.backslash :: out)
              | Raise e => Raise e
              end
            else deescapify_from rest
        end
      else
        match deescapify_from rest with
        | Ok out => Ok (c :: out)
        | Raise e => Raise e
        end
  end.

Definition deescapify (name : string) : res string :=
  if negb (contains Regex.backslash name) then Ok name
  else
    match deescapify_from (list_ascii_of_string name) with
    | Ok out => Ok (string_of_list_ascii out)
    | Raise e => Raise e
    end.

(** Characters [str.split()] treats as separators (code points below 256). *)
Definition is_space (c : ascii) : bool :=
  let n := N_of_ascii c in
  ((9 <=? n) && (n <=? 13) || (28 <=? n) && (n <=? 32) || (n =? 133) || (n =? 160))%N.

(** [s.split()]: the maximal runs of non-space characters, in order.
    [cur] holds the run being read, last character first. *)
Fixpoint split_from (cur : list ascii) (l : list ascii) : list string :=
  match l with
  | [] =>
      match cur with
      | [] => []
      | _ => [string_of_list_ascii (rev cur)]
      end
  | c :: l' =>
      if is_space c then
        match cur with
        | [] => split_from [] l'
        | _ => string_of_list_ascii (rev cur) :: split_from [] l'
        end
      else split_from (c :: cur) l'
  end.

Definition split_whitespace (s : string) : list string :=
  split_from [] (list_ascii_of_string s).

(** [r'(netcdf|NETCDF|netCDF)[ \t]+[^\{]+'] *)
Definition literal (s : string) : Regex.regex :=
  fold_right (fun c r => Regex.Cat (Regex.Chr (Regex.only c)) r) Regex.Eps
             (list_ascii_of_string s).

Definition netcdf_shape : Regex.regex :=
  Regex.Cat (Regex.Alt (literal "netcdf") (Regex.Alt (literal "NETCDF") (literal "netCDF")))
    (Regex.Cat (Regex.Plus (Regex.Chr (fun c => Regex.only " "%char c || Regex.only (ascii_of_N 9) c)))
               (Regex.Plus (Regex.Chr (fun c => negb (Regex.only "{"%char c))))).

Definition t_NETCDF (text : string) : res string :=
  match split_whitespace text with
  | _ :: netcdfname :: _ => deescapify netcdfname
  | _ => Raise (CDLSyntaxError NetcdfNameRequired)
  end.

(** ** Identifiers and keywords *)

Inductive token_type :=
  | FILLVALUE
  | IDENT
  | BYTE_K
  | CHAR_K
  | SHORT_K
  | INT_K
  | FLOAT_K
  | DOUBLE_K
  | NC_UNLIMITED_K.

(** A dict literal, looked up by key. *)
Fixpoint dict_get {V} (d : list (string * V)) (key : string) : option V :=
  match d with
  | [] => None
  | (k, v) :: d' => if String.eqb k key then Some v else dict_get d' key
  end.

Definition reserved_words : list (string * token_type) :=
  [ ("byte", BYTE_K); ("char", CHAR_K); ("short", SHORT_K); ("int", INT_K);
    ("integer", INT_K); ("long", INT_K); ("float", FLOAT_K); ("real", FLOAT_K);
    ("double", DOUBLE_K); ("unlimited", NC_UNLIMITED_K) ].

Definition NC_NP_DATA_TYPE_MAP : list (string * string) :=
  [ ("byte", "b"); ("char", "c"); ("short", "h"); ("int", "i"); ("integer", "i");
    ("long", "i"); ("float", "f"); ("real", "f"); ("double", "d") ].

Definition lower_char (c : ascii) : ascii :=
  if Regex.between "A"%char "Z"%char c then ascii_of_N (N_of_ascii c + 32) else c.

(** [s.lower()] on ASCII text *)
Fixpoint lower (s : string) : string :=
  match s with
  | EmptyString => EmptyString
  | String c s' => String (lower_char c) (lower s')
  end.

(** [t_IDENT]: the type and the value of the token. *)
Definition t_IDENT (value : string) : token_type * string :=
  if String.eqb value FILL_STRING then (FILLVALUE, value)
  else
    match dict_get reserved_words (lower value) with
    | Some type => (type, lower value)
    | None => (IDENT, value)
    end.

(** [type : BYTE_K | CHAR_K | SHORT_K | INT_K | FLOAT_K | DOUBLE_K] *)
Definition p_type (p1 : string) : res string :=
  match dict_get NC_NP_DATA_TYPE_MAP p1 with
  | Some datatype => Ok datatype
  | None => Raise (KeyError p1)
  end.

(** The element type a variable created with a numpy type code has. *)
Definition dtype_of_code (code : string) : option dtype :=
  if String.eqb code "b" then Some NC_BYTE
  else if String.eqb code "c" then Some NC_CHAR
  else if String.eqb code "h" then Some NC_SHORT
  else if String.eqb code "i" then Some NC_INT
  else if String.eqb code "f" then Some NC_FLOAT
  else if String.eqb code "d" then Some NC_DOUBLE
  else None.

(** ** Statements as the grammar runs them

    In [datadecl : avar EQUALS constlist] and [attdecl : att EQUALS
    attvallist] with [att : avar ':' attr], the parser reduces [avar] first,
    then each constant from left to right, then the statement itself. *)

(** [constlist : constlist ',' dconst | dconst] *)
Fixpoint p_constlist (tokens : list scalar) : M (list value) :=
  match tokens with
  | [] => ret []
  | t :: ts =>
      let! v := p_const t in
      let! vs := p_constlist ts in
      ret (v :: vs)
  end.

Definition data_statement {sink : Sink} (varname : string) (tokens : list scalar) : M unit :=
  let! p1 := p_avar varname in
  let! p3 := p_constlist tokens in
  p_datadecl p1 p3.

Definition attribute_statement {sink : Sink} (varname attr : string)
    (vals : list scalar) : M unit :=
  let! avar := p_avar varname in
  p_attdecl avar attr vals.

(** A dimensions section: declarations run in order until one raises. *)
Fixpoint dimension_section (decls : list (string * scalar)) : M unit :=
  match decls with
  | [] => ret tt
  | (name, p3) :: rest =>
      run dimdecl name p3 then dimension_section rest
  end.

(** * Vocabulary of the further properties *)

(** Every backslash doubled: the escaping [deescapify] undoes. *)
Fixpoint double_backslashes (s : string) : string :=
  match s with
  | EmptyString => EmptyString
  | String c s' =>
      if Regex.only Regex.backslash c
      then String c (String c (double_backslashes s'))
      else String c (double_backslashes s')
  end.

Definition no_space (s : string) : Prop :=
  forallb (fun c => negb (is_space c)) (list_ascii_of_string s) = true.

Definition all_space (s : string) : Prop :=
  forallb is_space (list_ascii_of_string s) = true.

Definition is_type_keyword (t : token_type) : bool :=
  match t with
  | BYTE_K | CHAR_K | SHORT_K | INT_K | FLOAT_K | DOUBLE_K => true
  | _ => false
  end.

Definition dtype_for (t : token_type) : option dtype :=
  match t with
  | BYTE_K => Some NC_BYTE
  | CHAR_K => Some NC_CHAR
  | SHORT_K => Some NC_SHORT
  | INT_K => Some NC_INT
  | FLOAT_K => Some NC_FLOAT
  | DOUBLE_K => Some NC_DOUBLE
  | _ => None
  end.

(** The integer rules: the payload they decode and the type they give it. *)
Definition integer_payload (r : numeric_rule) (text : string) : option Z :=
  match r with
  | SHORT_CONST => Py.eval_int (drop_last text)
  | BYTE_CONST =>
      match first_char text with
      | Some c =>
          if Regex.only Regex.quote c then Py.ord_eval_char text
          else Py.int_of_str (drop_last text)
      | None => None
      end
  | INT_CONST => Py.eval_int text
  | _ => None
  end.

Definition integer_range (r : numeric_rule) : Z * Z :=
  match r with
  | SHORT_CONST => (-32768, 32767)
  | BYTE_CONST => (-128, 127)
  | _ => (XDR_INT_MIN, XDR_INT_MAX)
  end.

(** What the rule raises for a payload outside its range. *)
Definition range_error (r : numeric_rule) (n : Z) : exn :=
  match r with
  | SHORT_CONST => CDLContentError (ShortOutOfRange n)
  | BYTE_CONST => CDLContentError (ByteOutOfRange n)
  | _ => NameError "int_val"
  end.

Definition is_integer_rule (r : numeric_rule) : bool :=
  match r with
  | SHORT_CONST | BYTE_CONST | INT_CONST => true
  | _ => false
  end.

Definition integer_value (r : numeric_rule) (n : Z) : scalar :=
  match r with
  | SHORT_CONST => SInt16 n
  | BYTE_CONST => SInt8 n
  | _ => SInt32 n
  end.

(** The dimensions of the dataset as the declarations keep them: an
    unlimited dimension is the one [rec_dimname] names and has no records
    yet; every other dimension has a positive length. *)
Definition dimensions_wellformed (p : parser) : Prop :=
  forall ds n d,
    ncdataset p = Some ds ->
    dimensions ds !! n = Some d ->
    if dim_unlimited d
    then rec_dimname p = Some n /\ n <> "" /\ dim_len d = 0
    else 0 < dim_len d.

(** What a numeric variable of fixed shape receives: the literals, padded
    with the effective fill value when there are fewer than the variable
    holds. *)
Definition padded_to (var : variable) (n : Z) (arr : list value) : list value :=
  if Z.of_nat (List.length arr) <? n
  then arr ++ replicate (Z.to_nat (n - Z.of_nat (List.length arr))) (effective_fill var)
  else arr.

Definition is_record_variable (p : parser) (var : variable) : bool :=
  match rec_dimname p with
  | Some r => bool_decide (r ∈ var_dimensions var)
  | None => false
  end.

(** The value a constant token stands for in the data of a numeric variable. *)
Definition resolved (var : variable) (t : scalar) : value :=
  if is_fill_string t then
    match var_attrs var !! "_FillValue" with
    | Some fv => fv
    | None => Scalar (default_fill (var_dtype var))
    end
  else Scalar t.

(** A dimensions section with a fractional length and a second unlimited
    dimension. *)
Definition sample_dimensions : list (string * scalar) :=
  [ ("time", SStr "unlimited"); ("x", SInt32 4); ("y", SFloat64 (Finite (5 # 2)));
    ("rec", SStr "unlimited"); ("z", SInt32 7) ].


(** [records_dataset] once three records have been written: [time] has
    length 3. *)
Definition grown_dataset : dataset :=
  mkDataset (<["time" := mkDimension 3 true]> (dimensions records_dataset))
            (variables records_dataset) (ncattrs records_dataset) (contents records_dataset).

Definition grown_parser : parser :=
  mkParser (Some grown_dataset) (Some "time") None None 0 1 [].

(** [char c(time, w)] with [time] unlimited and still empty and [w = 5]:
    a record variable of strings of width 5. *)
Definition text_rows_dataset : dataset :=
  createVariable "c" NC_CHAR ["time"; "w"]
    (createDimension "w" 5 (createDimension "time" 0 empty_dataset)).

Definition text_rows_parser : parser :=
  mkParser (Some text_rows_dataset) (Some "time") None None 0 1 [].
(** * Properties *)

(** ** Checks of the literal decoders *)

Example short_shape : Regex.matches Regex.short_const "32767s" = true.
Proof. reflexivity. Qed.

Example double_shape_dot : Regex.matches Regex.double_const "." = true.
Proof. reflexivity. Qed.

Example int_shape : Regex.matches Regex.int_const "2147483648" = true.
Proof. reflexivity. Qed.

Example int_not_short : Regex.matches Regex.short_const "2147483648" = false.
Proof. reflexivity. Qed.

Example t_short_hex : t_SHORT_CONST "0x1Fs" = Ok (SInt16 31).
Proof. reflexivity. Qed.

Example t_short_octal_py3 : is_content_error (t_SHORT_CONST "017s") = true.
Proof. reflexivity. Qed.

Example t_byte_quoted : t_BYTE_CONST "'a'" = Ok (SInt8 97).
Proof. reflexivity. Qed.

Example t_byte_octal : t_BYTE_CONST (String Regex.quote (String Regex.backslash "177'")) = Ok (SInt8 127).
Proof. reflexivity. Qed.

Example t_float_half : t_FLOAT_CONST "-.5e1f" = Ok (SFloat32 (Finite (-5 # 1))).
Proof. vm_compute. reflexivity. Qed.

Example t_double_small : t_DOUBLE_CONST "1.25e-1D" = Ok (SFloat64 (Finite (1 # 8))).
Proof. vm_compute. reflexivity. Qed.

(** [0.1] is not a binary fraction: the token holds the nearest double, and
    as a float constant the nearest single to that. *)
Example t_double_rounds :
  t_DOUBLE_CONST "0.1" = Ok (SFloat64 (Finite (3602879701896397 # 36028797018963968))) /\
  t_FLOAT_CONST "0.1f" = Ok (SFloat32 (Finite (13421773 # 134217728))).
Proof. vm_compute. split; reflexivity. Qed.

(** A literal beyond the range of the type is an infinity. *)
Example t_double_overflows :
  t_DOUBLE_CONST "-1e400" = Ok (SFloat64 (Infinity true)) /\
  t_FLOAT_CONST "1e39f" = Ok (SFloat32 (Infinity false)).
Proof. vm_compute. split; reflexivity. Qed.

(** ** Numeric token actions *)

Lemma bool_decide_is_Some_false {A} (o : option A) :
  bool_decide (is_Some o) = false -> o = None.
Proof.
  intros Hd. apply bool_decide_eq_false in Hd.
  destruct o; [exfalso; apply Hd; eauto | reflexivity].
Qed.

Lemma short_in_range text n :
  Py.eval_int (drop_last text) = Some n ->
  -32768 <= n <= 32767 ->
  t_SHORT_CONST text = Ok (SInt16 n).
Proof.
  intros He Hr. unfold t_SHORT_CONST. rewrite He.
  replace (n <? -32768) with false by (symmetry; apply Z.ltb_ge; lia).
  replace (n >? 32767) with false by (symmetry; rewrite Z.gtb_ltb; apply Z.ltb_ge; lia).
  reflexivity.
Qed.

Lemma short_out_of_range text n :
  Py.eval_int (drop_last text) = Some n ->
  n < -32768 \/ 32767 < n ->
  t_SHORT_CONST text = Raise (CDLContentError (ShortOutOfRange n)).
Proof.
  intros He Hr. unfold t_SHORT_CONST. rewrite He.
  destruct (n <? -32768) eqn:Hlo; [reflexivity|].
  destruct (n >? 32767) eqn:Hhi; [reflexivity|].
  apply Z.ltb_ge in Hlo. rewrite Z.gtb_ltb in Hhi. apply Z.ltb_ge in Hhi. lia.
Qed.

Lemma only_true (a c : ascii) : Regex.only a c = true -> c = a.
Proof.
  unfold Regex.only. intros Ho. apply N.eqb_eq in Ho.
  transitivity (ascii_of_N (N_of_ascii c)); [symmetry; apply ascii_N_embedding|].
  rewrite <- Ho. apply ascii_N_embedding.
Qed.

Lemma byte_decimal_in_range text n :
  first_char text <> Some Regex.quote ->
  Py.int_of_str (drop_last text) = Some n ->
  (t_BYTE_CONST text = Ok (SInt8 n) <-> -128 <= n <= 127).
Proof.
  intros Hq He. unfold t_BYTE_CONST.
  destruct (first_char text) as [c|] eqn:Hc.
  - destruct (Regex.only Regex.quote c) eqn:Ho.
    + exfalso. apply Hq. f_equal. now apply only_true.
    + rewrite He.
      destruct (n <? -128) eqn:Hlo; simpl.
      * apply Z.ltb_lt in Hlo. split; [discriminate | lia].
      * apply Z.ltb_ge in Hlo. destruct (n >? 127) eqn:Hhi.
        -- rewrite Z.gtb_ltb in Hhi. apply Z.ltb_lt in Hhi. split; [discriminate | lia].
        -- rewrite Z.gtb_ltb in Hhi. apply Z.ltb_ge in Hhi. split; [lia | reflexivity].
  - destruct text; [vm_compute in He; discriminate He | discriminate Hc].
Qed.

Lemma int_in_range text n :
  Py.eval_int text = Some n ->
  (t_INT_CONST text = Ok (SInt32 n) <-> XDR_INT_MIN <= n <= XDR_INT_MAX).
Proof.
  intros He. unfold t_INT_CONST. rewrite He. unfold XDR_INT_MIN, XDR_INT_MAX.
  destruct (n <? -2147483648) eqn:Hlo; simpl.
  - apply Z.ltb_lt in Hlo. split; [discriminate | lia].
  - apply Z.ltb_ge in Hlo. destruct (n >? 2147483647) eqn:Hhi.
    + rewrite Z.gtb_ltb in Hhi. apply Z.ltb_lt in Hhi. split; [discriminate | lia].
    + rewrite Z.gtb_ltb in Hhi. apply Z.ltb_ge in Hhi. split; [lia | reflexivity].
Qed.

(** An integer literal beyond the 32-bit range never produces
    [CDLContentError]: the action stops at the unbound name. *)
Lemma int_out_of_range text n :
  Py.eval_int text = Some n ->
  n < XDR_INT_MIN \/ XDR_INT_MAX < n ->
  t_INT_CONST text = Raise (NameError "int_val").
Proof.
  intros He Hr. unfold t_INT_CONST. rewrite He. unfold XDR_INT_MIN, XDR_INT_MAX in *.
  destruct (n <? -2147483648) eqn:Hlo; [reflexivity|].
  destruct (n >? 2147483647) eqn:Hhi; [reflexivity|].
  apply Z.ltb_ge in Hlo. rewrite Z.gtb_ltb in Hhi. apply Z.ltb_ge in Hhi. lia.
Qed.

Lemma undecodable_raises (r : numeric_rule) (text : string) :
  decodable r text = false ->
  token_action r text = Raise (CDLContentError (bad_constant r text)).
Proof.
  intros Hd. destruct r; simpl in *.
  - apply bool_decide_is_Some_false in Hd. unfold t_FLOAT_CONST. rewrite Hd. reflexivity.
  - unfold t_DOUBLE_CONST. destruct (last_char text) as [c|]; [|reflexivity].
    destruct (Regex.either "d" "D" c);
      apply bool_decide_is_Some_false in Hd; rewrite Hd; reflexivity.
  - apply bool_decide_is_Some_false in Hd. unfold t_SHORT_CONST. rewrite Hd. reflexivity.
  - unfold t_BYTE_CONST. destruct (first_char text) as [c|]; [|reflexivity].
    destruct (Regex.only Regex.quote c);
      apply bool_decide_is_Some_false in Hd; rewrite Hd; reflexivity.
  - apply bool_decide_is_Some_false in Hd. unfold t_INT_CONST. rewrite Hd. reflexivity.
Qed.

(** C4: the boundary literals of the three integer types.  [32767s], [127b]
    and [2147483647] are accepted; [32768s] and [128b] are rejected with
    [CDLContentError]; [2147483648] is rejected, but with [NameError] and
    not with [CDLContentError]. *)
Theorem range_checks_at_the_boundaries :
  t_SHORT_CONST "32767s" = Ok (SInt16 32767) /\
  t_SHORT_CONST "32768s" = Raise (CDLContentError (ShortOutOfRange 32768)) /\
  t_BYTE_CONST "127b" = Ok (SInt8 127) /\
  t_BYTE_CONST "128b" = Raise (CDLContentError (ByteOutOfRange 128)) /\
  t_INT_CONST "2147483647" = Ok (SInt32 2147483647) /\
  Regex.matches Regex.int_const "2147483648" = true /\
  t_INT_CONST "2147483648" = Raise (NameError "int_val") /\
  is_content_error (t_INT_CONST "2147483648") = false.
Proof. repeat split; reflexivity. Qed.

(** C5, counterexample: the lexeme [.] has the double shape and no value,
    and the action raises [CDLContentError]. *)
Lemma undecodable_double_is_not_syntax_error :
  ~ undecodable_double_is_syntax_error.
Proof.
  intros Hclaim. specialize (Hclaim "." eq_refl eq_refl). discriminate Hclaim.
Qed.

(** C5, amended: a lexeme whose payload cannot be decoded makes the numeric
    token action raise [CDLContentError] ("Bad ... constant"), never
    [CDLSyntaxError]. *)
Theorem undecodable_literal_is_content_error (r : numeric_rule) (text : string) :
  decodable r text = false ->
  token_action r text = Raise (CDLContentError (bad_constant r text)) /\
  is_syntax_error (token_action r text) = false.
Proof.
  intros Hd. pose proof (undecodable_raises r text Hd) as Hraise.
  split; [exact Hraise | rewrite Hraise; reflexivity].
Qed.

Lemma undecodable_literal_is_content_error_witness :
  Regex.matches (shape_of DOUBLE_CONST) "." = true /\
  decodable DOUBLE_CONST "." = false /\
  token_action DOUBLE_CONST "." = Raise (CDLContentError (BadDoubleConstant ".")) /\
  is_syntax_error (token_action DOUBLE_CONST ".") = false.
Proof.
  split; [reflexivity|]. split; [reflexivity|].
  apply (undecodable_literal_is_content_error DOUBLE_CONST "."). reflexivity.
Defined.

(** A decodable literal can still fail: the range check is a second failure
    path of the numeric token actions. *)
Lemma range_check_is_another_failure_path :
  decodable SHORT_CONST "32768s" = true /\
  is_ok (token_action SHORT_CONST "32768s") = false.
Proof. split; reflexivity. Qed.

(** Every failure of a numeric token action is one of the two. *)
Lemma numeric_token_failures (r : numeric_rule) (text : string) (e : exn) :
  token_action r text = Raise e ->
  (decodable r text = false /\ e = CDLContentError (bad_constant r text)) \/
  (decodable r text = true /\
   ((exists n, e = CDLContentError (ShortOutOfRange n)) \/
    (exists n, e = CDLContentError (ByteOutOfRange n)) \/
    e = NameError "int_val")).
Proof.
  intros Hr. destruct (decodable r text) eqn:Hd.
  - right. split; [reflexivity|].
    destruct r; simpl in Hr, Hd.
    + unfold t_FLOAT_CONST in Hr.
      destruct (Py.float_of_str _); [discriminate Hr | discriminate Hd].
    + unfold t_DOUBLE_CONST in Hr.
      destruct (last_char text) as [c|]; [|discriminate Hd].
      destruct (Regex.either "d" "D" c);
        destruct (Py.float_of_str _); first [discriminate Hr | discriminate Hd].
    + unfold t_SHORT_CONST in Hr.
      destruct (Py.eval_int _) as [n|]; [|discriminate Hd].
      destruct ((n <? -32768) || (n >? 32767)); [|discriminate Hr].
      left. exists n. congruence.
    + unfold t_BYTE_CONST in Hr.
      destruct (first_char text) as [c|]; [|discriminate Hd].
      destruct (Regex.only Regex.quote c).
      * destruct (Py.ord_eval_char text) as [n|]; [|discriminate Hd].
        destruct ((n <? -128) || (n >? 127)); [|discriminate Hr].
        right; left. exists n. congruence.
      * destruct (Py.int_of_str _) as [n|]; [|discriminate Hd].
        destruct ((n <? -128) || (n >? 127)); [|discriminate Hr].
        right; left. exists n. congruence.
    + unfold t_INT_CONST in Hr.
      destruct (Py.eval_int text) as [n|]; [|discriminate Hd].
      destruct ((n <? XDR_INT_MIN) || (n >? XDR_INT_MAX)); [|discriminate Hr].
      right; right. congruence.
  - left. split; [reflexivity|].
    pose proof (undecodable_raises r text Hd). congruence.
Qed.

(** ** Dimension declarations *)


Lemma eqb_nonempty (name : string) : name <> "" -> String.eqb name "" = false.
Proof. intros Hn. apply String.eqb_neq. exact Hn. Qed.

Lemma createDimension_lookup name size ds :
  dimensions (createDimension name size ds) !! name = Some (mkDimension size (size =? 0)).
Proof. simpl. apply lookup_insert_eq. Qed.


Section Dimdecl.
Variables (p : parser) (ds : dataset) (name : string) (p3 : scalar).
Hypothesis Hds : ncdataset p = Some ds.
Hypothesis Hname : name <> "".
Hypothesis Htok : dim_token p3.
Hypothesis Htracked : unlimited_tracked p.

Lemma dimdecl_duplicate :
  is_Some (dimensions ds !! name) ->
  dimdecl name p3 p = (Raise (CDLContentError (DuplicateDimension name)), p).
Proof.
  intros Hdup. unfold dimdecl, p_dimd, bind, the_dataset. rewrite Hds.
  destruct (decide (is_Some (dimensions ds !! name))); [reflexivity | contradiction].
Qed.

Lemma dimdecl_fresh :
  dimensions ds !! name = None ->
  dimdecl name p3 p = p_dimdecl name p3 p.
Proof.
  intros Hfresh. unfold dimdecl, p_dimd, bind, the_dataset. rewrite Hds.
  destruct (decide (is_Some (dimensions ds !! name))) as [[d Hd]|_]; [congruence|].
  reflexivity.
Qed.

Lemma p_dimdecl_nonpositive (z : Z) :
  is_unlimited_token p3 = false -> int_of_scalar p3 = Ok z -> z <= 0 ->
  p_dimdecl name p3 p = (Raise (CDLContentError (DimMustBePositive name)), p).
Proof.
  intros Hfix Hint Hle. unfold p_dimdecl.
  assert (Hdecl :
    (let! dimlen := lift (int_of_scalar p3) in
     if dimlen <=? 0 then raise (CDLContentError (DimMustBePositive name))
     else ret (name, dimlen)) p
    = (Raise (CDLContentError (DimMustBePositive name)), p)).
  { unfold bind, lift. rewrite Hint.
    replace (z <=? 0) with true by (symmetry; apply Z.leb_le; exact Hle). reflexivity. }
  destruct p3; try discriminate Hfix; unfold bind at 1; rewrite Hdecl; reflexivity.
Qed.

Lemma p_dimdecl_fixed (z : Z) :
  is_unlimited_token p3 = false -> int_of_scalar p3 = Ok z -> 0 < z ->
  p_dimdecl name p3 p =
    (Ok tt,
     with_log INFO (CreatedDimension name z)
       (with_curr_dim name (with_dataset (createDimension name z ds) p))).
Proof.
  intros Hfix Hint Hpos. unfold p_dimdecl.
  assert (Hdecl :
    (let! dimlen := lift (int_of_scalar p3) in
     if dimlen <=? 0 then raise (CDLContentError (DimMustBePositive name))
     else ret (name, dimlen)) p
    = (Ok (name, z), p)).
  { unfold bind, lift. rewrite Hint.
    replace (z <=? 0) with false by (symmetry; apply Z.leb_gt; exact Hpos). reflexivity. }
  destruct p3; try discriminate Hfix; unfold bind at 1; rewrite Hdecl;
    rewrite (eqb_nonempty _ Hname); simpl;
    unfold bind, the_dataset; rewrite Hds; reflexivity.
Qed.

(** [int(p[3])] is evaluated outside any handler: its exception leaves
    the action as it is. *)
Lemma p_dimdecl_no_length (e : exn) :
  is_unlimited_token p3 = false -> int_of_scalar p3 = Raise e ->
  p_dimdecl name p3 p = (Raise e, p).
Proof.
  intros Hfix Hint. unfold p_dimdecl.
  assert (Hdecl :
    (let! dimlen := lift (int_of_scalar p3) in
     if dimlen <=? 0 then raise (CDLContentError (DimMustBePositive name))
     else ret (name, dimlen)) p
    = (Raise e, p)).
  { unfold bind, lift. rewrite Hint. reflexivity. }
  destruct p3; try discriminate Hfix; unfold bind at 1; rewrite Hdecl; reflexivity.
Qed.

Lemma p_dimdecl_second_unlimited :
  is_unlimited_token p3 = true -> has_unlimited ds ->
  p_dimdecl name p3 p = (Raise (CDLContentError OnlyOneUnlimited), p).
Proof.
  intros Hun Hhas. apply (Htracked ds Hds) in Hhas.
  destruct p3; try discriminate Hun. simpl in Htok. subst s.
  unfold p_dimdecl, bind, gets. simpl. rewrite Hhas. reflexivity.
Qed.

Lemma p_dimdecl_first_unlimited :
  is_unlimited_token p3 = true -> ~ has_unlimited ds ->
  p_dimdecl name p3 p =
    (Ok tt,
     with_log INFO (CreatedDimension name 0)
       (with_curr_dim name
          (with_dataset (createDimension name 0 ds) (with_rec_dimname name p)))).
Proof.
  intros Hun Hnone.
  assert (Hfalse : name_truthy (rec_dimname p) = false).
  { destruct (name_truthy (rec_dimname p)) eqn:Ht; [|reflexivity].
    exfalso. apply Hnone. now apply (Htracked ds Hds). }
  destruct p3; try discriminate Hun. simpl in Htok. subst s.
  unfold p_dimdecl, bind, gets. simpl. rewrite Hfalse. simpl.
  rewrite (eqb_nonempty _ Hname). simpl.
  unfold the_dataset. simpl. rewrite Hds. reflexivity.
Qed.

(** What [int(p[3])] gives for the tokens of the grammar: a value, unless
    the token is an infinite double. *)
Lemma int_of_dim_token :
  is_unlimited_token p3 = false ->
  if is_infinite p3 then int_of_scalar p3 = Raise OverflowError
  else exists z, int_of_scalar p3 = Ok z.
Proof.
  intros Hfix. destruct p3 as [z|z|z|x|x|s]; try contradiction; try discriminate Hfix.
  - simpl. eauto.
  - destruct x as [q|neg]; simpl; eauto.
Qed.

Lemma rejected_dec : rejected ds name p3 \/ ~ rejected ds name p3.
Proof.
  unfold rejected.
  destruct (dimensions ds !! name) as [d|] eqn:Hd; [left; left; eauto|].
  destruct (is_unlimited_token p3) eqn:Hun.
  - destruct (name_truthy (rec_dimname p)) eqn:Ht.
    + left. right. right. split; [reflexivity|]. now apply (Htracked ds Hds).
    + right. intros [[x Hx]|[[Hx _]|[_ Hx]]]; try discriminate.
      apply (Htracked ds Hds) in Hx. congruence.
  - destruct (int_of_scalar p3) as [z|e] eqn:Hint.
    + destruct (Z_le_gt_dec z 0) as [Hle|Hgt].
      * left. right. left. split; [reflexivity|]. eauto.
      * right. intros [[x Hx]|[[_ (z' & Hz' & Hle)]|[Hx _]]]; try discriminate.
        injection Hz' as <-. lia.
    + right. intros [[x Hx]|[[_ (z' & Hz' & Hle)]|[Hx _]]]; discriminate.
Qed.

Lemma dimdecl_rejects :
  rejected ds name p3 ->
  exists m, dimdecl name p3 p = (Raise (CDLContentError m), p).
Proof.
  intros Hrej.
  destruct (dimensions ds !! name) as [d|] eqn:Hd.
  { eexists. apply dimdecl_duplicate. rewrite Hd. eauto. }
  rewrite (dimdecl_fresh Hd).
  destruct Hrej as [[x Hx]|[[Hfix (z & Hint & Hle)]|[Hun Hhas]]].
  - rewrite Hd in Hx. discriminate.
  - eexists. now apply (p_dimdecl_nonpositive z).
  - eexists. now apply p_dimdecl_second_unlimited.
Qed.

(** An infinite length is none of the three grounds, and the declaration
    ends in the [OverflowError] of the conversion. *)
Lemma dimdecl_overflows :
  ~ rejected ds name p3 ->
  is_infinite p3 = true ->
  dimdecl name p3 p = (Raise OverflowError, p).
Proof.
  intros Hacc Hinf. unfold rejected in Hacc.
  destruct (dimensions ds !! name) as [d|] eqn:Hd.
  { exfalso. apply Hacc. left. eauto. }
  rewrite (dimdecl_fresh Hd).
  assert (Hfix : is_unlimited_token p3 = false)
    by (destruct p3 as [| | |x|x|]; try discriminate Hinf; reflexivity).
  pose proof (int_of_dim_token Hfix) as Hint. rewrite Hinf in Hint.
  now apply p_dimdecl_no_length.
Qed.

Lemma dimdecl_registers :
  ~ rejected ds name p3 ->
  is_infinite p3 = false ->
  dimdecl name p3 p =
    (Ok tt,
     with_log INFO (CreatedDimension name (declared_length p3))
       (with_curr_dim name
          (with_dataset (createDimension name (declared_length p3) ds)
             (if is_unlimited_token p3 then with_rec_dimname name p else p)))).
Proof.
  intros Hacc Hfin. unfold rejected in Hacc.
  destruct (dimensions ds !! name) as [d|] eqn:Hd.
  { exfalso. apply Hacc. left. eauto. }
  rewrite (dimdecl_fresh Hd). unfold declared_length.
  destruct (is_unlimited_token p3) eqn:Hun.
  - apply p_dimdecl_first_unlimited; [exact Hun|].
    intros Hhas. apply Hacc. right. right. split; [reflexivity | exact Hhas].
  - pose proof (int_of_dim_token Hun) as Hint. rewrite Hfin in Hint.
    destruct Hint as [z Hint]. rewrite Hint.
    apply (p_dimdecl_fixed z); [exact Hun | exact Hint |].
    destruct (Z_le_gt_dec z 0) as [Hle|Hgt]; [|lia].
    exfalso. apply Hacc. right. left. split; [reflexivity|]. eauto.
Qed.

Lemma declared_length_unlimited :
  ~ rejected ds name p3 ->
  is_infinite p3 = false ->
  (declared_length p3 =? 0) = is_unlimited_token p3.
Proof.
  intros Hacc Hfin. unfold declared_length.
  destruct (is_unlimited_token p3) eqn:Hun; [reflexivity|].
  pose proof (int_of_dim_token Hun) as Hint. rewrite Hfin in Hint.
  destruct Hint as [z Hint]. rewrite Hint.
  apply Z.eqb_neq. intros ->. apply Hacc. right. left. split; [exact Hun|].
  exists 0. split; [exact Hint | lia].
Qed.

End Dimdecl.



(** C7: the declaration [x = 1e400] in an empty dataset.  The literal is a
    double constant whose value is infinite, and [int(p[3])] raises
    [OverflowError]: the name is new, the length is not non-positive and no
    unlimited dimension is involved, yet the dimension is not registered,
    and the error is not [CDLContentError]. *)
Theorem infinite_dimension_length_overflows :
  Regex.matches Regex.double_const "1e400" = true /\
  t_DOUBLE_CONST "1e400" = Ok (SFloat64 (Infinity false)) /\
  ~ rejected empty_dataset "x" (SFloat64 (Infinity false)) /\
  dimdecl "x" (SFloat64 (Infinity false)) fresh_parser = (Raise OverflowError, fresh_parser) /\
  dimensions empty_dataset !! "x" = None.
Proof.
  split; [vm_compute; reflexivity|]. split; [vm_compute; reflexivity|].
  split; [|split; [vm_compute; reflexivity | reflexivity]].
  intros [[d Hd]|[[_ (z & Hz & _)]|[Hun _]]]; discriminate.
Qed.

(** The declaration keeps [rec_dimname] in step with the dataset, so the
    tracking assumption holds throughout a dimensions section. *)
Lemma dimdecl_keeps_tracking (p : parser) (ds : dataset) (name : string) (p3 : scalar) :
  ncdataset p = Some ds ->
  name <> "" ->
  dim_token p3 ->
  unlimited_tracked p ->
  unlimited_tracked (snd (dimdecl name p3 p)).
Proof.
  intros Hds Hname Htok Htracked.
  destruct (rejected_dec p ds name p3 Hds Htracked) as [Hrej|Hacc].
  { edestruct dimdecl_rejects as [m ->]; [eassumption..|]. exact Htracked. }
  destruct (is_infinite p3) eqn:Hinf.
  { rewrite (dimdecl_overflows p ds name p3 Hds Htok Hacc Hinf). exact Htracked. }
  rewrite (dimdecl_registers p ds name p3 Hds Hname Htok Htracked Hacc Hinf).
  pose proof (declared_length_unlimited ds name p3 Htok Hacc Hinf) as Hlen.
  intros ds' Hds'. simpl in Hds'. injection Hds' as <-.
  destruct (is_unlimited_token p3) eqn:Hun.
  - simpl. split.
    + intros _. exists name, (mkDimension (declared_length p3) true).
      split; [|reflexivity]. rewrite createDimension_lookup, Hlen. reflexivity.
    + intros _. rewrite (eqb_nonempty _ Hname). reflexivity.
  - simpl. rewrite (Htracked ds Hds). unfold has_unlimited. simpl. rewrite Hlen.
    split.
    + intros (n & d & Hl & Hu). exists n, d. split; [|exact Hu].
      rewrite lookup_insert_ne; [exact Hl|]. intros ->.
      assert (Hacc' : ~ is_Some (dimensions ds !! n))
        by (intros H; apply Hacc; left; exact H).
      apply Hacc'. eauto.
    + intros (n & d & Hl & Hu). exists n, d. split; [|exact Hu].
      destruct (decide (name = n)) as [->|Hne].
      * rewrite lookup_insert_eq in Hl. injection Hl as <-. discriminate Hu.
      * rewrite lookup_insert_ne in Hl by exact Hne. exact Hl.
Qed.

(** Two declarations of [x]: the second is rejected.  Two unlimited
    dimensions: the second is rejected. *)
Example second_x_rejected :
  fst (dimdecl "x" (SInt32 3) (snd (dimdecl "x" (SInt32 2) fresh_parser)))
  = Raise (CDLContentError (DuplicateDimension "x")).
Proof. vm_compute. reflexivity. Qed.

Example second_unlimited_rejected :
  fst (dimdecl "t2" (SStr "unlimited") (snd (dimdecl "t1" (SStr "unlimited") fresh_parser)))
  = Raise (CDLContentError OnlyOneUnlimited).
Proof. vm_compute. reflexivity. Qed.

(** ** Fill values *)

Lemma get_default_fill_value_dtype (dt : dtype) :
  dt <> NC_CHAR ->
  get_default_fill_value (dtype_char dt) = Ok (default_fill dt).
Proof. destruct dt; try reflexivity; congruence. Qed.

(** The type character of a character variable is not recognised. *)
Lemma get_default_fill_value_char :
  get_default_fill_value (dtype_char NC_CHAR)
    = Raise (CDLContentError (UnrecognisedDataType "c")).
Proof. reflexivity. Qed.

(** Without a fill attribute, a character variable cannot be padded,
    whatever the target length. *)
Lemma pad_array_char_no_fill (var : variable) (varlen : num) (arr : list value) :
  var_dtype var = NC_CHAR ->
  var_attrs var !! "_FillValue" = None ->
  var_attrs var !! "missing_value" = None ->
  pad_array var varlen arr = Raise (CDLContentError (UnrecognisedDataType "c")).
Proof.
  intros Hchar Hfv Hmv. unfold pad_array. rewrite Hfv, Hmv, Hchar. reflexivity.
Qed.

(** The defaults are -127, NUL, -32767, -2147483647, and for both real
    types the same number, [15 * 2^119], which reads 9.969209968e+36 to ten
    significant digits. *)
Lemma default_fill_values :
  default_fill NC_BYTE = SInt8 (-127) /\
  default_fill NC_CHAR = SStr (String (ascii_of_N 0) "") /\
  default_fill NC_SHORT = SInt16 (-32767) /\
  default_fill NC_INT = SInt32 (-2147483647) /\
  default_fill NC_FLOAT = SFloat32 (Finite (inject_Z (15 * 2 ^ 119))) /\
  default_fill NC_DOUBLE = SFloat64 (Finite (inject_Z (15 * 2 ^ 119))) /\
  99692099675 * 10 ^ 26 <= 15 * 2 ^ 119 < 99692099685 * 10 ^ 26.
Proof.
  do 4 (split; [reflexivity|]).
  do 2 (split; [vm_compute; reflexivity|]).
  split; [vm_compute; discriminate | vm_compute; reflexivity].
Qed.

(** [pad_array] with an [int] target length extends the list with the
    effective fill value up to that length. *)
Lemma pad_array_int (var : variable) (n : Z) (arr : list value) :
  has_fill var ->
  pad_array var (PyInt n) arr =
    Ok (arr ++ replicate (Z.to_nat (n - Z.of_nat (List.length arr))) (effective_fill var)).
Proof.
  intros Hfill. unfold pad_array, effective_fill.
  destruct (var_attrs var !! "_FillValue") eqn:Hfv; [reflexivity|].
  destruct (var_attrs var !! "missing_value") eqn:Hmv; [reflexivity|].
  destruct Hfill as [Hnum|[[x Hx]|[x Hx]]]; try congruence.
  rewrite get_default_fill_value_dtype by exact Hnum. reflexivity.
Qed.

Lemma pad_array_int_length (var : variable) (n : Z) (arr padded : list value) :
  has_fill var ->
  Z.of_nat (List.length arr) < n ->
  pad_array var (PyInt n) arr = Ok padded ->
  Z.of_nat (List.length padded) = n /\
  take (List.length arr) padded = arr /\
  Forall (fun v => v = effective_fill var) (drop (List.length arr) padded).
Proof.
  intros Hfill Hlt Hpad. rewrite pad_array_int in Hpad by exact Hfill. injection Hpad as <-.
  repeat split.
  - rewrite length_app, length_replicate. lia.
  - rewrite take_app_length. reflexivity.
  - rewrite drop_app_length. apply Forall_replicate. reflexivity.
Qed.

(** [pad_array] with a [float] target length cannot repeat the fill list. *)
Lemma pad_array_float (var : variable) (q : Q) (arr : list value) :
  has_fill var ->
  pad_array var (PyFloat q) arr = Raise TypeError.
Proof.
  intros Hfill. unfold pad_array.
  destruct (var_attrs var !! "_FillValue") eqn:Hfv; [reflexivity|].
  destruct (var_attrs var !! "missing_value") eqn:Hmv; [reflexivity|].
  destruct Hfill as [Hnum|[[x Hx]|[x Hx]]]; try congruence.
  rewrite get_default_fill_value_dtype by exact Hnum. reflexivity.
Qed.

(** ** The fill placeholder *)

Lemma p_const_literal (p1 : scalar) (p : parser) :
  is_fill_string p1 = false -> p_const p1 p = (Ok (Scalar p1), p).
Proof. intros Hf. unfold p_const. rewrite Hf. reflexivity. Qed.

(** For a non-character variable the placeholder becomes the [_FillValue]
    attribute if set, else the per-type default; [missing_value] is not
    consulted. *)
Lemma p_const_placeholder_numeric (p1 : scalar) (p : parser) (var : variable) :
  is_fill_string p1 = true ->
  current_variable p = Some var ->
  var_dtype var <> NC_CHAR ->
  p_const p1 p =
    (Ok (match var_attrs var !! "_FillValue" with
         | Some fv => fv
         | None => Scalar (default_fill (var_dtype var))
         end), p).
Proof.
  intros Hf Hcv Hnum. unfold p_const, bind, gets. rewrite Hf, Hcv.
  assert (Hk : String.eqb (dtype_kind (var_dtype var)) "S" = false)
    by (destruct (var_dtype var); try reflexivity; congruence).
  rewrite Hk. simpl.
  destruct (var_attrs var !! "_FillValue"); [reflexivity|].
  unfold lift. rewrite get_default_fill_value_dtype by exact Hnum. reflexivity.
Qed.

(** For a character variable nothing is substituted: a warning is logged and
    the placeholder is passed on as it is. *)
Lemma p_const_placeholder_char (p1 : scalar) (p : parser) (var : variable) :
  is_fill_string p1 = true ->
  current_variable p = Some var ->
  var_dtype var = NC_CHAR ->
  p_const p1 p = (Ok (Scalar p1), with_log WARNING UnableToReplaceFill p).
Proof.
  intros Hf Hcv Hchar. unfold p_const, bind, gets. rewrite Hf, Hcv, Hchar. reflexivity.
Qed.

Lemma p_const_placeholder_no_variable (p1 : scalar) (p : parser) :
  is_fill_string p1 = true ->
  current_variable p = None ->
  p_const p1 p = (Ok (Scalar p1), with_log WARNING UnableToReplaceFill p).
Proof.
  intros Hf Hcv. unfold p_const, bind, gets. rewrite Hf, Hcv. reflexivity.
Qed.

(** C3: on [missing_only] the placeholder resolves to the [int] default
    -2147483647, while padding the same variable uses its [missing_value]
    -999: the two lookups differ. *)
Theorem placeholder_skips_missing_value :
  current_variable missing_only_parser = Some missing_only /\
  p_const (SStr "_") missing_only_parser
    = (Ok (Scalar (SInt32 (-2147483647))), missing_only_parser) /\
  effective_fill missing_only = Scalar (SInt32 (-999)) /\
  pad_array missing_only (PyInt 2) [] = Ok [Scalar (SInt32 (-999)); Scalar (SInt32 (-999))].
Proof. vm_compute. repeat split; reflexivity. Qed.

(** ** Scalar variables *)




(** With a store that accepts the value, three literals leave exactly the
    first one in the store. *)
Example scalar_three_literals :
  let out := @write_var_data accepting_sink "s"
               [Scalar (SInt32 7); Scalar (SInt32 8); Scalar (SInt32 9)] scalar_parser in
  is_ok (fst out) = true /\
  (contents <$> ncdataset (snd out)) = Some [("s", StoredScalar (Scalar (SInt32 7)))].
Proof. vm_compute. split; reflexivity. Qed.

(** If the store rejects the first value, the statement fails with
    [CDLContentError] and the error is logged. *)
Example scalar_rejected_by_store :
  let out := @write_var_data rejecting_sink "s" [Scalar (SStr "x")] scalar_parser in
  fst out = Raise (CDLContentError (ScalarAssignFailed "s")) /\
  logged (snd out) = [(DEBUG, ScanningData "s"); (ERROR, ScalarAssignError "s")].
Proof. vm_compute. split; reflexivity. Qed.

(** ** Record variables *)

(** C1: for the character variable [c(time)], whose only dimension is the
    still-empty unlimited one, the expected length is divided by the length
    0 of the last dimension: [write_var_data] raises [ZeroDivisionError]
    before any length is inferred, whatever the store would accept. *)
Theorem first_record_write_divides_by_zero (sink : Sink) :
  (dim_len <$> dimensions text_record_dataset !! "time") = Some 0 /\
  var_shape text_record_dataset (mkVariable NC_CHAR ["time"] ∅) = Some [0] /\
  fst (@write_var_data sink "c" [Scalar (SStr "abc")] text_record_parser)
    = Raise ZeroDivisionError /\
  ncdataset (snd (@write_var_data sink "c" [Scalar (SStr "abc")] text_record_parser))
    = Some text_record_dataset.
Proof. vm_compute. repeat split; reflexivity. Qed.

(** ** Padding *)

(** C2: for the character variable [c(n, w)] given one string where three
    are expected, the list is not padded.  Without a fill attribute the
    default is looked up under the type character ['c'], which
    [get_default_fill_value] does not know, and [CDLContentError] is raised;
    with [missing_value] set, the expected length has become the float 3.0
    and repeating the fill value raises [TypeError].  In both cases nothing
    is handed to the store. *)
Theorem padding_fails_for_text_variable (sink : Sink) :
  get_default_fill_value (dtype_char NC_CHAR)
    = Raise (CDLContentError (UnrecognisedDataType "c")) /\
  fst (@write_var_data sink "c" [Scalar (SStr "ab")] text_parser)
    = Raise (CDLContentError (UnrecognisedDataType "c")) /\
  ncdataset (snd (@write_var_data sink "c" [Scalar (SStr "ab")] text_parser))
    = Some text_dataset /\
  fst (@write_var_data sink "c" [Scalar (SStr "ab")] text_missing_parser)
    = Raise TypeError /\
  ncdataset (snd (@write_var_data sink "c" [Scalar (SStr "ab")] text_missing_parser))
    = Some text_missing_dataset.
Proof. vm_compute. repeat split; reflexivity. Qed.

(** [int v(d)] with [d = 5] and no fill attribute: three literals are
    padded with two default fill values. *)
Example padding_numeric_variable :
  let ds := createVariable "v" NC_INT ["d"] (createDimension "d" 5 empty_dataset) in
  let p := mkParser (Some ds) None None None 0 1 [] in
  let out := @write_var_data accepting_sink "v"
               [Scalar (SInt32 1); Scalar (SInt32 2); Scalar (SInt32 3)] p in
  fst out = Ok [Scalar (SInt32 1); Scalar (SInt32 2); Scalar (SInt32 3);
                Scalar (SInt32 (-2147483647)); Scalar (SInt32 (-2147483647))].
Proof. vm_compute. reflexivity. Qed.

(** ** Character data *)

Lemma fixed_width_length (w : nat) (s : string) : String.length (fixed_width w s) = w.
Proof.
  revert s. induction w as [|w IH]; intros s; [reflexivity|].
  destruct s; simpl; rewrite IH; reflexivity.
Qed.

Lemma fixed_width_empty (w : nat) : fixed_width w EmptyString = nuls w.
Proof. induction w as [|w IH]; [reflexivity|]. simpl. rewrite IH. reflexivity. Qed.

(** A string no longer than the width is kept and padded with NUL. *)
Lemma fixed_width_pads (w : nat) (s : string) :
  (String.length s <= w)%nat ->
  fixed_width w s = (s ++ nuls (w - String.length s))%string.
Proof.
  revert s. induction w as [|w IH]; intros s Hle.
  - destruct s; [reflexivity | simpl in Hle; lia].
  - destruct s as [|c s]; simpl.
    + rewrite fixed_width_empty. reflexivity.
    + rewrite IH by (simpl in Hle; lia). reflexivity.
Qed.

Lemma mapM_text_of {sink : Sink} (strs : list string) :
  mapM text_of (text <$> strs) = Some strs.
Proof.
  apply mapM_fmap_Some. intros s. reflexivity.
Qed.

Lemma str_list_to_char_arr_texts {sink : Sink} (strs : list string) (maxlen : Z) :
  0 < maxlen ->
  str_list_to_char_arr (text <$> strs) maxlen
    = Some (fixed_width (Z.to_nat maxlen) <$> strs).
Proof.
  intros Hpos. unfold str_list_to_char_arr. rewrite mapM_text_of.
  replace (maxlen <=? 0) with false by (symmetry; apply Z.leb_gt; exact Hpos).
  reflexivity.
Qed.

(** What [put_char_data] does once it is reached: the strings are handed to
    the store as rows whose width is the length of the variable's last
    dimension; a string shorter than the width is padded with NUL.  With
    width 5, [ab] and [cdefg] become [ab\0\0\0] and [cdefg]. *)
Lemma char_data_packed_to_last_dimension {sink : Sink} (ds : dataset)
    (varname : string) (var : variable) (shape : list Z) (width : Z)
    (strs : list string) (reclen : num) :
  var_dimensions var <> [] ->
  last shape = Some width ->
  0 < width ->
  let rows := fixed_width (Z.to_nat width) <$> strs in
  put_char_data ds varname var shape (text <$> strs) reclen =
    match target_shape shape (text <$> strs) reclen with
    | Raise e => Raise e
    | Ok sh =>
        match nc_setitem ds varname (mkArray (var_dtype var) sh (text <$> rows)) with
        | Some ds' => Ok ds'
        | None => Raise LibraryError
        end
    end /\
  Forall (fun row => String.length row = Z.to_nat width) rows /\
  (forall s, s ∈ strs -> (String.length s <= Z.to_nat width)%nat ->
             fixed_width (Z.to_nat width) s
               = (s ++ nuls (Z.to_nat width - String.length s))%string) /\
  fixed_width 5 "ab" = ("ab" ++ nuls 3)%string /\
  fixed_width 5 "cdefg" = "cdefg".
Proof.
  intros Hdims Hlast Hpos rows. repeat split.
  - unfold put_char_data.
    assert (Hnd : (var_ndim var >? 0) = true).
    { unfold var_ndim. destruct (var_dimensions var); [congruence|].
      simpl. reflexivity. }
    rewrite Hnd, Hlast. simpl default.
    rewrite (str_list_to_char_arr_texts strs width Hpos). reflexivity.
  - subst rows. apply Forall_fmap, Forall_true. intros s. simpl.
    apply fixed_width_length.
  - intros s _ Hle. apply fixed_width_pads. exact Hle.
Qed.

Lemma char_data_packed_to_last_dimension_witness :
  let rows := fixed_width (Z.to_nat 5) <$> ["ab"; "cdefg"] in
  @put_char_data accepting_sink text_dataset "c" (mkVariable NC_CHAR ["n"; "w"] ∅)
      [2; 5] (text <$> ["ab"; "cdefg"]) (PyInt 0) =
    match @target_shape [2; 5] (text <$> ["ab"; "cdefg"]) (PyInt 0) with
    | Raise e => Raise e
    | Ok sh =>
        match @nc_setitem accepting_sink text_dataset "c"
                (mkArray NC_CHAR sh (text <$> rows)) with
        | Some ds' => Ok ds'
        | None => Raise LibraryError
        end
    end /\
  Forall (fun row => String.length row = Z.to_nat 5) rows /\
  (forall s, s ∈ ["ab"; "cdefg"] -> (String.length s <= Z.to_nat 5)%nat ->
             fixed_width (Z.to_nat 5) s
               = (s ++ nuls (Z.to_nat 5 - String.length s))%string) /\
  fixed_width 5 "ab" = ("ab" ++ nuls 3)%string /\
  fixed_width 5 "cdefg" = "cdefg".
Proof.
  apply (@char_data_packed_to_last_dimension accepting_sink text_dataset "c"
           (mkVariable NC_CHAR ["n"; "w"] ∅) [2; 5] 5 ["ab"; "cdefg"] (PyInt 0)).
  - discriminate.
  - reflexivity.
  - lia.
Defined.

(** The whole data statement for [char c(n, w)] with [n = 2], [w = 5]. *)
Example two_strings_written :
  let ds := createVariable "c" NC_CHAR ["n"; "w"]
              (createDimension "w" 5 (createDimension "n" 2 empty_dataset)) in
  let p := mkParser (Some ds) None None None 0 1 [] in
  let out := @write_var_data accepting_sink "c" [text "ab"; text "cdefg"] p in
  is_ok (fst out) = true /\
  (contents <$> ncdataset (snd out)) =
    Some [("c", StoredArray (mkArray NC_CHAR [PyInt 2; PyInt 5]
                               [text ("ab" ++ nuls 3); text "cdefg"]))].
Proof. vm_compute. split; reflexivity. Qed.

(** ** Attributes *)

Lemma split_on_absent (sep : ascii) (s : string) :
  contains sep s = false -> split_on sep s = [s].
Proof.
  induction s as [|c s IH]; intros Hc; [reflexivity|].
  simpl in *. apply orb_false_iff in Hc as [Hc Hs].
  rewrite Hc, (IH Hs). reflexivity.
Qed.

Lemma split_on_join (sep : ascii) (a b : string) :
  contains sep a = false ->
  contains sep b = false ->
  split_on sep (a ++ String sep b) = [a; b].
Proof.
  intros Ha Hb. induction a as [|c a IH]; simpl.
  - rewrite Ascii.eqb_refl, (split_on_absent sep b Hb). reflexivity.
  - simpl in Ha. apply orb_false_iff in Ha as [Hc Ha].
    rewrite Hc, (IH Ha). reflexivity.
Qed.

Lemma first_char_join (sep : ascii) (a b : string) :
  a <> "" ->
  contains sep a = false ->
  exists c, first_char (a ++ String sep b) = Some c /\ Ascii.eqb c sep = false.
Proof.
  intros Hne Ha. destruct a as [|c a]; [congruence|].
  simpl in Ha. apply orb_false_iff in Ha as [Hc _].
  exists c. split; [reflexivity | exact Hc].
Qed.

Section SetAttribute.
Context {sink : Sink}.
Variables (p : parser) (ds : dataset).
Hypothesis Hds : ncdataset p = Some ds.

Lemma set_global_attribute (attr : string) (vals : list scalar) (x : value) :
  ncattrs ds !! attr = None ->
  x = attval_of vals ->
  p_gattdecl attr vals p =
    if ds_setncattr_ok ds attr x then
      (Ok tt,
       with_log INFO (CreatedGlobalAttribute (String ":" attr) x)
         (with_dataset (setncattr attr x ds) p))
    else (Raise LibraryError, p).
Proof.
  intros Hfree ->. unfold p_gattdecl, bind, gets. rewrite Hds.
  unfold set_attribute. cbn [first_char tail_string].
  change (Ascii.eqb ":" ":") with true. cbv iota.
  unfold bind, the_dataset. rewrite Hds.
  destruct (decide (is_Some (ncattrs ds !! attr))) as [[y Hy]|_]; [congruence|].
  fold (attval_of vals). destruct (ds_setncattr_ok ds attr (attval_of vals)); reflexivity.
Qed.

Lemma set_variable_attribute (varname attr : string) (var : variable)
    (vals : list scalar) (x : value) :
  varname <> "" ->
  contains ":" varname = false ->
  contains ":" attr = false ->
  variables ds !! varname = Some var ->
  var_attrs var !! attr = None ->
  coerced ds (OfVariable varname) attr (attval_of vals) = Some x ->
  p_attdecl varname attr vals p =
    if var_setncattr_ok ds varname attr x then
      (Ok tt,
       with_log INFO (CreatedAttribute varname attr x)
         (with_dataset (var_setncattr varname attr x ds) p))
    else (Raise (CDLContentError (InvalidAttributeName (varname ++ String ":" attr))), p).
Proof.
  intros Hne Hv Ha Hvar Hfree Hco.
  unfold p_attdecl, bind, gets. rewrite Hds. unfold set_attribute.
  destruct (first_char_join ":" varname attr Hne Hv) as (c & -> & ->).
  rewrite (split_on_join ":" varname attr Hv Ha).
  unfold try_except, bind, the_dataset. rewrite Hds, Hvar.
  destruct (decide (is_Some (var_attrs var !! attr))) as [[y Hy]|_]; [congruence|].
  unfold coerced in Hco. rewrite Hvar in Hco. fold (attval_of vals).
  destruct (String.eqb attr "_FillValue").
  - rewrite Hco. unfold ret at 1.
    destruct (var_setncattr_ok ds varname attr x); reflexivity.
  - injection Hco as <-. unfold ret at 1.
    destruct (var_setncattr_ok ds varname attr (attval_of vals)); reflexivity.
Qed.

End SetAttribute.

Lemma attribute_of_setncattr (ds : dataset) (attr : string) (x : value) :
  attribute_of (setncattr attr x ds) Global attr = Some x.
Proof. simpl. apply lookup_insert_eq. Qed.

Lemma attribute_of_var_setncattr (ds : dataset) (varname attr : string)
    (var : variable) (x : value) :
  variables ds !! varname = Some var ->
  attribute_of (var_setncattr varname attr x ds) (OfVariable varname) attr = Some x.
Proof.
  intros Hvar. simpl. rewrite lookup_alter_eq, Hvar. simpl. apply lookup_insert_eq.
Qed.

(** What [set_attribute] does for a fresh attribute name: the value is
    stored if the store takes it, and otherwise the declaration raises and
    leaves the parser as it was. *)
Lemma declare_attribute_stores {sink : Sink} (p : parser) (ds : dataset) (o : owner)
    (attr : string) (vals : list scalar) (x : value) :
  ncdataset p = Some ds ->
  owner_declared ds o ->
  contains ":" attr = false ->
  attribute_of ds o attr = None ->
  coerced ds o attr (attval_of vals) = Some x ->
  if store_accepts ds o attr x then
    exists p' ds',
      declare_attribute o attr vals p = (Ok tt, p') /\
      ncdataset p' = Some ds' /\
      attribute_of ds' o attr = Some x
  else declare_attribute o attr vals p = (Raise (refusal o attr), p).
Proof.
  intros Hds Hown Hattr Hfree Hco. destruct o as [|varname];
    simpl declare_attribute; simpl store_accepts.
  - simpl in Hco. injection Hco as Hx. simpl in Hfree.
    rewrite (set_global_attribute p ds Hds attr vals x Hfree (eq_sym Hx)).
    destruct (ds_setncattr_ok ds attr x); [|reflexivity].
    do 2 eexists. split; [reflexivity|]. split; [reflexivity|].
    apply attribute_of_setncattr.
  - destruct Hown as (Hne & Hv & [var Hvar]).
    simpl in Hfree. rewrite Hvar in Hfree.
    rewrite (set_variable_attribute p ds Hds varname attr var vals x Hne Hv Hattr Hvar Hfree Hco).
    destruct (var_setncattr_ok ds varname attr x); [|reflexivity].
    do 2 eexists. split; [reflexivity|]. split; [reflexivity|].
    now apply attribute_of_var_setncattr with (var := var).
Qed.




(** A global attribute with one literal, one with two, and a variable's
    attribute with one literal, as stored. *)
Example attributes_as_stored :
  let p1 := snd (@declare_attribute accepting_sink Global "title" [SStr "t"] one_variable_parser) in
  let p2 := snd (@declare_attribute accepting_sink Global "range" [SInt32 1; SInt32 9] p1) in
  let p3 := snd (@declare_attribute accepting_sink (OfVariable "v") "units" [SStr "m"] p2) in
  ((fun ds => attribute_of ds Global "title") <$> ncdataset p3) = Some (Some (Scalar (SStr "t"))) /\
  ((fun ds => attribute_of ds Global "range") <$> ncdataset p3)
    = Some (Some (Values [SInt32 1; SInt32 9])) /\
  ((fun ds => attribute_of ds (OfVariable "v") "units") <$> ncdataset p3)
    = Some (Some (Scalar (SStr "m"))).
Proof. vm_compute. repeat split; reflexivity. Qed.

(** ** Conditions that are reported but do not stop the parse *)

Lemma quiet_since_refl (p : parser) : quiet_since p p.
Proof. exists []. split; [symmetry; apply app_nil_r | reflexivity]. Qed.

Lemma quiet_since_trans (p1 p2 p3 : parser) :
  quiet_since p1 p2 -> quiet_since p2 p3 -> quiet_since p1 p3.
Proof.
  intros (e1 & H1 & Q1) (e2 & H2 & Q2). exists (e1 ++ e2). split.
  - rewrite H2, H1. symmetry. apply app_assoc.
  - rewrite existsb_app, Q1, Q2. reflexivity.
Qed.

Lemma quiet_since_new_entries (p p' : parser) :
  quiet_since p p' -> existsb reports (new_entries p p') = false.
Proof.
  intros (es & Hl & Hq). unfold new_entries. rewrite Hl, drop_app_length. exact Hq.
Qed.

Lemma quiet_ret {A} (a : A) : quiet (ret a).
Proof. intros p a' p' H. injection H as _ <-. apply quiet_since_refl. Qed.

Lemma quiet_raise {A} (e : exn) : quiet (@raise A e).
Proof. intros p a p' H. discriminate H. Qed.

Lemma quiet_lift {A} (r : res A) : quiet (lift r).
Proof. intros p a p' H. injection H as _ <-. apply quiet_since_refl. Qed.

Lemma quiet_gets {A} (f : parser -> A) : quiet (gets f).
Proof. intros p a p' H. injection H as _ <-. apply quiet_since_refl. Qed.

Lemma quiet_the_dataset : quiet the_dataset.
Proof.
  intros p a p' H. unfold the_dataset in H.
  destruct (ncdataset p); [|discriminate H].
  injection H as _ <-. apply quiet_since_refl.
Qed.

Lemma quiet_modify (f : parser -> parser) :
  (forall p, logged (f p) = logged p) -> quiet (modify f).
Proof.
  intros Hf p a p' H. unfold modify in H. injection H as _ <-.
  exists []. split; [|reflexivity].
  rewrite Hf. symmetry. apply app_nil_r.
Qed.

Lemma quiet_log (l : level) (m : logmsg) : reports (l, m) = false -> quiet (log l m).
Proof.
  intros Hl p a p' H. unfold log, modify in H. injection H as _ <-.
  exists [(l, m)]. split; [reflexivity|].
  simpl. rewrite Hl. reflexivity.
Qed.

Lemma quiet_bind {A B} (m : M A) (k : A -> M B) :
  quiet m -> (forall a, quiet (k a)) -> quiet (bind m k).
Proof.
  intros Hm Hk p b p' H. unfold bind in H.
  destruct (m p) as [[a|e] p1] eqn:Hmp; [|discriminate H].
  eapply quiet_since_trans; [eapply Hm; eassumption | eapply Hk; eassumption].
Qed.

(** Every handler in the module raises again. *)
Lemma quiet_try_except {A} (m : M A) (h : exn -> M A) :
  quiet m -> (forall e p, is_ok (fst (h e p)) = false) -> quiet (try_except m h).
Proof.
  intros Hm Hh p a p' H. unfold try_except in H.
  destruct (m p) as [[a0|e] p1] eqn:Hmp.
  - injection H as -> ->. eapply Hm. eassumption.
  - specialize (Hh e p1). rewrite H in Hh. discriminate Hh.
Qed.

Ltac quiet_step :=
  first
    [ apply quiet_ret
    | apply quiet_raise
    | apply quiet_lift
    | apply quiet_gets
    | apply quiet_the_dataset
    | apply quiet_log; reflexivity
    | apply quiet_modify; intros; reflexivity
    | apply quiet_bind; [| intros ?]
    | apply quiet_try_except; [| intros; reflexivity]
    | match goal with
      | |- quiet (match ?x with _ => _ end) => destruct x
      end ].

Ltac quiet_auto := repeat quiet_step.

Lemma quiet_t_newline (t : LexToken) : quiet (t_newline t).
Proof. unfold t_newline. quiet_auto. Qed.

Lemma quiet_dimdecl (name : string) (p3 : scalar) : quiet (dimdecl name p3).
Proof. unfold dimdecl, p_dimd, p_dimdecl. quiet_auto. Qed.

Lemma quiet_p_avar (varname : string) : quiet (p_avar varname).
Proof. unfold p_avar. quiet_auto. Qed.

Lemma quiet_set_attribute {sink : Sink} (attid : string) (vals : list scalar) :
  quiet (set_attribute attid vals).
Proof. unfold set_attribute. quiet_auto. Qed.

Lemma quiet_declare_attribute {sink : Sink} (o : owner) (attr : string)
    (vals : list scalar) :
  quiet (declare_attribute o attr vals).
Proof.
  destruct o; unfold declare_attribute, p_gattdecl, p_attdecl;
    repeat first [apply quiet_set_attribute | quiet_step].
Qed.

Lemma quiet_record_lengths (ds : dataset) (var : variable) (shape : list Z)
    (rec : option string) (arrlen : Z) (varlen : num) :
  quiet (record_lengths ds var shape rec arrlen varlen).
Proof. unfold record_lengths. quiet_auto. Qed.

Lemma quiet_write_var_data {sink : Sink} (varname : string) (arr : list value) :
  quiet (write_var_data varname arr).
Proof.
  unfold write_var_data. repeat first [apply quiet_record_lengths | quiet_step].
Qed.

Lemma quiet_p_datadecl {sink : Sink} (varname : string) (arr : list value) :
  quiet (p_datadecl varname arr).
Proof.
  unfold p_datadecl. repeat first [apply quiet_write_var_data | quiet_step].
Qed.

Lemma dtype_eq_char (dt : dtype) : dt = NC_CHAR \/ dt <> NC_CHAR.
Proof. destruct dt; first [left; reflexivity | right; discriminate]. Qed.

Lemma quiet_not_nonfatal {sink : Sink} (a : action) (p : parser) :
  quiet (perform a) -> ~ nonfatal_condition a p.
Proof.
  intros Hq [Hok Hrep].
  destruct (perform a p) as [[u|e] p'] eqn:Hrun; [|discriminate Hok].
  simpl in Hrep. rewrite (quiet_since_new_entries p p') in Hrep; [discriminate|].
  eapply Hq. eassumption.
Qed.

(** [t_error]: one warning, the lexer one character further, no exception. *)
Lemma t_error_skips_and_warns (t : LexToken) (p : parser) :
  t_error t p =
    (Ok tt,
     with_lexpos (lexpos p + 1)
       (with_log WARNING (IllegalCharacter (tok_lineno t) (tok_lexpos t) (tok_value t)) p)).
Proof. reflexivity. Qed.

Lemma new_entries_one (p : parser) (l : level) (m : logmsg) :
  new_entries p (with_log l m p) = [(l, m)].
Proof. unfold new_entries. simpl. apply drop_app_length. Qed.

(** C9, counterexample: a fill placeholder met while no numeric variable is
    current is reported with a warning and the parse goes on. *)
Lemma unreplaced_fill_is_nonfatal : ~ lexical_noise_is_only_nonfatal.
Proof.
  intros Hclaim.
  destruct (Hclaim accepting_sink (Constant (SStr "_")) fresh_parser) as [t Ht].
  - split; vm_compute; reflexivity.
  - discriminate Ht.
Qed.

(** C9, amended: an illegal character is reported with a warning, skipped,
    and nothing is raised; among the actions of [action], the only other
    condition that is reported without stopping the parse is a fill
    placeholder that is not replaced. *)
Theorem nonfatal_conditions {sink : Sink} (t : LexToken) (a : action) (p : parser) :
  (perform (Illegal t) p =
     (Ok tt,
      with_lexpos (lexpos p + 1)
        (with_log WARNING (IllegalCharacter (tok_lineno t) (tok_lexpos t) (tok_value t)) p)) /\
   nonfatal_condition (Illegal t) p) /\
  (nonfatal_condition a p ->
   (exists t', a = Illegal t') \/
   (exists p1, a = Constant p1 /\ is_fill_string p1 = true /\
               perform a p = (Ok tt, with_log WARNING UnableToReplaceFill p))).
Proof.
  split.
  - split; [apply t_error_skips_and_warns|].
    split; [reflexivity|]. simpl perform. rewrite t_error_skips_and_warns.
    unfold new_entries. simpl. rewrite drop_app_length. reflexivity.
  - intros Hnf. destruct a as [t'| t' | name p3 | varname | p1 | o attr vals | varname arr].
    + left. eauto.
    + exfalso. revert Hnf. apply quiet_not_nonfatal, quiet_t_newline.
    + exfalso. revert Hnf. apply quiet_not_nonfatal, quiet_dimdecl.
    + exfalso. revert Hnf. apply quiet_not_nonfatal. simpl.
      apply quiet_bind; [apply quiet_p_avar | intros; apply quiet_ret].
    + right. exists p1. split; [reflexivity|].
      destruct (is_fill_string p1) eqn:Hfill.
      * split; [reflexivity|].
        destruct (current_variable p) as [var|] eqn:Hcv.
        -- destruct (dtype_eq_char (var_dtype var)) as [Hchar|Hnum].
           ++ simpl. unfold bind. rewrite (p_const_placeholder_char p1 p var Hfill Hcv Hchar).
              reflexivity.
           ++ exfalso. destruct Hnf as [_ Hrep]. simpl in Hrep. unfold bind in Hrep.
              rewrite (p_const_placeholder_numeric p1 p var Hfill Hcv Hnum) in Hrep.
              simpl in Hrep. unfold new_entries in Hrep.
              rewrite drop_all in Hrep. discriminate Hrep.
        -- simpl. unfold bind. rewrite (p_const_placeholder_no_variable p1 p Hfill Hcv).
           reflexivity.
      * exfalso. destruct Hnf as [_ Hrep]. simpl in Hrep. unfold bind in Hrep.
        rewrite (p_const_literal p1 p Hfill) in Hrep.
        simpl in Hrep. unfold new_entries in Hrep.
        rewrite drop_all in Hrep. discriminate Hrep.
    + exfalso. revert Hnf. apply quiet_not_nonfatal, quiet_declare_attribute.
    + exfalso. revert Hnf. apply quiet_not_nonfatal, quiet_p_datadecl.
Qed.

Lemma nonfatal_conditions_witness :
  (@perform accepting_sink (Illegal (mkToken "$x" 1 0)) fresh_parser =
     (Ok tt,
      with_lexpos (lexpos fresh_parser + 1)
        (with_log WARNING (IllegalCharacter 1 0 "$x") fresh_parser)) /\
   @nonfatal_condition accepting_sink (Illegal (mkToken "$x" 1 0)) fresh_parser) /\
  ((exists t', Constant (SStr "_") = Illegal t') \/
   (exists p1, Constant (SStr "_") = Constant p1 /\ is_fill_string p1 = true /\
               @perform accepting_sink (Constant (SStr "_")) fresh_parser
                 = (Ok tt, with_log WARNING UnableToReplaceFill fresh_parser))).
Proof.
  destruct (@nonfatal_conditions accepting_sink (mkToken "$x" 1 0)
              (Constant (SStr "_")) fresh_parser) as [H1 H2].
  split; [exact H1|]. apply H2. split; vm_compute; reflexivity.
Defined.

(** ** Record length inferred from the data (first write) *)

Lemma num_truthy_int (z : Z) : num_truthy (PyInt z) = negb (z =? 0).
Proof.
  unfold num_truthy, Qeq_bool. simpl. rewrite Z.mul_1_r. reflexivity.
Qed.

Lemma num_lt_int (a b : Z) : num_lt (PyInt a) (PyInt b) = (a <? b).
Proof.
  unfold num_lt, Qle_bool. simpl. rewrite !Z.mul_1_r.
  rewrite Z.ltb_antisym. reflexivity.
Qed.

Lemma fold_left_mul (l : list Z) (a : Z) :
  fold_left Z.mul l a = a * shape_size l.
Proof.
  revert a. induction l as [|x l IH]; intros a; simpl.
  - lia.
  - rewrite IH. unfold shape_size. simpl. lia.
Qed.

Lemma reduce_mul_product (l : list Z) :
  l <> [] -> reduce_mul l = Ok (shape_size l).
Proof.
  destruct l as [|x l]; [congruence|]. intros _. simpl.
  rewrite fold_left_mul. reflexivity.
Qed.

(** With the unlimited dimension still empty and every other dimension of
    positive length, the positive entries of the shape are the lengths of
    the other dimensions. *)
Lemma positive_shape_entries (ds : dataset) (var : variable) (shape : list Z)
    (r : string) (d : dimension) :
  var_shape ds var = Some shape ->
  dimensions ds !! r = Some d ->
  dim_len d <= 0 ->
  (forall n dim, n ∈ var_dimensions var -> n <> r ->
                 dimensions ds !! n = Some dim -> 0 < dim_len dim) ->
  filter (fun x => 0 < x) shape = other_lengths ds var r.
Proof.
  unfold var_shape, other_lengths. intros Hshape Hr Hzero Hpos.
  apply mapM_Some in Hshape.
  induction Hshape as [|n z names zs Hn Hrest IH]; [reflexivity|].
  destruct (decide (n = r)) as [->|Hne].
  - rewrite Hr in Hn. simpl in Hn. injection Hn as <-.
    rewrite !filter_cons.
    destruct (decide (0 < dim_len d)) as [Hlt|_]; [lia|].
    destruct (decide (r <> r)) as [Hrr|_]; [congruence|].
    apply IH. intros m dim Hm. apply Hpos. now apply elem_of_cons; right.
  - destruct (dimensions ds !! n) as [dim|] eqn:Hdim; [|discriminate Hn].
    simpl in Hn. injection Hn as <-.
    rewrite !filter_cons.
    destruct (decide (0 < dim_len dim)) as [_|Hle];
      [|exfalso; apply Hle; eapply Hpos; [left | exact Hne | exact Hdim]].
    destruct (decide (n <> r)) as [_|Hnn]; [|contradiction].
    simpl. rewrite Hdim. simpl. f_equal.
    apply IH. intros m dim' Hm. apply Hpos. now apply elem_of_cons; right.
Qed.

Lemma positive_entries_product (l : list Z) :
  0 < shape_size (filter (fun x => 0 < x) l).
Proof.
  induction l as [|x l IH]; [reflexivity|].
  rewrite filter_cons. destruct (decide (0 < x)) as [Hx|Hx].
  - unfold shape_size in *. simpl. apply Z.mul_pos_pos; assumption.
  - exact IH.
Qed.

Section FirstRecords.
Variables (ds : dataset) (var : variable) (shape : list Z) (r : string) (d : dimension).
Hypothesis Hshape : var_shape ds var = Some shape.
Hypothesis Hrec : r ∈ var_dimensions var.
Hypothesis Hdim : dimensions ds !! r = Some d.
Hypothesis Hzero : dim_len d <= 0.
Hypothesis Hpositive :
  forall n dim, n ∈ var_dimensions var -> n <> r ->
                dimensions ds !! n = Some dim -> 0 < dim_len dim.

Lemma inferred_reclen_positive : 0 < inferred_reclen ds var r.
Proof.
  unfold inferred_reclen.
  rewrite <- (positive_shape_entries ds var shape r d Hshape Hdim Hzero Hpositive).
  apply positive_entries_product.
Qed.

(** Provided the variable has a dimension besides the record dimension
    whenever it has more than one, the record branch of [write_var_data]
    sets [varlen] to the number of literals and [reclen] to the product of
    the other dimensions' lengths (1 if there is none), and accepts the
    data exactly when [reclen] divides [varlen]. *)
Lemma record_lengths_first_write (arrlen : Z) (varlen0 : num) (p : parser) :
  (1 < var_ndim var -> other_lengths ds var r <> []) ->
  (var_ndim var <= 1 -> other_lengths ds var r = []) ->
  record_lengths ds var shape (Some r) arrlen varlen0 p =
    if arrlen mod inferred_reclen ds var r =? 0 then
      (Ok (PyInt arrlen, PyInt (inferred_reclen ds var r)),
       with_log DEBUG (RecordLength (PyInt (inferred_reclen ds var r)))
         (with_log DEBUG (ExpectedLength (PyInt arrlen)) p))
    else
      (Raise (CDLContentError (RecordLengthNotFactor (PyInt (inferred_reclen ds var r)) (PyInt arrlen))),
       with_log DEBUG (ExpectedLength (PyInt arrlen)) p).
Proof.
  intros Hmany Hone.
  pose proof inferred_reclen_positive as Hpos.
  unfold record_lengths. rewrite bool_decide_eq_true_2 by exact Hrec.
  rewrite Hdim.
  replace (dim_len d >? 0) with false by (symmetry; rewrite Z.gtb_ltb; apply Z.ltb_ge; lia).
  assert (Hreclen :
    (if var_ndim var >? 1
     then lift (reduce_mul (filter (fun x => 0 < x) shape))
     else ret 1) = ret (inferred_reclen ds var r)).
  { rewrite (positive_shape_entries ds var shape r d Hshape Hdim Hzero Hpositive).
    destruct (var_ndim var >? 1) eqn:Hnd.
    - rewrite Z.gtb_ltb in Hnd. apply Z.ltb_lt in Hnd.
      rewrite reduce_mul_product by (apply Hmany; exact Hnd). reflexivity.
    - rewrite Z.gtb_ltb in Hnd. apply Z.ltb_ge in Hnd.
      unfold inferred_reclen. rewrite (Hone Hnd). reflexivity. }
  unfold bind at 1. unfold bind at 1. rewrite Hreclen.
  unfold ret at 1. unfold bind at 1. unfold log, modify, ret, bind, lift. simpl.
  replace (inferred_reclen ds var r =? 0) with false by (symmetry; apply Z.eqb_neq; lia).
  rewrite num_truthy_int.
  destruct (arrlen mod inferred_reclen ds var r =? 0); reflexivity.
Qed.

End FirstRecords.

(** X22: first data written to a numeric record variable: the number of literals
    is taken as the variable's length, the product of the other dimensions'
    lengths as the record length, and the array handed to the store has
    [len(arr) / reclen] as its leading extent. *)
Lemma write_var_data_first_records {sink : Sink} (p : parser) (ds : dataset)
    (varname : string) (var : variable) (shape : list Z) (r : string)
    (d : dimension) (arr : list value) :
  ncdataset p = Some ds ->
  variables ds !! varname = Some var ->
  var_shape ds var = Some shape ->
  var_dtype var <> NC_CHAR ->
  rec_dimname p = Some r ->
  r ∈ var_dimensions var ->
  dimensions ds !! r = Some d ->
  dim_len d <= 0 ->
  (forall n dim, n ∈ var_dimensions var -> n <> r ->
                 dimensions ds !! n = Some dim -> 0 < dim_len dim) ->
  (1 < var_ndim var -> other_lengths ds var r <> []) ->
  (var_ndim var <= 1 -> other_lengths ds var r = []) ->
  let arrlen := Z.of_nat (List.length arr) in
  let reclen := inferred_reclen ds var r in
  fst (write_var_data varname arr p) =
    if arrlen mod reclen =? 0 then
      match nc_setitem ds varname
              (mkArray (var_dtype var)
                 (PyFloat (Qred (inject_Z arrlen / inject_Z reclen)) :: (PyInt <$> tail shape))
                 arr) with
      | Some _ => Ok arr
      | None => Raise (CDLContentError (WriteFailed varname))
      end
    else Raise (CDLContentError (RecordLengthNotFactor (PyInt reclen) (PyInt arrlen))).
Proof.
  intros Hds Hvar Hshape Hnum Hname Hrec Hdim Hzero Hpositive Hmany Hone arrlen reclen.
  pose proof (inferred_reclen_positive ds var shape r d Hshape Hdim Hzero Hpositive) as Hpos.
  assert (Hnd : (var_ndim var =? 0) = false).
  { unfold var_ndim. destruct (var_dimensions var) as [|x l].
    - apply elem_of_nil in Hrec. contradiction.
    - reflexivity. }
  assert (Hk : String.eqb (dtype_kind (var_dtype var)) "S" = false)
    by (destruct (var_dtype var); try reflexivity; congruence).
  unfold write_var_data.
  unfold bind at 1. unfold the_dataset. rewrite Hds, Hvar, Hshape.
  unfold bind at 1. unfold log at 1, modify at 1.
  unfold bind at 1. unfold gets at 1. cbn [rec_dimname with_log]. rewrite Hname, Hnd, Hk.
  cbn [andb]. unfold bind at 1. unfold ret at 1.
  unfold bind at 1. unfold log at 1, modify at 1.
  unfold bind at 1.
  set (p1 := with_log DEBUG (ArrayLength (Z.of_nat (List.length arr)))
               (with_log DEBUG (ScanningData varname) p)).
  assert (Hexp : exists p2,
    (if num_truthy (PyInt (shape_size shape))
     then log DEBUG (ExpectedLength (PyInt (shape_size shape)))
     else ret ()) p1 = (Ok tt, p2))
    by (destruct (num_truthy _); eexists; reflexivity).
  destruct Hexp as [p2 ->].
  unfold bind at 1.
  rewrite (record_lengths_first_write ds var shape r d Hshape Hrec Hdim Hzero Hpositive
             (Z.of_nat (List.length arr)) (PyInt (shape_size shape)) p2 Hmany Hone).
  fold arrlen. fold reclen.
  destruct (arrlen mod reclen =? 0); [|reflexivity].
  rewrite num_lt_int, Z.ltb_irrefl.
  unfold bind at 1. unfold ret at 1.
  unfold bind at 1. unfold try_except, bind, lift, put_numeric_data, target_shape.
  rewrite num_truthy_int.
  replace (reclen =? 0) with false by (symmetry; apply Z.eqb_neq; subst reclen; lia).
  cbn [negb].
  assert (Hsh : exists s0 rest, shape = s0 :: rest).
  { unfold var_shape in Hshape. apply length_mapM in Hshape.
    destruct shape as [|s0 rest]; [|eauto].
    unfold var_ndim in Hnd. destruct (var_dimensions var); [|discriminate Hshape].
    discriminate Hnd. }
  destruct Hsh as (s0 & rest & ->).
  unfold num_truediv. simpl num_Q.
  assert (Hq : Qeq_bool (inject_Z reclen) 0 = false).
  { unfold Qeq_bool. simpl. rewrite Z.mul_1_r. apply Z.eqb_neq. subst reclen. lia. }
  rewrite Hq. simpl.
  destruct (nc_setitem _ _ _); reflexivity.
Qed.

Example twelve_literals_three_records :
  let out := @write_var_data accepting_sink "v" twelve records_parser in
  inferred_reclen records_dataset (mkVariable NC_INT ["time"; "x"] ∅) "time" = 4 /\
  fst out = Ok twelve /\
  In (DEBUG, RecordLength (PyInt 4)) (logged (snd out)) /\
  (contents <$> ncdataset (snd out)) =
    Some [("v", StoredArray (mkArray NC_INT [PyFloat 3; PyInt 4] twelve))] /\
  ((fun ds => dim_len <$> dimensions ds !! "time") <$> ncdataset (snd out)) = Some (Some 3).
Proof. vm_compute. repeat split; try reflexivity. tauto. Qed.

(** * Further properties *)

(** ** Integer literals *)

(** X1: each integer rule accepts exactly the payloads inside its range and
    returns the payload unchanged; outside the range the short and byte
    rules raise [CDLContentError] and the int rule raises [NameError]. *)
Theorem integer_rules_check_their_range (r : numeric_rule) (text : string) (n : Z) :
  is_integer_rule r = true ->
  integer_payload r text = Some n ->
  token_action r text =
    if (fst (integer_range r) <=? n) && (n <=? snd (integer_range r))
    then Ok (integer_value r n)
    else Raise (range_error r n).
Proof.
  intros Hr Hp.
  assert (Hcmp : forall lo hi,
            ((n <? lo) || (n >? hi)) = negb ((lo <=? n) && (n <=? hi))).
  { intros lo hi. rewrite Z.gtb_ltb, negb_andb, !Z.leb_antisym, !negb_involutive.
    reflexivity. }
  destruct r; try discriminate Hr; simpl in *.
  - unfold t_SHORT_CONST. rewrite Hp, Hcmp.
    destruct ((-32768 <=? n) && (n <=? 32767)); reflexivity.
  - unfold t_BYTE_CONST. destruct (first_char text) as [c|]; [|discriminate Hp].
    destruct (Regex.only Regex.quote c); rewrite Hp, Hcmp;
      destruct ((-128 <=? n) && (n <=? 127)); reflexivity.
  - unfold t_INT_CONST. rewrite Hp, Hcmp.
    destruct ((XDR_INT_MIN <=? n) && (n <=? XDR_INT_MAX)); reflexivity.
Qed.

Lemma integer_rules_check_their_range_witness :
  token_action SHORT_CONST "-0x8000s" =
    if (fst (integer_range SHORT_CONST) <=? -32768)
       && (-32768 <=? snd (integer_range SHORT_CONST))
    then Ok (integer_value SHORT_CONST (-32768))
    else Raise (range_error SHORT_CONST (-32768)).
Proof.
  apply (integer_rules_check_their_range SHORT_CONST "-0x8000s" (-32768)).
  - reflexivity.
  - reflexivity.
Defined.

Lemma digit_not_prefix (c : ascii) :
  Regex.digit c = true ->
  Regex.either "x" "X" c = false /\ Regex.either "o" "O" c = false /\
  Regex.either "b" "B" c = false /\ Regex.only "-" c = false /\ Regex.only "+" c = false.
Proof.
  destruct c as [[] [] [] [] [] [] [] []]; vm_compute; intros H;
    first [discriminate H | repeat split; reflexivity].
Qed.

(** X2: a decimal literal written with a leading zero and a non-zero digit
    after it (the octal notation of CDL) is rejected by the int and short
    rules with "Bad ... constant". *)
Theorem leading_zero_literal_rejected (rest : string) :
  forallb Regex.digit (list_ascii_of_string rest) = true ->
  forallb (Regex.only "0"%char) (list_ascii_of_string rest) = false ->
  t_INT_CONST (String "0" rest)
    = Raise (CDLContentError (BadIntegerConstant (String "0" rest))) /\
  t_SHORT_CONST (String "0" rest ++ "s")
    = Raise (CDLContentError (BadShortConstant (String "0" rest ++ "s"))).
Proof.
  intros Hdig Hnz.
  assert (Heval : Py.eval_int (String "0" rest) = None).
  { unfold Py.eval_int. simpl list_ascii_of_string.
    change (Py.split_sign ("0"%char :: list_ascii_of_string rest))
      with (1, "0"%char :: list_ascii_of_string rest).
    destruct (list_ascii_of_string rest) as [|p digits]; [discriminate Hnz|].
    simpl in Hdig. apply andb_true_iff in Hdig as [Hp _].
    destruct (digit_not_prefix p Hp) as (Hx & Ho & Hb & _).
    change (Regex.only "0" "0") with true. cbv iota.
    rewrite Hx, Ho, Hb, Hnz. reflexivity. }
  split.
  - unfold t_INT_CONST. rewrite Heval. reflexivity.
  - unfold t_SHORT_CONST.
    assert (Hdrop : forall s, drop_last (s ++ "s") = s).
    { induction s as [|c s IH]; [reflexivity|].
      simpl. rewrite IH. destruct s; reflexivity. }
    rewrite Hdrop, Heval. reflexivity.
Qed.

Lemma leading_zero_literal_rejected_witness :
  t_INT_CONST (String "0" "17")
    = Raise (CDLContentError (BadIntegerConstant (String "0" "17"))) /\
  t_SHORT_CONST (String "0" "17" ++ "s")
    = Raise (CDLContentError (BadShortConstant (String "0" "17" ++ "s"))).
Proof.
  apply (leading_zero_literal_rejected "17"); reflexivity.
Defined.

(** X3: every failure of a numeric token action is either an undecodable
    payload ("Bad ... constant") or a decodable payload outside the range
    of the short, byte or int type. *)
Theorem numeric_token_failure_paths (r : numeric_rule) (text : string) (e : exn) :
  token_action r text = Raise e ->
  (decodable r text = false /\ e = CDLContentError (bad_constant r text)) \/
  (decodable r text = true /\ is_integer_rule r = true /\
   exists n, integer_payload r text = Some n /\ e = range_error r n).
Proof.
  intros Hr. destruct (decodable r text) eqn:Hd.
  - right. split; [reflexivity|].
    destruct r; simpl in Hr, Hd |- *.
    + unfold t_FLOAT_CONST in Hr.
      destruct (Py.float_of_str _); [discriminate Hr | discriminate Hd].
    + unfold t_DOUBLE_CONST in Hr.
      destruct (last_char text) as [c|]; [|discriminate Hd].
      destruct (Regex.either "d" "D" c);
        destruct (Py.float_of_str _); first [discriminate Hr | discriminate Hd].
    + unfold t_SHORT_CONST in Hr.
      destruct (Py.eval_int _) as [n|]; [|discriminate Hd].
      destruct ((n <? -32768) || (n >? 32767)); [|discriminate Hr].
      split; [reflexivity|]. exists n. split; [reflexivity | congruence].
    + unfold t_BYTE_CONST in Hr.
      destruct (first_char text) as [c|]; [|discriminate Hd].
      destruct (Regex.only Regex.quote c).
      * destruct (Py.ord_eval_char text) as [n|]; [|discriminate Hd].
        destruct ((n <? -128) || (n >? 127)); [|discriminate Hr].
        split; [reflexivity|]. exists n. split; [reflexivity | congruence].
      * destruct (Py.int_of_str _) as [n|]; [|discriminate Hd].
        destruct ((n <? -128) || (n >? 127)); [|discriminate Hr].
        split; [reflexivity|]. exists n. split; [reflexivity | congruence].
    + unfold t_INT_CONST in Hr.
      destruct (Py.eval_int text) as [n|]; [|discriminate Hd].
      destruct ((n <? XDR_INT_MIN) || (n >? XDR_INT_MAX)); [|discriminate Hr].
      split; [reflexivity|]. exists n. split; [reflexivity | congruence].
  - left. split; [reflexivity|].
    pose proof (undecodable_raises r text Hd). congruence.
Qed.

Lemma numeric_token_failure_paths_witness :
  (decodable BYTE_CONST "200b" = false /\
   CDLContentError (ByteOutOfRange 200) = CDLContentError (bad_constant BYTE_CONST "200b")) \/
  (decodable BYTE_CONST "200b" = true /\ is_integer_rule BYTE_CONST = true /\
   exists n, integer_payload BYTE_CONST "200b" = Some n /\
             CDLContentError (ByteOutOfRange 200) = range_error BYTE_CONST n).
Proof.
  apply (numeric_token_failure_paths BYTE_CONST "200b"). reflexivity.
Defined.

(** ** The dataset name *)

Lemma only_eqb (a c : ascii) : Regex.only a c = Ascii.eqb c a.
Proof.
  destruct (Ascii.eqb_spec c a) as [->|Hne].
  - unfold Regex.only. apply N.eqb_refl.
  - destruct (Regex.only a c) eqn:Ho; [|reflexivity].
    exfalso. apply Hne. now apply only_true.
Qed.

Lemma list_ascii_of_string_app (a b : string) :
  list_ascii_of_string (a ++ b) = (list_ascii_of_string a ++ list_ascii_of_string b)%list.
Proof. induction a as [|c a IH]; [reflexivity|]. simpl. rewrite IH. reflexivity. Qed.

Lemma contains_app (c : ascii) (a b : string) :
  contains c (a ++ b) = contains c a || contains c b.
Proof.
  induction a as [|x a IH]; [reflexivity|].
  simpl. rewrite IH. apply orb_assoc.
Qed.

Lemma double_backslashes_plain (s : string) :
  contains Regex.backslash s = false -> double_backslashes s = s.
Proof.
  induction s as [|c s IH]; intros Hc; [reflexivity|].
  simpl in *. apply orb_false_iff in Hc as [Hc Hs].
  rewrite only_eqb, Hc, (IH Hs). reflexivity.
Qed.

Lemma contains_double_backslashes (s : string) :
  contains Regex.backslash (double_backslashes s) = contains Regex.backslash s.
Proof.
  induction s as [|c s IH]; [reflexivity|].
  simpl. rewrite only_eqb. destruct (Ascii.eqb c Regex.backslash) eqn:Hc; simpl.
  - rewrite Hc. reflexivity.
  - rewrite Hc, IH. reflexivity.
Qed.

Lemma deescapify_from_double (s : string) :
  deescapify_from (list_ascii_of_string (double_backslashes s))
    = Ok (list_ascii_of_string s).
Proof.
  induction s as [|c s IH]; [reflexivity|].
  simpl. destruct (Regex.only Regex.backslash c) eqn:Hc.
  - apply only_true in Hc as Heq. subst c. simpl.
    change (Regex.only Regex.backslash Regex.backslash) with true. cbv iota.
    rewrite IH. reflexivity.
  - simpl. rewrite Hc, IH. reflexivity.
Qed.

(** X4: round trip: a name in which every backslash has been doubled is
    de-escaped to the original name. *)
Theorem deescapify_undoes_doubling (s : string) :
  deescapify (double_backslashes s) = Ok s.
Proof.
  unfold deescapify. rewrite contains_double_backslashes.
  destruct (contains Regex.backslash s) eqn:Hc; simpl.
  - rewrite deescapify_from_double, string_of_list_ascii_of_string. reflexivity.
  - rewrite double_backslashes_plain by exact Hc. reflexivity.
Qed.

Lemma deescapify_from_dangling (b : string) :
  deescapify_from (list_ascii_of_string (double_backslashes b) ++ [Regex.backslash])
    = Raise IndexError.
Proof.
  induction b as [|c b IH]; [reflexivity|].
  simpl. destruct (Regex.only Regex.backslash c) eqn:Hc.
  - apply only_true in Hc as Heq. subst c. simpl.
    change (Regex.only Regex.backslash Regex.backslash) with true. cbv iota.
    rewrite IH. reflexivity.
  - simpl. rewrite Hc, IH. reflexivity.
Qed.

(** X5: a name that ends in a backslash with nothing after it (the part before
    it being any properly doubled text) makes [deescapify] read past the
    end: it raises [IndexError], not a CDL error. *)
Theorem deescapify_dangling_backslash (b : string) :
  deescapify (double_backslashes b ++ String Regex.backslash "") = Raise IndexError.
Proof.
  unfold deescapify. rewrite contains_app.
  replace (contains Regex.backslash (String Regex.backslash "")) with true by reflexivity.
  rewrite orb_true_r. cbv [negb].
  rewrite list_ascii_of_string_app.
  change (list_ascii_of_string (String Regex.backslash "")) with [Regex.backslash].
  rewrite deescapify_from_dangling. reflexivity.
Qed.

Lemma deescapify_from_length (n : nat) :
  forall l out,
    (List.length l <= n)%nat ->
    deescapify_from l = Ok out ->
    (List.length out <= List.length l)%nat /\
    (existsb (Regex.only Regex.backslash) l = true ->
     (List.length out < List.length l)%nat).
Proof.
  induction n as [|n IH]; intros l out Hn Hrun.
  - destruct l; [|simpl in Hn; lia]. injection Hrun as <-.
    split; [reflexivity | discriminate].
  - destruct l as [|c rest]; [injection Hrun as <-; split; [reflexivity | discriminate]|].
    simpl in Hn, Hrun. simpl existsb.
    destruct (Regex.only Regex.backslash c) eqn:Hc.
    + destruct rest as [|c2 rest']; [discriminate Hrun|].
      destruct (Regex.only Regex.backslash c2) eqn:Hc2.
      * destruct (deescapify_from rest') as [o|e] eqn:Hrec; [|discriminate Hrun].
        injection Hrun as <-.
        destruct (IH rest' o) as [Hle _]; [simpl in Hn; lia | exact Hrec |].
        simpl. split; [lia | intros _; lia].
      * destruct (IH (c2 :: rest') out) as [Hle _]; [simpl in *; lia | exact Hrun |].
        simpl in *. split; [lia | intros _; lia].
    + destruct (deescapify_from rest) as [o|e] eqn:Hrec; [|discriminate Hrun].
      injection Hrun as <-.
      destruct (IH rest o) as [Hle Hlt]; [lia | exact Hrec |].
      simpl. split; [lia | intros Hb; specialize (Hlt Hb); lia].
Qed.

Lemma length_list_ascii (s : string) :
  List.length (list_ascii_of_string s) = String.length s.
Proof. induction s as [|c s IH]; [reflexivity|]. simpl. rewrite IH. reflexivity. Qed.

Lemma length_string_of_list (l : list ascii) :
  String.length (string_of_list_ascii l) = List.length l.
Proof. induction l as [|c l IH]; [reflexivity|]. simpl. rewrite IH. reflexivity. Qed.

Lemma contains_existsb (c : ascii) (s : string) :
  contains c s = existsb (Regex.only c) (list_ascii_of_string s).
Proof.
  induction s as [|x s IH]; [reflexivity|].
  simpl. rewrite only_eqb, IH. reflexivity.
Qed.

(** X6: de-escaping never lengthens a name: a name without a backslash is
    returned as it is, and any other name that is accepted comes back
    strictly shorter. *)
Theorem deescapify_shortens (name out : string) :
  deescapify name = Ok out ->
  if contains Regex.backslash name
  then (String.length out < String.length name)%nat
  else out = name.
Proof.
  unfold deescapify. intros Hrun.
  destruct (contains Regex.backslash name) eqn:Hc; simpl in Hrun.
  - destruct (deescapify_from (list_ascii_of_string name)) as [o|e] eqn:Hrec;
      [|discriminate Hrun].
    injection Hrun as <-.
    destruct (deescapify_from_length _ _ o (le_n _) Hrec) as [_ Hlt].
    rewrite contains_existsb in Hc. specialize (Hlt Hc).
    rewrite length_string_of_list, <- length_list_ascii. exact Hlt.
  - injection Hrun as <-. reflexivity.
Qed.

Lemma deescapify_shortens_witness :
  if contains Regex.backslash (String "a" (String Regex.backslash "-b"))
  then (String.length "a-b" < String.length (String "a" (String Regex.backslash "-b")))%nat
  else "a-b" = String "a" (String Regex.backslash "-b").
Proof.
  apply (deescapify_shortens (String "a" (String Regex.backslash "-b")) "a-b").
  reflexivity.
Defined.

(** *** [t_NETCDF] *)

Lemma split_from_word (w : list ascii) :
  forall cur l,
    forallb (fun c => negb (is_space c)) w = true ->
    split_from cur (w ++ l) = split_from (rev w ++ cur) l.
Proof.
  induction w as [|c w IH]; intros cur l Hw; [reflexivity|].
  simpl in Hw. apply andb_true_iff in Hw as [Hc Hw].
  apply negb_true_iff in Hc.
  simpl. rewrite Hc, (IH (c :: cur) l Hw), <- app_assoc. reflexivity.
Qed.

Lemma split_from_spaces (sp : list ascii) (l : list ascii) :
  forallb is_space sp = true ->
  split_from [] (sp ++ l) = split_from [] l.
Proof.
  induction sp as [|c sp IH]; intros Hsp; [reflexivity|].
  simpl in Hsp. apply andb_true_iff in Hsp as [Hc Hsp].
  simpl. rewrite Hc. apply IH. exact Hsp.
Qed.

Lemma split_from_end_of_word (cur : list ascii) (c : ascii) (l : list ascii) :
  cur <> [] -> is_space c = true ->
  split_from cur (c :: l) = string_of_list_ascii (rev cur) :: split_from [] l.
Proof. intros Hcur Hc. simpl. rewrite Hc. destruct cur; [congruence | reflexivity]. Qed.

Lemma split_first_word (w : list ascii) (c : ascii) (l : list ascii) :
  w <> [] ->
  forallb (fun c => negb (is_space c)) w = true ->
  is_space c = true ->
  split_from [] (w ++ c :: l) = string_of_list_ascii w :: split_from [] l.
Proof.
  intros Hne Hw Hc. rewrite (split_from_word w [] (c :: l) Hw), app_nil_r.
  rewrite split_from_end_of_word; [|intros Hr; apply Hne|exact Hc].
  - rewrite rev_involutive. reflexivity.
  - apply (f_equal (@rev ascii)) in Hr. rewrite rev_involutive in Hr. exact Hr.
Qed.

Lemma split_last_word (w : list ascii) :
  w <> [] ->
  forallb (fun c => negb (is_space c)) w = true ->
  split_from [] w = [string_of_list_ascii w].
Proof.
  intros Hne Hw. rewrite <- (app_nil_r w) at 1.
  rewrite (split_from_word w [] [] Hw), app_nil_r. simpl.
  destruct (rev w) eqn:Hr.
  - exfalso. apply Hne. apply (f_equal (@rev ascii)) in Hr.
    rewrite rev_involutive in Hr. exact Hr.
  - rewrite <- Hr, rev_involutive. reflexivity.
Qed.

Lemma nonempty_list (s : string) : s <> "" -> list_ascii_of_string s <> [].
Proof. destruct s; [congruence | discriminate]. Qed.

(** X7: the value of the opening token is the second whitespace-separated word
    of the lexeme, de-escaped: whatever follows that word before the brace
    is ignored. *)
Theorem t_NETCDF_takes_second_word (kw sep name tail : string) :
  kw <> "" -> no_space kw ->
  sep <> "" -> all_space sep ->
  name <> "" -> no_space name ->
  (tail = "" \/ exists c rest, tail = String c rest /\ is_space c = true) ->
  t_NETCDF (kw ++ sep ++ name ++ tail) = deescapify name.
Proof.
  intros Hkw Hkws Hsep Hseps Hname Hnames Htail.
  unfold t_NETCDF, split_whitespace.
  rewrite !list_ascii_of_string_app.
  destruct (list_ascii_of_string sep) as [|s1 sp] eqn:Hsp;
    [exfalso; revert Hsp; now apply nonempty_list|].
  unfold all_space in Hseps. rewrite Hsp in Hseps. simpl in Hseps.
  apply andb_true_iff in Hseps as [Hs1 Hsps].
  rewrite <- app_comm_cons.
  rewrite split_first_word; [|now apply nonempty_list|exact Hkws|exact Hs1].
  rewrite split_from_spaces by exact Hsps.
  destruct Htail as [->|(c & rest & -> & Hc)].
  - simpl list_ascii_of_string at 2. rewrite app_nil_r.
    rewrite split_last_word; [|now apply nonempty_list|exact Hnames].
    rewrite string_of_list_ascii_of_string. reflexivity.
  - simpl list_ascii_of_string at 2.
    rewrite split_first_word; [|now apply nonempty_list|exact Hnames|exact Hc].
    rewrite string_of_list_ascii_of_string. reflexivity.
Qed.

Lemma t_NETCDF_takes_second_word_witness :
  t_NETCDF ("netcdf" ++ "  " ++ "my-data" ++ " extra ") = deescapify "my-data".
Proof.
  apply (t_NETCDF_takes_second_word "netcdf" "  " "my-data" " extra ").
  - discriminate.
  - reflexivity.
  - discriminate.
  - reflexivity.
  - discriminate.
  - reflexivity.
  - right. exists " "%char, "extra ". split; reflexivity.
Defined.

(** X8: a lexeme that has only whitespace after the keyword has no name: the
    rule raises [CDLSyntaxError]. *)
Theorem t_NETCDF_requires_a_name (kw sep : string) :
  no_space kw ->
  all_space sep ->
  t_NETCDF (kw ++ sep) = Raise (CDLSyntaxError NetcdfNameRequired).
Proof.
  intros Hkw Hsep. unfold t_NETCDF, split_whitespace.
  rewrite list_ascii_of_string_app.
  rewrite (split_from_word _ [] _ Hkw), app_nil_r.
  assert (Hend : forall cur sp, forallb is_space sp = true ->
            split_from cur sp = match cur with
                                | [] => []
                                | _ => [string_of_list_ascii (rev cur)]
                                end).
  { intros cur sp. revert cur. induction sp as [|c sp IH]; intros cur Hs; [reflexivity|].
    simpl in Hs. apply andb_true_iff in Hs as [Hc Hs].
    simpl. rewrite Hc. destruct cur; rewrite (IH [] Hs); reflexivity. }
  rewrite (Hend _ _ Hsep). destruct (rev (list_ascii_of_string kw)); reflexivity.
Qed.

Lemma t_NETCDF_requires_a_name_witness :
  Regex.matches netcdf_shape ("netcdf" ++ "   ") = true /\
  t_NETCDF ("netcdf" ++ "   ") = Raise (CDLSyntaxError NetcdfNameRequired).
Proof.
  split; [reflexivity|].
  apply (t_NETCDF_requires_a_name "netcdf" "   "); reflexivity.
Defined.

(** ** Identifiers and type keywords *)






(** X10: every type keyword the lexer produces has an entry in the numpy type
    map, and the two tables agree: [byte], [char], [short], [float] and
    [double] give their own type, [int], [integer] and [long] give the
    32-bit integer and [real] the 32-bit float, in any letter case. *)
Theorem type_keywords_have_a_numpy_type (s : string) :
  is_type_keyword (fst (t_IDENT s)) = true ->
  exists code,
    p_type (snd (t_IDENT s)) = Ok code /\
    dtype_of_code code = dtype_for (fst (t_IDENT s)).
Proof.
  unfold t_IDENT.
  destruct (String.eqb s FILL_STRING); [discriminate|].
  destruct (dict_get reserved_words (lower s)) as [ty|] eqn:Hget; [|discriminate].
  simpl. intros Hkw. unfold reserved_words in Hget. cbn [dict_get] in Hget.
  unfold p_type.
  repeat match type of Hget with
         | (if String.eqb ?k ?x then _ else _) = _ =>
             destruct (String.eqb_spec k x) as [Heq|_];
             [rewrite <- Heq; injection Hget as <-;
              first [discriminate Hkw | eexists; split; reflexivity] |]
         end.
  discriminate Hget.
Qed.

Lemma type_keywords_have_a_numpy_type_witness :
  exists code,
    p_type (snd (t_IDENT "Integer")) = Ok code /\
    dtype_of_code code = dtype_for (fst (t_IDENT "Integer")).
Proof.
  apply (type_keywords_have_a_numpy_type "Integer"). reflexivity.
Defined.

(** ** Dimensions sections *)

Lemma name_truthy_Some (n : string) : n <> "" -> name_truthy (Some n) = true.
Proof. intros Hn. simpl. rewrite (eqb_nonempty n Hn). reflexivity. Qed.

Lemma wellformed_no_unlimited (p : parser) (ds : dataset) (n : string) (d : dimension) :
  dimensions_wellformed p ->
  ncdataset p = Some ds ->
  name_truthy (rec_dimname p) = false ->
  dimensions ds !! n = Some d ->
  dim_unlimited d = false /\ 0 < dim_len d.
Proof.
  intros Hwf Hds Hfalse Hd. specialize (Hwf ds n d Hds Hd).
  destruct (dim_unlimited d); [|split; [reflexivity | exact Hwf]].
  destruct Hwf as (Hrec & Hne & _). rewrite Hrec, (name_truthy_Some n Hne) in Hfalse.
  discriminate Hfalse.
Qed.

(** Where a declaration can leave the parser. *)
Lemma p_dimdecl_outcome (name : string) (p3 : scalar) (p : parser) (ds : dataset) :
  ncdataset p = Some ds ->
  snd (p_dimdecl name p3 p) = p \/
  (exists z, 0 < z /\ name <> "" /\
     snd (p_dimdecl name p3 p) =
       with_log INFO (CreatedDimension name z)
         (with_curr_dim name (with_dataset (createDimension name z ds) p))) \/
  (name_truthy (rec_dimname p) = false /\ name = "" /\
     snd (p_dimdecl name p3 p) = with_rec_dimname name p) \/
  (name_truthy (rec_dimname p) = false /\ name <> "" /\
     snd (p_dimdecl name p3 p) =
       with_log INFO (CreatedDimension name 0)
         (with_curr_dim name
            (with_dataset (createDimension name 0 ds) (with_rec_dimname name p)))).
Proof.
  intros Hds.
  assert (Hfixed :
    match p3 with
    | SStr _ => True
    | _ =>
        snd (p_dimdecl name p3 p) = p \/
        (exists z, 0 < z /\ name <> "" /\
           snd (p_dimdecl name p3 p) =
             with_log INFO (CreatedDimension name z)
               (with_curr_dim name (with_dataset (createDimension name z ds) p)))
    end).
  { unfold p_dimdecl, bind, lift.
    destruct p3 as [z0|z0|z0|x|x|s]; [..|exact I];
      (destruct (int_of_scalar _) as [z|e]; [|left; reflexivity]);
      (destruct (z <=? 0) eqn:Hle; [left; reflexivity|];
       apply Z.leb_gt in Hle; unfold ret;
       destruct (String.eqb_spec name "") as [->|Hne];
       [left; reflexivity|];
       right; exists z; split; [exact Hle|]; split; [exact Hne|];
       cbn [negb]; unfold the_dataset; rewrite Hds; reflexivity). }
  destruct p3 as [z|z|z|x|x|s];
    try (destruct Hfixed as [H|H]; [left; exact H | right; left; exact H]).
  clear Hfixed. unfold p_dimdecl, bind, gets.
  destruct (String.eqb s "unlimited"); [|left; reflexivity].
  destruct (name_truthy (rec_dimname p)) eqn:Htruthy; [left; reflexivity|].
  unfold modify, ret.
  destruct (String.eqb_spec name "") as [->|Hne].
  - right; right; left. repeat split; reflexivity.
  - right; right; right. split; [reflexivity|]. split; [exact Hne|].
    cbn [negb]. unfold the_dataset. cbn [ncdataset with_rec_dimname]. rewrite Hds.
    reflexivity.
Qed.

Lemma dimdecl_keeps_wellformed (name : string) (p3 : scalar) (p : parser) :
  dimensions_wellformed p ->
  dimensions_wellformed (snd (dimdecl name p3 p)).
Proof.
  intros Hwf. unfold dimdecl, p_dimd, bind, the_dataset.
  destruct (ncdataset p) as [ds|] eqn:Hds; [|exact Hwf].
  destruct (decide (is_Some (dimensions ds !! name))) as [_|Hfresh]; [exact Hwf|].
  unfold ret.
  destruct (p_dimdecl_outcome name p3 p ds Hds)
    as [->|[(z & Hz & Hne & ->)|[(Ht & -> & ->)|(Ht & Hne & ->)]]].
  - exact Hwf.
  - intros ds' n d Hds' Hd. injection Hds' as <-. simpl in Hd.
    replace (z =? 0) with false in Hd by (symmetry; apply Z.eqb_neq; lia).
    destruct (decide (name = n)) as [->|Hn].
    + rewrite lookup_insert_eq in Hd. injection Hd as <-. exact Hz.
    + rewrite lookup_insert_ne in Hd by exact Hn.
      exact (Hwf ds n d Hds Hd).
  - intros ds' n d Hds' Hd. simpl in Hds'. rewrite Hds in Hds'. injection Hds' as <-.
    destruct (wellformed_no_unlimited p ds n d Hwf Hds Ht Hd) as [-> Hpos].
    exact Hpos.
  - intros ds' n d Hds' Hd. injection Hds' as <-. simpl in Hd.
    destruct (decide (name = n)) as [->|Hn].
    + rewrite lookup_insert_eq in Hd. injection Hd as <-.
      split; [reflexivity|]. split; [exact Hne | reflexivity].
    + rewrite lookup_insert_ne in Hd by exact Hn.
      destruct (wellformed_no_unlimited p ds n d Hwf Hds Ht Hd) as [-> Hpos].
      exact Hpos.
Qed.

Lemma dimension_section_keeps_wellformed (decls : list (string * scalar)) :
  forall p, dimensions_wellformed p ->
            dimensions_wellformed (snd (dimension_section decls p)).
Proof.
  induction decls as [|[name p3] rest IH]; intros p Hwf; [exact Hwf|].
  simpl. unfold bind.
  pose proof (dimdecl_keeps_wellformed name p3 p Hwf) as Hstep.
  destruct (dimdecl name p3 p) as [[u|e] p1]; simpl in *.
  - apply IH. exact Hstep.
  - exact Hstep.
Qed.

Lemma fresh_parser_wellformed : dimensions_wellformed fresh_parser.
Proof.
  intros ds n d Hds Hd. injection Hds as <-.
  change (dimensions empty_dataset) with (∅ : gmap string dimension) in Hd.
  rewrite lookup_empty in Hd. discriminate.
Qed.

(** X11: whatever declarations a dimensions section holds, and whether it ends
    normally or in an error, the dataset then has at most one unlimited
    dimension, that dimension has length 0, and every other dimension has a
    positive length. *)
Theorem dimension_section_invariants (decls : list (string * scalar)) (p : parser)
    (ds : dataset) :
  dimensions_wellformed p ->
  ncdataset (snd (dimension_section decls p)) = Some ds ->
  (forall n1 n2 d1 d2,
     dimensions ds !! n1 = Some d1 -> dim_unlimited d1 = true ->
     dimensions ds !! n2 = Some d2 -> dim_unlimited d2 = true ->
     n1 = n2) /\
  (forall n d, dimensions ds !! n = Some d ->
               if dim_unlimited d then dim_len d = 0 else 0 < dim_len d).
Proof.
  intros Hwf Hds.
  pose proof (dimension_section_keeps_wellformed decls p Hwf) as Hfinal.
  split.
  - intros n1 n2 d1 d2 H1 U1 H2 U2.
    pose proof (Hfinal ds n1 d1 Hds H1) as W1. rewrite U1 in W1.
    pose proof (Hfinal ds n2 d2 Hds H2) as W2. rewrite U2 in W2.
    destruct W1 as [R1 _], W2 as [R2 _]. congruence.
  - intros n d Hd. pose proof (Hfinal ds n d Hds Hd) as W.
    destruct (dim_unlimited d); [tauto | exact W].
Qed.

Lemma dimension_section_invariants_witness :
  let ds := createDimension "y" 2 (createDimension "x" 4
              (createDimension "time" 0 empty_dataset)) in
  (forall n1 n2 d1 d2,
     dimensions ds !! n1 = Some d1 -> dim_unlimited d1 = true ->
     dimensions ds !! n2 = Some d2 -> dim_unlimited d2 = true ->
     n1 = n2) /\
  (forall n d, dimensions ds !! n = Some d ->
               if dim_unlimited d then dim_len d = 0 else 0 < dim_len d).
Proof.
  apply (dimension_section_invariants sample_dimensions fresh_parser).
  - exact fresh_parser_wellformed.
  - vm_compute. reflexivity.
Defined.

(** ** Fill values in data *)

Lemma pad_array_int_outcome (var : variable) (n : Z) (arr : list value) :
  has_fill var ->
  exists padded,
    pad_array var (PyInt n) arr = Ok padded /\
    Z.of_nat (List.length padded) = Z.max (Z.of_nat (List.length arr)) n /\
    take (List.length arr) padded = arr /\
    Forall (fun v => v = effective_fill var) (drop (List.length arr) padded).
Proof.
  intros Hfill. eexists. split; [apply pad_array_int; exact Hfill|]. repeat split.
  - rewrite length_app, length_replicate. lia.
  - rewrite take_app_length. reflexivity.
  - rewrite drop_app_length. apply Forall_replicate. reflexivity.
Qed.

(** X12: [pad_array] with an integer target length.  For a character
    variable that has neither [_FillValue] nor [missing_value] it raises
    [CDLContentError]: the type character ['c'] has no default.  In every
    other case it succeeds: the list keeps its elements, ends up
    [max(len(arr), varlen)] long (a target below the current length adds
    nothing), and every added element is [_FillValue] if the variable has
    it, else [missing_value], else the default of the variable's type. *)
Theorem pad_array_extends_with_fill (var : variable) (n : Z) (arr : list value) :
  match var_dtype var, var_attrs var !! "_FillValue", var_attrs var !! "missing_value" with
  | NC_CHAR, None, None =>
      pad_array var (PyInt n) arr = Raise (CDLContentError (UnrecognisedDataType "c"))
  | _, _, _ =>
      exists padded,
        pad_array var (PyInt n) arr = Ok padded /\
        Z.of_nat (List.length padded) = Z.max (Z.of_nat (List.length arr)) n /\
        take (List.length arr) padded = arr /\
        Forall (fun v => v = effective_fill var) (drop (List.length arr) padded)
  end.
Proof.
  destruct (var_dtype var) eqn:Hdt;
    destruct (var_attrs var !! "_FillValue") eqn:Hfv;
    destruct (var_attrs var !! "missing_value") eqn:Hmv;
    try (apply pad_array_int_outcome; unfold has_fill; rewrite ?Hdt, ?Hfv, ?Hmv;
         solve [left; discriminate | right; left; eauto | right; right; eauto]).
  apply pad_array_char_no_fill; assumption.
Qed.

Lemma p_const_for_numeric_variable_aux (p : parser) (var : variable) (t : scalar) :
  current_variable p = Some var ->
  var_dtype var <> NC_CHAR ->
  p_const t p = (Ok (resolved var t), p).
Proof.
  intros Hcv Hnum. unfold resolved.
  destruct (is_fill_string t) eqn:Hfill.
  - apply p_const_placeholder_numeric; assumption.
  - apply p_const_literal. exact Hfill.
Qed.

(** X13: while a numeric variable is current, a constant is passed on as it is,
    except the placeholder [_], which becomes the variable's [_FillValue]
    attribute if it has one and the default of its type otherwise; the
    parser is left untouched and nothing is logged. *)
Theorem p_const_for_numeric_variable (p : parser) (var : variable) (t : scalar) :
  current_variable p = Some var ->
  var_dtype var <> NC_CHAR ->
  p_const t p = (Ok (resolved var t), p).
Proof.
  intros Hcv Hnum. unfold resolved.
  destruct (is_fill_string t) eqn:Hfill.
  - apply p_const_placeholder_numeric; assumption.
  - apply p_const_literal. exact Hfill.
Qed.

Lemma p_const_for_numeric_variable_witness :
  p_const (SStr "_") missing_only_parser
    = (Ok (resolved missing_only (SStr "_")), missing_only_parser).
Proof.
  apply (p_const_for_numeric_variable missing_only_parser missing_only (SStr "_")).
  - reflexivity.
  - discriminate.
Defined.

Lemma p_constlist_numeric (p : parser) (var : variable) (tokens : list scalar) :
  current_variable p = Some var ->
  var_dtype var <> NC_CHAR ->
  p_constlist tokens p = (Ok (resolved var <$> tokens), p).
Proof.
  intros Hcv Hnum. induction tokens as [|t ts IH]; [reflexivity|].
  simpl. unfold bind. rewrite (p_const_for_numeric_variable_aux p var t Hcv Hnum), IH.
  reflexivity.
Qed.

(** ** Statements *)

Lemma p_avar_declared (varname : string) (p : parser) (ds : dataset) (var : variable) :
  ncdataset p = Some ds ->
  variables ds !! varname = Some var ->
  p_avar varname p =
    (Ok varname, with_log DEBUG (CurrentVariable varname) (with_curr_var varname p)).
Proof.
  intros Hds Hvar. unfold p_avar, bind, gets. rewrite Hds.
  destruct (decide (is_Some (variables ds !! varname))) as [_|Hno];
    [reflexivity | exfalso; apply Hno; eauto].
Qed.

Lemma p_avar_undeclared (varname : string) (p : parser) (ds : dataset) :
  ncdataset p = Some ds ->
  variables ds !! varname = None ->
  p_avar varname p = (Raise (CDLContentError (UndefinedVariable varname)), p).
Proof.
  intros Hds Hvar. unfold p_avar, bind, gets. rewrite Hds.
  destruct (decide (is_Some (variables ds !! varname))) as [[v Hv]|_];
    [congruence | reflexivity].
Qed.

(** X14: a data statement or an attribute statement that names a variable which
    has not been declared raises [CDLContentError] naming it when the
    reference is read, before any constant is looked at, and leaves the
    parser as it was. *)
Theorem statement_on_undeclared_variable {sink : Sink} (p : parser) (ds : dataset)
    (varname attr : string) (tokens vals : list scalar) :
  ncdataset p = Some ds ->
  variables ds !! varname = None ->
  data_statement varname tokens p
    = (Raise (CDLContentError (UndefinedVariable varname)), p) /\
  attribute_statement varname attr vals p
    = (Raise (CDLContentError (UndefinedVariable varname)), p).
Proof.
  intros Hds Hvar. unfold data_statement, attribute_statement, bind.
  rewrite (p_avar_undeclared varname p ds Hds Hvar). split; reflexivity.
Qed.

Lemma statement_on_undeclared_variable_witness :
  @data_statement accepting_sink "w" [SInt32 1; SStr "_"] one_variable_parser
    = (Raise (CDLContentError (UndefinedVariable "w")), one_variable_parser) /\
  @attribute_statement accepting_sink "w" "units" [SStr "m"] one_variable_parser
    = (Raise (CDLContentError (UndefinedVariable "w")), one_variable_parser).
Proof.
  apply (@statement_on_undeclared_variable accepting_sink one_variable_parser one_variable).
  - reflexivity.
  - vm_compute. reflexivity.
Defined.

Lemma current_variable_after_avar (varname : string) (p : parser) (ds : dataset)
    (var : variable) :
  ncdataset p = Some ds ->
  variables ds !! varname = Some var ->
  current_variable (with_log DEBUG (CurrentVariable varname) (with_curr_var varname p))
    = Some var.
Proof. intros Hds Hvar. unfold current_variable. simpl. rewrite Hds. exact Hvar. Qed.

(** X15: in a data statement for a numeric variable the constants reach
    [write_var_data] in source order with every placeholder [_] already
    replaced by the fill value of the variable the statement names, whatever
    variable was current before. *)
Theorem data_statement_resolves_placeholders {sink : Sink} (p : parser) (ds : dataset)
    (varname : string) (var : variable) (tokens : list scalar) :
  ncdataset p = Some ds ->
  variables ds !! varname = Some var ->
  var_dtype var <> NC_CHAR ->
  data_statement varname tokens p =
    p_datadecl varname (resolved var <$> tokens)
      (with_log DEBUG (CurrentVariable varname) (with_curr_var varname p)).
Proof.
  intros Hds Hvar Hnum. unfold data_statement. unfold bind at 1.
  rewrite (p_avar_declared varname p ds var Hds Hvar).
  unfold bind at 1.
  rewrite (p_constlist_numeric _ var tokens
             (current_variable_after_avar varname p ds var Hds Hvar) Hnum).
  reflexivity.
Qed.

Lemma data_statement_resolves_placeholders_witness :
  @data_statement accepting_sink "v" [SInt32 5; SStr "_"] one_variable_parser =
    @p_datadecl accepting_sink "v"
      (resolved (mkVariable NC_INT ["d"] ∅) <$> [SInt32 5; SStr "_"])
      (with_log DEBUG (CurrentVariable "v") (with_curr_var "v" one_variable_parser)).
Proof.
  apply (@data_statement_resolves_placeholders accepting_sink one_variable_parser
           one_variable "v" (mkVariable NC_INT ["d"] ∅)).
  - reflexivity.
  - vm_compute. reflexivity.
  - discriminate.
Defined.

(** ** Data layout of variables of fixed shape *)

Lemma not_record_lengths (ds : dataset) (var : variable) (shape : list Z)
    (p p' : parser) (arrlen : Z) (varlen : num) :
  is_record_variable p var = false ->
  rec_dimname p' = rec_dimname p ->
  record_lengths ds var shape (rec_dimname p') arrlen varlen p'
    = (Ok (varlen, PyInt 0), p').
Proof.
  intros Hrec ->. unfold is_record_variable in Hrec. unfold record_lengths.
  destruct (rec_dimname p) as [r|]; [|reflexivity].
  rewrite Hrec. reflexivity.
Qed.

Lemma shape_nonempty (ds : dataset) (var : variable) (shape : list Z) :
  var_shape ds var = Some shape ->
  var_dimensions var <> [] ->
  (var_ndim var =? 0) = false /\ (var_ndim var >? 0) = true /\ shape <> [].
Proof.
  intros Hshape Hdims. unfold var_shape in Hshape. apply length_mapM in Hshape.
  unfold var_ndim. destruct (var_dimensions var) as [|d l]; [congruence|].
  destruct shape; [discriminate Hshape|].
  repeat split; try reflexivity. discriminate.
Qed.

Lemma numeric_kind (dt : dtype) :
  dt <> NC_CHAR -> String.eqb (dtype_kind dt) "S" = false.
Proof. destruct dt; try reflexivity; congruence. Qed.

Lemma write_var_data_fixed_numeric_run {sink : Sink} (p : parser) (ds : dataset)
    (varname : string) (var : variable) (shape : list Z) (arr : list value) :
  ncdataset p = Some ds ->
  variables ds !! varname = Some var ->
  var_shape ds var = Some shape ->
  var_dimensions var <> [] ->
  var_dtype var <> NC_CHAR ->
  is_record_variable p var = false ->
  exists before,
    ncdataset before = Some ds /\
    write_var_data varname arr p =
      match nc_setitem ds varname
              (mkArray (var_dtype var) (PyInt <$> shape)
                 (padded_to var (shape_size shape) arr)) with
      | Some ds' => (Ok (padded_to var (shape_size shape) arr), with_dataset ds' before)
      | None => (Raise (CDLContentError (WriteFailed varname)), before)
      end.
Proof.
  intros Hds Hvar Hshape Hdims Hnum Hrec.
  destruct (shape_nonempty ds var shape Hshape Hdims) as (Hnd & _ & _).
  unfold write_var_data.
  unfold bind at 1. unfold the_dataset. rewrite Hds, Hvar, Hshape.
  unfold bind at 1. unfold log at 1, modify at 1.
  unfold bind at 1. unfold gets at 1. rewrite Hnd, (numeric_kind _ Hnum).
  cbn [andb]. unfold bind at 1. unfold ret at 1.
  unfold bind at 1. unfold log at 1, modify at 1.
  unfold bind at 1.
  set (p1 := with_log DEBUG (ArrayLength (Z.of_nat (List.length arr)))
               (with_log DEBUG (ScanningData varname) p)).
  assert (Hexp : exists p2,
    (if num_truthy (PyInt (shape_size shape))
     then log DEBUG (ExpectedLength (PyInt (shape_size shape)))
     else ret ()) p1 = (Ok tt, p2) /\ rec_dimname p2 = rec_dimname p /\
     ncdataset p2 = Some ds)
    by (destruct (num_truthy _); eexists; repeat split; exact Hds).
  destruct Hexp as (p2 & -> & Hrec2 & Hds2).
  unfold bind at 1. cbn [rec_dimname with_log].
  rewrite <- Hrec2.
  rewrite (not_record_lengths ds var shape p p2 _ _ Hrec Hrec2).
  rewrite num_lt_int. unfold bind at 1.
  unfold padded_to.
  destruct (Z.of_nat (List.length arr) <? shape_size shape).
  - unfold bind at 1. unfold lift at 1. rewrite pad_array_int by (left; exact Hnum).
    unfold bind, log, modify, ret, try_except, lift, put_numeric_data, target_shape.
    rewrite num_truthy_int. simpl.
    destruct (nc_setitem _ _ _); eexists; (split; [|reflexivity]); exact Hds2.
  - unfold bind, log, modify, ret, try_except, lift, put_numeric_data, target_shape.
    rewrite num_truthy_int. simpl.
    destruct (nc_setitem _ _ _); eexists; (split; [|reflexivity]); exact Hds2.
Qed.

(** X16: for a numeric variable of fixed shape (not a record variable), a data
    statement hands the store the variable's own shape and the literals,
    padded with the effective fill value if there are fewer than the
    variable holds and passed on untruncated if there are more; the only
    error is the store refusing the array. *)
Theorem write_var_data_fixed_numeric {sink : Sink} (p : parser) (ds : dataset)
    (varname : string) (var : variable) (shape : list Z) (arr : list value) :
  ncdataset p = Some ds ->
  variables ds !! varname = Some var ->
  var_shape ds var = Some shape ->
  var_dimensions var <> [] ->
  var_dtype var <> NC_CHAR ->
  is_record_variable p var = false ->
  let data := padded_to var (shape_size shape) arr in
  let request := mkArray (var_dtype var) (PyInt <$> shape) data in
  fst (write_var_data varname arr p) =
    match nc_setitem ds varname request with
    | Some _ => Ok data
    | None => Raise (CDLContentError (WriteFailed varname))
    end /\
  ncdataset (snd (write_var_data varname arr p)) =
    Some (default ds (nc_setitem ds varname request)).
Proof.
  intros Hds Hvar Hshape Hdims Hnum Hrec data request.
  destruct (write_var_data_fixed_numeric_run p ds varname var shape arr
              Hds Hvar Hshape Hdims Hnum Hrec) as (before & Hbefore & ->).
  fold data. fold request.
  destruct (nc_setitem ds varname request); simpl; split;
    first [reflexivity | exact Hbefore].
Qed.

Lemma write_var_data_fixed_numeric_witness :
  let ds := one_variable in
  let var := mkVariable NC_INT ["d"] ∅ in
  let arr := [Scalar (SInt32 1); Scalar (SInt32 2); Scalar (SInt32 3)] in
  let data := padded_to var (shape_size [2]) arr in
  let request := mkArray (var_dtype var) (PyInt <$> [2]) data in
  fst (@write_var_data accepting_sink "v" arr one_variable_parser) =
    match @nc_setitem accepting_sink ds "v" request with
    | Some _ => Ok data
    | None => Raise (CDLContentError (WriteFailed "v"))
    end /\
  ncdataset (snd (@write_var_data accepting_sink "v" arr one_variable_parser)) =
    Some (default ds (@nc_setitem accepting_sink ds "v" request)).
Proof.
  apply (@write_var_data_fixed_numeric accepting_sink one_variable_parser one_variable
           "v" (mkVariable NC_INT ["d"] ∅) [2]).
  - reflexivity.
  - vm_compute. reflexivity.
  - vm_compute. reflexivity.
  - discriminate.
  - discriminate.
  - reflexivity.
Defined.

(** *** Character variables of fixed shape *)

Lemma Qeq_bool_positive (w : Z) : 0 < w -> Qeq_bool (inject_Z w) 0 = false.
Proof.
  intros Hw. unfold Qeq_bool. simpl. rewrite Z.mul_1_r. apply Z.eqb_neq. lia.
Qed.

Lemma quotient_le (size w len : Z) :
  0 < w ->
  (inject_Z size / inject_Z w <= inject_Z len)%Q <-> size <= len * w.
Proof.
  intros Hw.
  assert (Hq : (0 < inject_Z w)%Q) by (change (inject_Z 0 < inject_Z w)%Q; rewrite <- Zlt_Qlt; exact Hw).
  assert (Hnz : ~ (inject_Z w == 0)%Q) by (intros H; rewrite H in Hq; now apply Qlt_irrefl in Hq).
  rewrite Zle_Qle, inject_Z_mult. split.
  - intros H. apply (Qmult_le_compat_r _ _ (inject_Z w)) in H; [|now apply Qlt_le_weak].
    rewrite Qmult_comm, Qmult_div_r in H by exact Hnz. exact H.
  - intros H. apply Qle_shift_div_r; assumption.
Qed.

Lemma num_lt_quotient (len size w : Z) :
  0 < w ->
  num_lt (PyInt len) (PyFloat (Qred (inject_Z size / inject_Z w))) = (len * w <? size).
Proof.
  intros Hw. unfold num_lt. cbn [num_Q].
  rewrite Z.ltb_antisym. f_equal.
  apply eq_iff_eq_true. rewrite Qle_bool_iff, Qred_correct, Z.leb_le.
  apply quotient_le. exact Hw.
Qed.

Lemma pad_array_text (var : variable) (q : Q) (arr : list value) :
  var_dtype var = NC_CHAR ->
  pad_array var (PyFloat q) arr = Raise (text_padding_error var).
Proof.
  intros Hchar. unfold pad_array, text_padding_error.
  destruct (var_attrs var !! "_FillValue"); [reflexivity|].
  destruct (var_attrs var !! "missing_value"); [reflexivity|].
  rewrite Hchar. reflexivity.
Qed.

Lemma write_var_data_text_run {sink : Sink} (p : parser) (ds : dataset)
    (varname : string) (var : variable) (shape : list Z) (w : Z) (arr : list value) :
  ncdataset p = Some ds ->
  variables ds !! varname = Some var ->
  var_shape ds var = Some shape ->
  var_dimensions var <> [] ->
  var_dtype var = NC_CHAR ->
  is_record_variable p var = false ->
  last shape = Some w ->
  0 < w ->
  exists before,
    ncdataset before = Some ds /\
    write_var_data varname arr p =
      if Z.of_nat (List.length arr) * w <? shape_size shape
      then (Raise (text_padding_error var), before)
      else
        match put_char_data ds varname var shape arr (PyInt 0) with
        | Ok ds' => (Ok arr, with_dataset ds' before)
        | Raise _ => (Raise (CDLContentError (WriteFailed varname)), before)
        end.
Proof.
  intros Hds Hvar Hshape Hdims Hchar Hrec Hlast Hw.
  destruct (shape_nonempty ds var shape Hshape Hdims) as (Hnd & Hnd' & _).
  unfold write_var_data.
  unfold bind at 1. unfold the_dataset. rewrite Hds, Hvar, Hshape.
  unfold bind at 1. unfold log at 1, modify at 1.
  unfold bind at 1. unfold gets at 1. rewrite Hnd, Hnd', Hchar, Hlast.
  change (String.eqb (dtype_kind NC_CHAR) "S") with true. cbn [andb].
  unfold bind at 1. unfold lift at 1, num_truediv. cbn [num_Q].
  rewrite (Qeq_bool_positive w Hw).
  unfold bind at 1. unfold log at 1, modify at 1.
  unfold bind at 1.
  set (varlen := PyFloat (Qred (inject_Z (shape_size shape) / inject_Z w))).
  set (p1 := with_log DEBUG (ArrayLength (Z.of_nat (List.length arr)))
               (with_log DEBUG (ScanningData varname) p)).
  assert (Hexp : exists p2,
    (if num_truthy varlen then log DEBUG (ExpectedLength varlen) else ret ()) p1
      = (Ok tt, p2) /\ rec_dimname p2 = rec_dimname p /\ ncdataset p2 = Some ds)
    by (destruct (num_truthy _); eexists; repeat split; exact Hds).
  destruct Hexp as (p2 & -> & Hrec2 & Hds2).
  unfold bind at 1. cbn [rec_dimname with_log]. rewrite <- Hrec2.
  rewrite (not_record_lengths ds var shape p p2 _ _ Hrec Hrec2).
  subst varlen. rewrite (num_lt_quotient _ _ _ Hw).
  exists p2. split; [exact Hds2|].
  destruct (Z.of_nat (List.length arr) * w <? shape_size shape).
  - unfold bind at 1. unfold bind at 1. unfold lift at 1.
    rewrite pad_array_text by exact Hchar. reflexivity.
  - unfold bind, ret, try_except, lift, modify.
    destruct (put_char_data ds varname var shape arr (PyInt 0)); reflexivity.
Qed.

(** X17: for a character variable of fixed shape, a data statement with fewer
    strings than the variable has rows always fails in the padding step and
    hands nothing to the store.  If the variable has neither [_FillValue]
    nor [missing_value], [CDLContentError] is raised (its type character
    ['c'] has no default fill value); if it has one, [TypeError] is raised
    (the expected length is a float, and the fill value cannot be repeated a
    float number of times). *)
Theorem text_variable_too_few_strings {sink : Sink} (p : parser) (ds : dataset)
    (varname : string) (var : variable) (shape : list Z) (w : Z) (arr : list value) :
  ncdataset p = Some ds ->
  variables ds !! varname = Some var ->
  var_shape ds var = Some shape ->
  var_dimensions var <> [] ->
  var_dtype var = NC_CHAR ->
  is_record_variable p var = false ->
  last shape = Some w ->
  0 < w ->
  Z.of_nat (List.length arr) * w < shape_size shape ->
  fst (write_var_data varname arr p) =
    Raise (match var_attrs var !! "_FillValue", var_attrs var !! "missing_value" with
           | None, None => CDLContentError (UnrecognisedDataType "c")
           | _, _ => TypeError
           end) /\
  ncdataset (snd (write_var_data varname arr p)) = Some ds.
Proof.
  intros Hds Hvar Hshape Hdims Hchar Hrec Hlast Hw Hfew.
  destruct (write_var_data_text_run p ds varname var shape w arr
              Hds Hvar Hshape Hdims Hchar Hrec Hlast Hw) as (before & Hbefore & ->).
  apply Z.ltb_lt in Hfew. rewrite Hfew. split; [reflexivity | exact Hbefore].
Qed.

Lemma text_variable_too_few_strings_witness :
  let var := mkVariable NC_CHAR ["n"; "w"] {[ "missing_value" := Scalar (SStr "x") ]} in
  fst (@write_var_data accepting_sink "c" [text "ab"; text "cd"] text_missing_parser) =
    Raise (match var_attrs var !! "_FillValue", var_attrs var !! "missing_value" with
           | None, None => CDLContentError (UnrecognisedDataType "c")
           | _, _ => TypeError
           end) /\
  ncdataset (snd (@write_var_data accepting_sink "c" [text "ab"; text "cd"]
                    text_missing_parser))
    = Some text_missing_dataset.
Proof.
  apply (@text_variable_too_few_strings accepting_sink text_missing_parser
           text_missing_dataset "c"
           (mkVariable NC_CHAR ["n"; "w"] {[ "missing_value" := Scalar (SStr "x") ]})
           [3; 5] 5).
  - reflexivity.
  - vm_compute. reflexivity.
  - vm_compute. reflexivity.
  - discriminate.
  - reflexivity.
  - reflexivity.
  - reflexivity.
  - lia.
  - vm_compute. reflexivity.
Defined.

(** X18: for a character variable of fixed shape given at least as many strings
    as it has rows, a data statement hands the store the variable's own
    shape and one row per string, each cut or NUL-padded to the length of the
    last dimension; surplus strings are passed on, and the only error is
    the store refusing the array. *)
Theorem text_variable_enough_strings {sink : Sink} (p : parser) (ds : dataset)
    (varname : string) (var : variable) (shape : list Z) (w : Z) (strs : list string) :
  ncdataset p = Some ds ->
  variables ds !! varname = Some var ->
  var_shape ds var = Some shape ->
  var_dimensions var <> [] ->
  var_dtype var = NC_CHAR ->
  is_record_variable p var = false ->
  last shape = Some w ->
  0 < w ->
  shape_size shape <= Z.of_nat (List.length strs) * w ->
  let request :=
    mkArray NC_CHAR (PyInt <$> shape) (text <$> (fixed_width (Z.to_nat w) <$> strs)) in
  fst (write_var_data varname (text <$> strs) p) =
    match nc_setitem ds varname request with
    | Some _ => Ok (text <$> strs)
    | None => Raise (CDLContentError (WriteFailed varname))
    end /\
  ncdataset (snd (write_var_data varname (text <$> strs) p)) =
    Some (default ds (nc_setitem ds varname request)).
Proof.
  intros Hds Hvar Hshape Hdims Hchar Hrec Hlast Hw Henough request.
  destruct (write_var_data_text_run p ds varname var shape w (text <$> strs)
              Hds Hvar Hshape Hdims Hchar Hrec Hlast Hw) as (before & Hbefore & ->).
  rewrite length_fmap.
  replace (Z.of_nat (List.length strs) * w <? shape_size shape) with false
    by (symmetry; apply Z.ltb_ge; exact Henough).
  destruct (shape_nonempty ds var shape Hshape Hdims) as (_ & Hnd & _).
  unfold put_char_data. rewrite Hnd, Hlast. cbn [default].
  rewrite (str_list_to_char_arr_texts strs w Hw).
  unfold target_shape. rewrite num_truthy_int. cbn [Z.eqb negb].
  rewrite Hchar. change (fun s : string => Scalar (SStr s)) with text. fold request.
  destruct (nc_setitem ds varname request); simpl; split;
    first [reflexivity | exact Hbefore].
Qed.

Lemma text_variable_enough_strings_witness :
  let request :=
    mkArray NC_CHAR (PyInt <$> [3; 5])
      (text <$> (fixed_width (Z.to_nat 5) <$> ["ab"; "cdefgh"; ""; "x"])) in
  fst (@write_var_data accepting_sink "c" (text <$> ["ab"; "cdefgh"; ""; "x"]) text_parser) =
    match @nc_setitem accepting_sink text_dataset "c" request with
    | Some _ => Ok (text <$> ["ab"; "cdefgh"; ""; "x"])
    | None => Raise (CDLContentError (WriteFailed "c"))
    end /\
  ncdataset (snd (@write_var_data accepting_sink "c"
                    (text <$> ["ab"; "cdefgh"; ""; "x"]) text_parser)) =
    Some (default text_dataset (@nc_setitem accepting_sink text_dataset "c" request)).
Proof.
  apply (@text_variable_enough_strings accepting_sink text_parser text_dataset "c"
           (mkVariable NC_CHAR ["n"; "w"] ∅) [3; 5] 5 ["ab"; "cdefgh"; ""; "x"]).
  - reflexivity.
  - vm_compute. reflexivity.
  - vm_compute. reflexivity.
  - discriminate.
  - reflexivity.
  - reflexivity.
  - reflexivity.
  - lia.
  - vm_compute. discriminate.
Defined.

(** ** Attribute declarations *)

Lemma duplicate_global_attribute {sink : Sink} (p : parser) (ds : dataset)
    (attr : string) (x : value) (vals : list scalar) :
  ncdataset p = Some ds ->
  ncattrs ds !! attr = Some x ->
  p_gattdecl attr vals p =
    (Raise (CDLContentError (DuplicateGlobalAttribute (String ":" attr))), p).
Proof.
  intros Hds Hx. unfold p_gattdecl, bind, gets. rewrite Hds.
  unfold set_attribute. cbn [first_char tail_string].
  change (Ascii.eqb ":" ":") with true. cbv iota.
  unfold bind, the_dataset. rewrite Hds.
  destruct (decide (is_Some (ncattrs ds !! attr))) as [_|Hno];
    [reflexivity | exfalso; apply Hno; eauto].
Qed.

Lemma duplicate_variable_attribute {sink : Sink} (p : parser) (ds : dataset)
    (varname attr : string) (var : variable) (x : value) (vals : list scalar) :
  ncdataset p = Some ds ->
  varname <> "" ->
  contains ":" varname = false ->
  contains ":" attr = false ->
  variables ds !! varname = Some var ->
  var_attrs var !! attr = Some x ->
  p_attdecl varname attr vals p =
    (Raise (CDLContentError (InvalidAttributeName (varname ++ String ":" attr))), p).
Proof.
  intros Hds Hne Hv Ha Hvar Hx.
  unfold p_attdecl, bind, gets. rewrite Hds. unfold set_attribute.
  destruct (first_char_join ":" varname attr Hne Hv) as (c & -> & ->).
  rewrite (split_on_join ":" varname attr Hv Ha).
  unfold try_except, bind, the_dataset. rewrite Hds, Hvar.
  destruct (decide (is_Some (var_attrs var !! attr))) as [_|Hno];
    [reflexivity | exfalso; apply Hno; eauto].
Qed.

(** X19: an attribute can be declared once per owner: after a declaration
    that the store has accepted, declaring the same name for the same owner
    again raises [CDLContentError] and leaves the parser, and so the stored
    value, as it was.  For a global attribute the error says "duplicate";
    for a variable's attribute the duplicate is reported as an invalid
    attribute name. *)
Theorem attribute_declared_twice {sink : Sink} (p : parser) (ds : dataset) (o : owner)
    (attr : string) (vals vals' : list scalar) (x : value) :
  ncdataset p = Some ds ->
  owner_declared ds o ->
  contains ":" attr = false ->
  attribute_of ds o attr = None ->
  coerced ds o attr (match vals with [v] => Scalar v | _ => Values vals end) = Some x ->
  store_accepts ds o attr x = true ->
  exists p' ds',
    declare_attribute o attr vals p = (Ok tt, p') /\
    ncdataset p' = Some ds' /\
    attribute_of ds' o attr = Some x /\
    declare_attribute o attr vals' p' =
      (Raise (CDLContentError
                match o with
                | Global => DuplicateGlobalAttribute (String ":" attr)
                | OfVariable varname => InvalidAttributeName (varname ++ String ":" attr)
                end), p').
Proof.
  intros Hds Hown Hattr Hfree Hco Hok. destruct o as [|varname];
    simpl declare_attribute; simpl in Hok.
  - simpl in Hco. injection Hco as Hx. simpl in Hfree.
    rewrite (set_global_attribute p ds Hds attr vals x Hfree (eq_sym Hx)), Hok.
    do 2 eexists. split; [reflexivity|]. split; [reflexivity|].
    split; [apply attribute_of_setncattr|].
    eapply duplicate_global_attribute; [reflexivity|].
    simpl. apply lookup_insert_eq.
  - destruct Hown as (Hne & Hv & [var Hvar]).
    simpl in Hfree. rewrite Hvar in Hfree.
    rewrite (set_variable_attribute p ds Hds varname attr var vals x
               Hne Hv Hattr Hvar Hfree Hco), Hok.
    do 2 eexists. split; [reflexivity|]. split; [reflexivity|].
    split; [now apply attribute_of_var_setncattr with (var := var)|].
    apply (duplicate_variable_attribute _ (var_setncattr varname attr x ds) varname attr
             (mkVariable (var_dtype var) (var_dimensions var)
                (<[attr := x]> (var_attrs var))) x vals');
      try assumption.
    + reflexivity.
    + simpl. rewrite lookup_alter_eq, Hvar. reflexivity.
    + simpl. apply lookup_insert_eq.
Qed.

Lemma attribute_declared_twice_witness :
  exists p' ds',
    @declare_attribute classic_store (OfVariable "v") "units" [SStr "m"] one_variable_parser
      = (Ok tt, p') /\
    ncdataset p' = Some ds' /\
    attribute_of ds' (OfVariable "v") "units" = Some (Scalar (SStr "m")) /\
    @declare_attribute classic_store (OfVariable "v") "units" [SStr "km"; SStr "mi"] p' =
      (Raise (CDLContentError (InvalidAttributeName ("v" ++ String ":" "units"))), p').
Proof.
  apply (@attribute_declared_twice classic_store one_variable_parser one_variable
           (OfVariable "v") "units" [SStr "m"] [SStr "km"; SStr "mi"]).
  - reflexivity.
  - split; [discriminate|]. split; [reflexivity|]. vm_compute. eauto.
  - reflexivity.
  - vm_compute. reflexivity.
  - reflexivity.
  - reflexivity.
Defined.

(** X20: whatever goes wrong in a variable-scope attribute declaration (unknown
    variable, duplicate name, a [_FillValue] the variable's type cannot
    hold, an identifier with a further colon, the store refusing the
    value), the error raised is [CDLContentError] "invalid attribute name",
    and the parser is left as it was. *)
Theorem variable_attribute_failures {sink : Sink} (p : parser) (ds : dataset)
    (varname attr : string) (vals : list scalar) (c : ascii) (e : exn) (p' : parser) :
  ncdataset p = Some ds ->
  first_char varname = Some c ->
  Ascii.eqb c ":" = false ->
  p_attdecl varname attr vals p = (Raise e, p') ->
  e = CDLContentError (InvalidAttributeName (varname ++ String ":" attr)) /\ p' = p.
Proof.
  intros Hds Hc Hcolon. unfold p_attdecl, bind, gets. rewrite Hds.
  unfold set_attribute.
  assert (Hfirst : first_char (varname ++ String ":" attr) = Some c)
    by (destruct varname; [discriminate Hc | exact Hc]).
  rewrite Hfirst, Hcolon.
  unfold try_except, bind, the_dataset, raise, ret, modify, log.
  destruct (split_on ":" (varname ++ String ":" attr)) as [|v [|a [|x l]]];
    try (intros H; injection H as <- <-; split; reflexivity).
  rewrite Hds.
  destruct (variables ds !! v) as [var|];
    [|intros H; injection H as <- <-; split; reflexivity].
  destruct (decide (is_Some (var_attrs var !! a)));
    [intros H; injection H as <- <-; split; reflexivity|].
  destruct (String.eqb a "_FillValue").
  - destruct (np_cast (var_dtype var) _) as [cast|];
      [|intros H; injection H as <- <-; split; reflexivity].
    destruct (var_setncattr_ok ds v a cast);
      [discriminate | intros H; injection H as <- <-; split; reflexivity].
  - destruct (var_setncattr_ok ds v a _);
      [discriminate | intros H; injection H as <- <-; split; reflexivity].
Qed.

Lemma variable_attribute_failures_witness :
  CDLContentError (InvalidAttributeName ("w" ++ String ":" "units"))
    = CDLContentError (InvalidAttributeName ("w" ++ String ":" "units")) /\
  one_variable_parser = one_variable_parser.
Proof.
  apply (@variable_attribute_failures accepting_sink one_variable_parser one_variable
           "w" "units" [SStr "m"] "w"%char).
  - reflexivity.
  - reflexivity.
  - reflexivity.
  - vm_compute. reflexivity.
Defined.

(** X21: round trip through the attribute store: once a fill attribute
    ([_FillValue] or [missing_value]) has been declared for a variable that
    had neither, and the store has accepted it, [pad_array] extends that
    variable's data with the stored value, whatever the list and the integer
    target length.  The placeholder [_] in the data of a numeric variable
    becomes the stored value only if the attribute is [_FillValue]; after a
    [missing_value] declaration it is still the default of the type. *)
Theorem declared_fill_value_is_used {sink : Sink} (p : parser) (ds : dataset)
    (varname attr : string) (var : variable) (x : scalar) (fv : value) :
  ncdataset p = Some ds ->
  varname <> "" ->
  contains ":" varname = false ->
  variables ds !! varname = Some var ->
  var_attrs var !! "_FillValue" = None ->
  var_attrs var !! "missing_value" = None ->
  attr = "_FillValue" \/ attr = "missing_value" ->
  coerced ds (OfVariable varname) attr (Scalar x) = Some fv ->
  var_setncattr_ok ds varname attr fv = true ->
  exists p' var',
    attribute_statement varname attr [x] p = (Ok tt, p') /\
    current_variable p' = Some var' /\
    (forall n arr,
       pad_array var' (PyInt n) arr =
         Ok (arr ++ replicate (Z.to_nat (n - Z.of_nat (List.length arr))) fv)) /\
    (var_dtype var <> NC_CHAR ->
     p_const (SStr "_") p' =
       (Ok (if String.eqb attr "_FillValue" then fv
            else Scalar (default_fill (var_dtype var))), p')).
Proof.
  intros Hds Hne Hv Hvar Hfv Hmv Hattr Hco Hok.
  assert (Hcolon : contains ":" attr = false) by (destruct Hattr as [->| ->]; reflexivity).
  assert (Hfree : var_attrs var !! attr = None) by (destruct Hattr as [->| ->]; assumption).
  unfold attribute_statement. unfold bind at 1.
  rewrite (p_avar_declared varname p ds var Hds Hvar).
  set (p1 := with_log DEBUG (CurrentVariable varname) (with_curr_var varname p)).
  assert (Hds1 : ncdataset p1 = Some ds) by exact Hds.
  rewrite (set_variable_attribute p1 ds Hds1 varname attr var [x] fv
             Hne Hv Hcolon Hvar Hfree Hco), Hok.
  set (var' := mkVariable (var_dtype var) (var_dimensions var)
                 (<[attr := fv]> (var_attrs var))).
  set (p2 := with_log INFO (CreatedAttribute varname attr fv)
               (with_dataset (var_setncattr varname attr fv ds) p1)).
  assert (Hcv : current_variable p2 = Some var').
  { unfold current_variable. simpl. rewrite lookup_alter_eq, Hvar. reflexivity. }
  exists p2, var'. split; [reflexivity|]. split; [exact Hcv|]. split.
  - intros n arr. unfold pad_array. subst var'. cbn [var_attrs].
    destruct Hattr as [->| ->].
    + rewrite lookup_insert_eq. reflexivity.
    + rewrite lookup_insert_ne by discriminate. rewrite Hfv, lookup_insert_eq. reflexivity.
  - intros Hnum.
    rewrite (p_const_placeholder_numeric (SStr "_") p2 var' eq_refl Hcv Hnum).
    subst var'. cbn [var_attrs var_dtype].
    destruct Hattr as [->| ->].
    + rewrite lookup_insert_eq. reflexivity.
    + rewrite lookup_insert_ne by discriminate. rewrite Hfv. reflexivity.
Qed.

Lemma declared_fill_value_is_used_witness :
  exists p' var',
    @attribute_statement classic_store "v" "missing_value" [SInt32 (-1)] one_variable_parser
      = (Ok tt, p') /\
    current_variable p' = Some var' /\
    (forall n arr,
       pad_array var' (PyInt n) arr =
         Ok (arr ++ replicate (Z.to_nat (n - Z.of_nat (List.length arr)))
                      (Scalar (SInt32 (-1))))) /\
    (var_dtype (mkVariable NC_INT ["d"] ∅) <> NC_CHAR ->
     p_const (SStr "_") p' =
       (Ok (if String.eqb "missing_value" "_FillValue" then Scalar (SInt32 (-1))
            else Scalar (default_fill (var_dtype (mkVariable NC_INT ["d"] ∅)))), p')).
Proof.
  apply (@declared_fill_value_is_used classic_store one_variable_parser one_variable
           "v" "missing_value" (mkVariable NC_INT ["d"] ∅) (SInt32 (-1))
           (Scalar (SInt32 (-1)))).
  - reflexivity.
  - discriminate.
  - reflexivity.
  - vm_compute. reflexivity.
  - vm_compute. reflexivity.
  - vm_compute. reflexivity.
  - right. reflexivity.
  - vm_compute. reflexivity.
  - reflexivity.
Defined.

(** ** Record variables *)

Lemma write_var_data_first_records_witness :
  fst (@write_var_data accepting_sink "v" twelve records_parser) =
    if 12 mod inferred_reclen records_dataset (mkVariable NC_INT ["time"; "x"] ∅) "time" =? 0
    then
      match @nc_setitem accepting_sink records_dataset "v"
              (mkArray NC_INT
                 (PyFloat (Qred (inject_Z 12 /
                                 inject_Z (inferred_reclen records_dataset
                                             (mkVariable NC_INT ["time"; "x"] ∅) "time")))
                  :: (PyInt <$> tail [0; 4]))
                 twelve) with
      | Some _ => Ok twelve
      | None => Raise (CDLContentError (WriteFailed "v"))
      end
    else Raise (CDLContentError
                  (RecordLengthNotFactor
                     (PyInt (inferred_reclen records_dataset
                               (mkVariable NC_INT ["time"; "x"] ∅) "time"))
                     (PyInt 12))).
Proof.
  apply (@write_var_data_first_records accepting_sink records_parser records_dataset
           "v" (mkVariable NC_INT ["time"; "x"] ∅) [0; 4] "time" (mkDimension 0 true) twelve).
  - reflexivity.
  - vm_compute. reflexivity.
  - vm_compute. reflexivity.
  - discriminate.
  - reflexivity.
  - simpl. apply elem_of_cons. left. reflexivity.
  - vm_compute. reflexivity.
  - simpl. lia.
  - intros n dim Hn Hne Hdim. simpl in Hn.
    apply elem_of_cons in Hn as [->|Hn]; [contradiction|].
    apply list_elem_of_singleton in Hn as ->.
    vm_compute in Hdim. injection Hdim as <-. reflexivity.
  - intros _. vm_compute. discriminate.
  - vm_compute. intros H. exfalso. apply H. reflexivity.
Defined.

Lemma positive_Q (z : Z) : 0 < z -> (0 < inject_Z z)%Q.
Proof. intros Hz. change (inject_Z 0 < inject_Z z)%Q. rewrite <- Zlt_Qlt. exact Hz. Qed.

Lemma nonzero_Q (z : Z) : 0 < z -> ~ (inject_Z z == 0)%Q.
Proof.
  intros Hz H. pose proof (positive_Q z Hz) as Hq. rewrite H in Hq.
  now apply Qlt_irrefl in Hq.
Qed.

Lemma Qred_inject_Z (z : Z) : Qred (inject_Z z) = inject_Z z.
Proof.
  unfold Qred, inject_Z.
  pose proof (Z.ggcd_gcd z 1) as Hg. pose proof (Z.ggcd_correct_divisors z 1) as Hd.
  destruct (Z.ggcd z 1) as (g, (a, b)). simpl in Hg, Hd. simpl.
  rewrite Z.gcd_1_r in Hg. subst g. destruct Hd as [Ha Hb].
  assert (a = z) as -> by lia. assert (b = 1) as -> by lia. reflexivity.
Qed.

Lemma record_quotient_nonzero (size k : Z) :
  0 < size -> 0 < k -> Qeq_bool (Qred (inject_Z size / inject_Z k)) 0 = false.
Proof.
  intros Hs Hk. destruct (Qeq_bool _ 0) eqn:E; [|reflexivity].
  apply Qeq_bool_iff in E. rewrite Qred_correct in E.
  assert (H : (0 < inject_Z size / inject_Z k)%Q).
  { apply Qlt_shift_div_l; [now apply positive_Q|]. rewrite Qmult_0_l. now apply positive_Q. }
  rewrite E in H. now apply Qlt_irrefl in H.
Qed.

(** [size % (size / k)] is zero: the quotient divides [size] exactly [k]
    times. *)
Lemma record_remainder_zero (size k : Z) :
  0 < size -> 0 < k ->
  num_mod (PyInt size) (PyFloat (Qred (inject_Z size / inject_Z k))) = Ok (PyFloat 0).
Proof.
  intros Hs Hk. unfold num_mod. cbn [num_Q].
  rewrite (record_quotient_nonzero size k Hs Hk).
  pose proof (nonzero_Q size Hs) as Hsz. pose proof (nonzero_Q k Hk) as Hkz.
  assert (Hfloor : Qfloor (inject_Z size / Qred (inject_Z size / inject_Z k)) = k).
  { rewrite <- (Qfloor_Z k) at 2. apply Qfloor_comp.
    rewrite Qred_correct. field. split; assumption. }
  rewrite Hfloor. do 2 f_equal.
  change 0%Q with (Qred 0). apply Qred_complete.
  rewrite Qred_correct. field. exact Hkz.
Qed.

Lemma write_var_data_later_records_run {sink : Sink} (p : parser) (ds : dataset)
    (varname : string) (var : variable) (shape : list Z) (r : string)
    (d : dimension) (arr : list value) :
  ncdataset p = Some ds ->
  variables ds !! varname = Some var ->
  var_shape ds var = Some shape ->
  var_dtype var <> NC_CHAR ->
  rec_dimname p = Some r ->
  r ∈ var_dimensions var ->
  dimensions ds !! r = Some d ->
  0 < dim_len d ->
  0 < shape_size shape ->
  let data := padded_to var (shape_size shape) arr in
  let reclen := Qred (inject_Z (shape_size shape) / inject_Z (dim_len d)) in
  fst (write_var_data varname arr p) =
    match nc_setitem ds varname
            (mkArray (var_dtype var)
               (PyFloat (Qred (inject_Z (Z.of_nat (List.length data)) / reclen))
                  :: (PyInt <$> tail shape))
               data) with
    | Some _ => Ok data
    | None => Raise (CDLContentError (WriteFailed varname))
    end.
Proof.
  intros Hds Hvar Hshape Hnum Hname Hrec Hdim Hk Hsize data reclen.
  assert (Hdims : var_dimensions var <> [])
    by (intros H; rewrite H in Hrec; now apply elem_of_nil in Hrec).
  destruct (shape_nonempty ds var shape Hshape Hdims) as (Hnd & _ & Hne).
  unfold write_var_data.
  unfold bind at 1. unfold the_dataset. rewrite Hds, Hvar, Hshape.
  unfold bind at 1. unfold log at 1, modify at 1.
  unfold bind at 1. unfold gets at 1. cbn [rec_dimname with_log].
  rewrite Hname, Hnd, (numeric_kind _ Hnum).
  cbn [andb]. unfold bind at 1. unfold ret at 1.
  unfold bind at 1. unfold log at 1, modify at 1.
  unfold bind at 1.
  set (p1 := with_log DEBUG (ArrayLength (Z.of_nat (List.length arr)))
               (with_log DEBUG (ScanningData varname) p)).
  assert (Hexp : exists p2,
    (if num_truthy (PyInt (shape_size shape))
     then log DEBUG (ExpectedLength (PyInt (shape_size shape)))
     else ret ()) p1 = (Ok tt, p2))
    by (destruct (num_truthy _); eexists; reflexivity).
  destruct Hexp as [p2 ->].
  unfold bind at 1. unfold record_lengths.
  rewrite bool_decide_eq_true_2 by exact Hrec. rewrite Hdim.
  replace (dim_len d >? 0) with true by (symmetry; rewrite Z.gtb_ltb; now apply Z.ltb_lt).
  unfold bind at 1. unfold bind at 1. unfold lift at 1, num_truediv at 1. cbn [num_Q].
  rewrite (Qeq_bool_positive _ Hk).
  unfold ret at 1. unfold bind at 1. unfold lift at 1.
  fold reclen. unfold reclen at 1.
  rewrite (record_remainder_zero _ _ Hsize Hk).
  change (num_truthy (PyFloat 0)) with false. cbv iota.
  unfold bind at 1. unfold log at 1, modify at 1. unfold ret at 1.
  rewrite num_lt_int. unfold bind at 1.
  assert (Hq : Qeq_bool reclen 0 = false) by (apply record_quotient_nonzero; assumption).
  assert (Hput : forall l,
    put_numeric_data ds varname var shape l (PyFloat reclen) =
      match nc_setitem ds varname
              (mkArray (var_dtype var)
                 (PyFloat (Qred (inject_Z (Z.of_nat (List.length l)) / reclen))
                    :: (PyInt <$> tail shape)) l) with
      | Some ds' => Ok ds'
      | None => Raise LibraryError
      end).
  { intros l. unfold put_numeric_data, target_shape, num_truthy, num_truediv. cbn [num_Q].
    rewrite Hq. cbn [negb]. destruct shape as [|s0 rest]; [congruence|]. reflexivity. }
  subst data. unfold padded_to.
  destruct (Z.of_nat (List.length arr) <? shape_size shape).
  - unfold bind at 1. unfold lift at 1. rewrite pad_array_int by (left; exact Hnum).
    unfold bind, log, modify, ret, try_except, lift. rewrite Hput.
    destruct (nc_setitem _ _ _); reflexivity.
  - unfold bind, log, modify, ret, try_except, lift. rewrite Hput.
    destruct (nc_setitem _ _ _); reflexivity.
Qed.

(** X23: data for a numeric record variable whose record dimension already has
    [k] records: the record length is the float [size / k], the factor
    check compares it with the variable's current size (never with the
    number of literals) and so always passes, fewer literals than the
    current size are padded with the effective fill value, and the array
    handed to the store has the float [len(arr) / (size / k)] as its
    leading extent. *)
Theorem write_var_data_later_records {sink : Sink} (p : parser) (ds : dataset)
    (varname : string) (var : variable) (shape : list Z) (r : string)
    (d : dimension) (arr : list value) :
  ncdataset p = Some ds ->
  variables ds !! varname = Some var ->
  var_shape ds var = Some shape ->
  var_dtype var <> NC_CHAR ->
  rec_dimname p = Some r ->
  r ∈ var_dimensions var ->
  dimensions ds !! r = Some d ->
  0 < dim_len d ->
  0 < shape_size shape ->
  let data := padded_to var (shape_size shape) arr in
  let reclen := Qred (inject_Z (shape_size shape) / inject_Z (dim_len d)) in
  let extent := Qred (inject_Z (Z.of_nat (List.length data)) / reclen) in
  fst (write_var_data varname arr p) =
    match nc_setitem ds varname
            (mkArray (var_dtype var) (PyFloat extent :: (PyInt <$> tail shape)) data) with
    | Some _ => Ok data
    | None => Raise (CDLContentError (WriteFailed varname))
    end /\
  (Z.of_nat (List.length arr) <= shape_size shape -> extent = inject_Z (dim_len d)).
Proof.
  intros Hds Hvar Hshape Hnum Hname Hrec Hdim Hk Hsize data reclen extent.
  split.
  - exact (write_var_data_later_records_run p ds varname var shape r d arr
             Hds Hvar Hshape Hnum Hname Hrec Hdim Hk Hsize).
  - intros Hle.
    assert (Hlen : Z.of_nat (List.length data) = shape_size shape).
    { subst data. unfold padded_to.
      destruct (Z.of_nat (List.length arr) <? shape_size shape) eqn:E.
      - rewrite length_app, length_replicate. apply Z.ltb_lt in E. lia.
      - apply Z.ltb_ge in E. lia. }
    subst extent reclen. rewrite Hlen.
    transitivity (Qred (inject_Z (dim_len d))); [|apply Qred_inject_Z].
    apply Qred_complete. rewrite Qred_correct. field.
    split; [now apply nonzero_Q | now apply nonzero_Q].
Qed.

Lemma write_var_data_later_records_witness :
  let var := mkVariable NC_INT ["time"; "x"] ∅ in
  let arr := [Scalar (SInt32 1); Scalar (SInt32 2)] in
  let data := padded_to var (shape_size [3; 4]) arr in
  let reclen := Qred (inject_Z (shape_size [3; 4]) / inject_Z 3) in
  let extent := Qred (inject_Z (Z.of_nat (List.length data)) / reclen) in
  fst (@write_var_data accepting_sink "v" arr grown_parser) =
    match @nc_setitem accepting_sink grown_dataset "v"
            (mkArray NC_INT (PyFloat extent :: (PyInt <$> tail [3; 4])) data) with
    | Some _ => Ok data
    | None => Raise (CDLContentError (WriteFailed "v"))
    end /\
  (Z.of_nat (List.length arr) <= shape_size [3; 4] -> extent = inject_Z 3).
Proof.
  apply (@write_var_data_later_records accepting_sink grown_parser grown_dataset
           "v" (mkVariable NC_INT ["time"; "x"] ∅) [3; 4] "time" (mkDimension 3 true)).
  - reflexivity.
  - vm_compute. reflexivity.
  - vm_compute. reflexivity.
  - discriminate.
  - reflexivity.
  - simpl. apply elem_of_cons. left. reflexivity.
  - vm_compute. reflexivity.
  - simpl. lia.
  - vm_compute. reflexivity.
Defined.

(** ** Character record variables *)

(** C8: the data statement [c = "ab", "cdefg"] for [char c(time, w)] with
    [w = 5] and [time] unlimited.  The record length is taken as the
    product of the positive dimension lengths, 5 characters, and compared
    with the number of strings, 2: the statement raises [CDLContentError]
    ("record length 5 is not a factor of variable length 2"), whatever the
    store would accept, and the strings are never packed; the dataset is as
    before.  Handed to [put_char_data] directly, the same two strings are
    packed as [ab\0\0\0] and [cdefg]. *)
Theorem text_record_statement_is_rejected (sink : Sink) :
  var_shape text_rows_dataset (mkVariable NC_CHAR ["time"; "w"] ∅) = Some [0; 5] /\
  fst (@data_statement sink "c" [SStr "ab"; SStr "cdefg"] text_rows_parser)
    = Raise (CDLContentError (RecordLengthNotFactor (PyInt 5) (PyInt 2))) /\
  ncdataset (snd (@data_statement sink "c" [SStr "ab"; SStr "cdefg"] text_rows_parser))
    = Some text_rows_dataset /\
  @str_list_to_char_arr sink [text "ab"; text "cdefg"] 5
    = Some [("ab" ++ nuls 3)%string; "cdefg"].
Proof. vm_compute. repeat split; reflexivity. Qed.
